(** * bill-splitter-py: the receipt functions of [function_app.py]

    A shallow embedding of the three Azure Functions handlers
    ([get_upload_url], [get_receipt_results], [AnalyzeReceipt]) together
    with the parts of the Python runtime they rely on: exceptions,
    [str.split], [os.path.splitext], truthiness, [sum], [round] and the
    [json] encoder and decoder. *)

From Stdlib Require Import ZArith NArith Ascii String List Bool Lia.
From Stdlib Require Import Decimal DecimalString DecimalFacts DecimalN DecimalZ.
From stdpp Require Import base option list strings gmap.

Local Open Scope string_scope.
Local Open Scope Z_scope.

#[local] Set Warnings "-register-all".
#[local] Arguments String.append !_ _ / : simpl nomatch.


(** ** Exceptions

    Python code either returns a value or raises.  Only the exception
    classes the handlers can tell apart (or that the runtime functions
    below raise) are named; [ServiceError] stands for whatever else an
    Azure client raises (credentials, network, service faults). *)

Inductive exn : Type :=
  | AttributeError
  | TypeError
  | KeyError
  | ValueError
  | JSONDecodeError
  | OverflowError
  | RecursionError
  | ResourceNotFoundError
  | ServiceError.

Inductive result (A : Type) : Type :=
  | Ok (a : A)
  | Raise (e : exn).

Arguments Ok {A} a.
Arguments Raise {A} e.

#[export] Instance exn_eq_dec : EqDecision exn.
Proof. solve_decision. Defined.

#[export] Instance result_ret : MRet result := fun _ a => Ok a.
#[export] Instance result_bind : MBind result := fun _ _ f m =>
  match m with
  | Ok a => f a
  | Raise e => Raise e
  end.

(** ** Python strings

    A [str] is modelled as a [string]: its characters are the code points
    0 to 255. *)

Module Str.

(** [s.split(sep)] for a one-character separator: the pieces between
    the separators, always at least one. *)
Fixpoint split (sep : ascii) (s : string) : list string :=
  match s with
  | "" => [""]
  | String c s' =>
      if Ascii.eqb c sep then "" :: split sep s'
      else match split sep s' with
           | [] => [String c ""]
           | p :: ps => String c p :: ps
           end
  end.

(** [l[-1]] on the result of a split, which is never empty. *)
Definition last_piece (l : list string) : string := List.last l "".

(** [s.rfind(c)]: the highest index of [c] in [s], [-1] when there is
    none. *)
Fixpoint rfind (c : ascii) (s : string) : Z :=
  match s with
  | "" => -1
  | String a s' =>
      let r := rfind c s' in
      if r =? -1 then (if Ascii.eqb a c then 0 else -1) else r + 1
  end.

(** [s[:i]] and [s[i:]] for [0 <= i]. *)
Fixpoint take (n : nat) (s : string) : string :=
  match n, s with
  | S n', String a s' => String a (take n' s')
  | _, _ => ""
  end.

Fixpoint drop (n : nat) (s : string) : string :=
  match n, s with
  | S n', String _ s' => drop n' s'
  | _, _ => s
  end.

Definition slice_to (i : Z) (s : string) : string := take (Z.to_nat i) s.
Definition slice_from (i : Z) (s : string) : string := drop (Z.to_nat i) s.

(** [any(ch != c for ch in s)] *)
Fixpoint has_other (c : ascii) (s : string) : bool :=
  match s with
  | "" => false
  | String a s' => negb (Ascii.eqb a c) || has_other c s'
  end.

Fixpoint mem (c : ascii) (s : string) : bool :=
  match s with
  | "" => false
  | String a s' => Ascii.eqb a c || mem c s'
  end.

End Str.

(** [os.path.splitext] on a POSIX host ([sep = "/"], no [altsep],
    [extsep = "."]), following [genericpath._splitext]: the extension
    starts at the last dot of the last path component, unless only dots
    precede it there. *)
Definition splitext (p : string) : string * string :=
  let sepIndex := Str.rfind "/" p in
  let dotIndex := Str.rfind "." p in
  if sepIndex <? dotIndex then
    (* the loop over [filenameIndex] from [sepIndex + 1] up to [dotIndex]
       returns at the first character that is not a dot *)
    if Str.has_other "."
         (Str.slice_to (dotIndex - (sepIndex + 1)) (Str.slice_from (sepIndex + 1) p))
    then (Str.slice_to dotIndex p, Str.slice_from dotIndex p)
    else (p, "")
  else (p, "").

Example splitext_jpg : splitext "abc123.jpg" = ("abc123", ".jpg").
Proof. reflexivity. Qed.

Example splitext_two_dots : splitext "a.b.jpg" = ("a.b", ".jpg").
Proof. reflexivity. Qed.

Example splitext_leading_dot : splitext ".jpg" = (".jpg", "").
Proof. reflexivity. Qed.

Example splitext_dir_dot : splitext "a.b/c" = ("a.b/c", "").
Proof. reflexivity. Qed.

Example split_last : Str.last_piece (Str.split "/" "receipts/abc123.jpg") = "abc123.jpg".
Proof. reflexivity. Qed.

(** ** Number literals of the [json] module

    [json.scanner.NUMBER_RE] has three groups: the integer (an optional
    minus sign, then either 0 or a non-zero digit and any digits), an
    optional fraction (a dot and at least one digit) and an optional
    exponent (e or E, an optional sign, at least one digit).  The
    functions below match them one after the other. *)

Module Num.

Definition is_digit (c : ascii) : bool :=
  match c with
  | "0" | "1" | "2" | "3" | "4" | "5" | "6" | "7" | "8" | "9" => true
  | _ => false
  end%char.

(** the longest prefix of digits, and what follows it *)
Fixpoint span_digits (s : string) : string * string :=
  match s with
  | "" => ("", "")
  | String c s' =>
      if is_digit c then
        let '(ds, r) := span_digits s' in (String c ds, r)
      else ("", s)
  end.

(** group 1: the integer *)
Definition match_unsigned (s : string) : option (string * string) :=
  match s with
  | "" => None
  | String c r =>
      if Ascii.eqb c "0" then Some ("0", r)
      else if is_digit c then
        let '(ds, r') := span_digits r in Some (String c ds, r')
      else None
  end.

Definition match_integer (s : string) : option (string * string) :=
  match s with
  | String "-" r =>
      match match_unsigned r with
      | Some (i, r') => Some (String "-" i, r')
      | None => None
      end
  | _ => match_unsigned s
  end.

(** group 2: the optional fraction *)
Definition match_frac (s : string) : string * string :=
  match s with
  | String "." r =>
      match span_digits r with
      | ("", _) => ("", s)
      | (ds, r') => (String "." ds, r')
      end
  | _ => ("", s)
  end.

(** group 3: the optional exponent *)
Definition match_exp (s : string) : string * string :=
  match s with
  | String c r =>
      if Ascii.eqb c "e" || Ascii.eqb c "E" then
        let '(sign, r1) :=
          match r with
          | String "+" r1 => ("+", r1)
          | String "-" r1 => ("-", r1)
          | _ => ("", r)
          end in
        match span_digits r1 with
        | ("", _) => ("", s)
        | (ds, r2) => (String c (sign ++ ds), r2)
        end
      else ("", s)
  | "" => ("", s)
  end.

(** [NUMBER_RE.match]: the groups [integer], [frac], [exp] and the rest
    of the text. *)
Definition match_number (s : string) : option (string * string * string * string) :=
  match match_integer s with
  | None => None
  | Some (i, r1) =>
      let '(f, r2) := match_frac r1 in
      let '(e, r3) := match_exp r2 in
      Some (i, f, e, r3)
  end.

(** A text that [NUMBER_RE] matches entirely, with a fraction or an
    exponent: what [json] hands to [float]. *)
Definition is_float_literal (s : string) : bool :=
  match match_number s with
  | Some (_, f, e, "") => negb (String.eqb f "" && String.eqb e "")
  | _ => false
  end.

(** [int.__repr__] and [int(literal)] *)
Definition int_repr (z : Z) : string := NilZero.string_of_int (Z.to_int z).

Definition int_of_string (s : string) : option Z :=
  option_map Z.of_int (NilZero.int_of_string s).

(** a character at which a number literal cannot go on *)
Definition ends_number (rest : string) : bool :=
  match rest with
  | "" => true
  | String c _ =>
      negb (is_digit c || Ascii.eqb c "." || Ascii.eqb c "e" || Ascii.eqb c "E")
  end.

End Num.

Example match_number_ex :
  Num.match_number "-12.50e+3, 4" = Some ("-12", ".50", "e+3", ", 4").
Proof. reflexivity. Qed.

Example match_number_leading_zero : Num.match_number "012" = Some ("0", "", "", "12").
Proof. reflexivity. Qed.

Example match_number_dot_alone : Num.match_number "1.e5" = Some ("1", "", "", ".e5").
Proof. reflexivity. Qed.

Example int_repr_ex : Num.int_repr (-1550) = "-1550" /\ Num.int_repr 0 = "0".
Proof. split; reflexivity. Qed.

(** ** Python floats

    The handlers never look inside a float: they test it for zero, add,
    round to two digits and hand it to [json].  Those operations form an
    interface, and every result below holds for each implementation of it
    that reads back what it prints. *)

Class PyFloat : Type := {
  float : Type;
  float_eq_dec :: EqDecision float;
  (** [x == 0], which makes [x] falsy *)
  float_is_zero : float -> bool;
  (** the coercion of an [int] operand in mixed arithmetic; [None] when
      the integer is too large ([OverflowError]) *)
  float_of_int : Z -> option float;
  float_add : float -> float -> float;
  (** the float loop of [sum]: the accumulator and the numbers that follow
      it, accumulated as the interpreter does (with a compensation term
      since CPython 3.12); [None] when an integer among them is too large *)
  float_sum : float -> list (Z + float) -> option float;
  (** [round(x, ndigits)] *)
  float_round : float -> Z -> float;
  (** [float('nan')], [float('inf')], [float('-inf')] *)
  float_nan : float;
  float_inf : float;
  float_neg_inf : float;
  (** [json.encoder.floatstr]: ["NaN"], ["Infinity"], ["-Infinity"] or
      [float.__repr__] *)
  float_json : float -> string;
  (** [float(s)] on a number literal *)
  float_of_string : string -> float;
  (** what [floatstr] prints reads back as the same float *)
  float_json_spec : forall x,
    (float_json x = "NaN" /\ float_nan = x) \/
    (float_json x = "Infinity" /\ float_inf = x) \/
    (float_json x = "-Infinity" /\ float_neg_inf = x) \/
    (Num.is_float_literal (float_json x) = true /\
     float_of_string (float_json x) = x)
}.

(** ** Python values

    The objects the handlers touch: [None], booleans, integers, floats,
    strings, lists, dictionaries with string keys (in insertion order) and
    any other object.  An object carries its [str()] and, when it has one,
    its [value] attribute: a [DocumentField] of the analysis result is an
    object with a [value]; a date, a [CurrencyValue] or an [AddressValue]
    is an object without. *)

Section Python.

Context `{PyFloat}.

Inductive pyval : Type :=
  | PNone
  | PBool (b : bool)
  | PInt (z : Z)
  | PFloat (x : float)
  | PStr (s : string)
  | PList (l : list pyval)
  | PDict (d : list (string * pyval))
  | PObj (repr : string) (value : option pyval).

(** [bool(v)] *)
Definition truthy (v : pyval) : bool :=
  match v with
  | PNone => false
  | PBool b => b
  | PInt z => negb (z =? 0)
  | PFloat x => negb (float_is_zero x)
  | PStr s => negb (String.eqb s "")
  | PList l => match l with [] => false | _ => true end
  | PDict d => match d with [] => false | _ => true end
  | PObj _ _ => true
  end.

(** [a or b] *)
Definition py_or (a b : pyval) : pyval := if truthy a then a else b.

(** [v.value] *)
Definition attr_value (v : pyval) : result pyval :=
  match v with
  | PObj _ (Some x) => Ok x
  | _ => Raise AttributeError
  end.

(** Dictionaries: lookup, and assignment [d[k] = v], which keeps the
    position of a key that is already there. *)
Fixpoint dict_lookup (k : string) (d : list (string * pyval)) : option pyval :=
  match d with
  | [] => None
  | (k', v) :: d' => if String.eqb k' k then Some v else dict_lookup k d'
  end.

Fixpoint dict_set (k : string) (v : pyval) (d : list (string * pyval))
  : list (string * pyval) :=
  match d with
  | [] => [(k, v)]
  | (k', v') :: d' =>
      if String.eqb k' k then (k', v) :: d' else (k', v') :: dict_set k v d'
  end.

(** [dict(pairs)] *)
Definition dict_of_pairs (pairs : list (string * pyval)) : list (string * pyval) :=
  fold_left (fun d kv => dict_set kv.1 kv.2 d) pairs [].

(** [v.get(k, default)]: only a dictionary has the method. *)
Definition py_get (v : pyval) (k : string) (dflt : pyval) : result pyval :=
  match v with
  | PDict d => Ok (default dflt (dict_lookup k d))
  | _ => Raise AttributeError
  end.

(** A Python dictionary has distinct keys; [well_formed] says so of every
    dictionary inside a value. *)
Fixpoint distinct (ks : list string) : bool :=
  match ks with
  | [] => true
  | k :: ks' => negb (existsb (String.eqb k) ks') && distinct ks'
  end.

Fixpoint well_formed (v : pyval) : bool :=
  match v with
  | PList l => forallb well_formed l
  | PDict d => distinct (map fst d) && forallb (fun kv => well_formed kv.2) d
  | PObj _ (Some x) => well_formed x
  | _ => true
  end.

(** [iter(v)], as the [for] statement calls it: a list yields its
    elements, a string its characters, a dictionary its keys. *)
Definition py_iter (v : pyval) : result (list pyval) :=
  match v with
  | PList l => Ok l
  | PStr s => Ok (map (fun c => PStr (String c "")) (list_ascii_of_string s))
  | PDict d => Ok (map (fun kv => PStr kv.1) d)
  | _ => Raise TypeError
  end.

(** Numbers: [bool] is a subclass of [int]. *)
Definition as_number (v : pyval) : option (Z + float) :=
  match v with
  | PBool b => Some (inl (Z.b2z b))
  | PInt z => Some (inl z)
  | PFloat x => Some (inr x)
  | _ => None
  end.

Definition to_float (z : Z) : result float :=
  match float_of_int z with
  | Some x => Ok x
  | None => Raise OverflowError
  end.

(** the numbers at the head of a list, and what follows them *)
Fixpoint number_prefix (l : list pyval) : list (Z + float) * list pyval :=
  match l with
  | [] => ([], [])
  | v :: l' =>
      match as_number v with
      | Some n => let '(ns, rest) := number_prefix l' in (n :: ns, rest)
      | None => ([], l)
      end
  end.

(** [sum(l)] from the integer accumulator [acc]: integers are added
    exactly; at the first float the accumulator is converted and added to
    it, and the float loop takes over; anything that is not a number ends
    the sum with [TypeError]. *)
Fixpoint sum_from (acc : Z) (l : list pyval) : result pyval :=
  match l with
  | [] => Ok (PInt acc)
  | v :: l' =>
      match as_number v with
      | Some (inl z) => sum_from (acc + z) l'
      | Some (inr x) =>
          start ← to_float acc;
          let '(ns, rest) := number_prefix l' in
          match float_sum (float_add start x) ns, rest with
          | None, _ => Raise OverflowError
          | Some total, [] => Ok (PFloat total)
          | Some _, _ :: _ => Raise TypeError
          end
      | None => Raise TypeError
      end
  end.

(** [sum(l)] *)
Definition py_sum (l : list pyval) : result pyval := sum_from 0 l.

(** [round(v, ndigits)]: an [int] is returned as it is for
    [ndigits >= 0]. *)
Definition py_round (v : pyval) (ndigits : Z) : result pyval :=
  match as_number v with
  | Some (inl z) => Ok (PInt z)
  | Some (inr x) => Ok (PFloat (float_round x ndigits))
  | None => Raise TypeError
  end.

(** ** [json.dumps]

    The defaults of the encoder: [ensure_ascii], separators [", "] and
    [": "], [allow_nan]. *)

Definition dquote : ascii := "034"%char.
Definition backslash : ascii := "092"%char.

Definition hex_digit (n : N) : ascii :=
  match n with
  | 0 => "0" | 1 => "1" | 2 => "2" | 3 => "3" | 4 => "4" | 5 => "5"
  | 6 => "6" | 7 => "7" | 8 => "8" | 9 => "9" | 10 => "a" | 11 => "b"
  | 12 => "c" | 13 => "d" | 14 => "e" | _ => "f"
  end%N%char.

(** [ESCAPE_DCT] and the [\uXXXX] fallback of
    [py_encode_basestring_ascii] *)
Definition escape_char (c : ascii) : string :=
  let n := N_of_ascii c in
  if Ascii.eqb c dquote then String backslash (String dquote "")
  else if Ascii.eqb c backslash then String backslash (String backslash "")
  else if (n =? 8)%N then String backslash "b"
  else if (n =? 9)%N then String backslash "t"
  else if (n =? 10)%N then String backslash "n"
  else if (n =? 12)%N then String backslash "f"
  else if (n =? 13)%N then String backslash "r"
  else if ((32 <=? n) && (n <=? 126))%N then String c ""
  else String backslash
         ("u00" ++ String (hex_digit (n / 16)) (String (hex_digit (n mod 16)) "")).

Fixpoint escape (s : string) : string :=
  match s with
  | "" => ""
  | String c s' => escape_char c ++ escape s'
  end.

Definition encode_string (s : string) : string :=
  String dquote (escape s ++ String dquote "").

(** [", ".join(parts)] *)
Fixpoint join (parts : list string) : string :=
  match parts with
  | [] => ""
  | [a] => a
  | a :: rest => a ++ ", " ++ join rest
  end.

(** [default_str] is the encoder's [default=str]: an object that [json]
    cannot serialise is replaced by its [str()]; without it the encoder
    raises [TypeError]. *)
Fixpoint encode (default_str : bool) (v : pyval) : result string :=
  match v with
  | PNone => Ok "null"
  | PBool true => Ok "true"
  | PBool false => Ok "false"
  | PInt z => Ok (Num.int_repr z)
  | PFloat x => Ok (float_json x)
  | PStr s => Ok (encode_string s)
  | PList l =>
      parts ← (fix items (l : list pyval) : result (list string) :=
                 match l with
                 | [] => Ok []
                 | x :: l' =>
                     a ← encode default_str x; r ← items l'; Ok (a :: r)
                 end) l;
      Ok ("[" ++ join parts ++ "]")
  | PDict d =>
      parts ← (fix pairs (d : list (string * pyval)) : result (list string) :=
                 match d with
                 | [] => Ok []
                 | (k, x) :: d' =>
                     a ← encode default_str x; r ← pairs d';
                     Ok ((encode_string k ++ ": " ++ a) :: r)
                 end) d;
      Ok ("{" ++ join parts ++ "}")
  | PObj repr _ =>
      if default_str then Ok (encode_string repr) else Raise TypeError
  end.

Definition json_dumps (v : pyval) : result string := encode false v.
Definition json_dumps_default_str (v : pyval) : result string := encode true v.

(** ** [json.loads] *)

Definition hex_value (c : ascii) : option N :=
  let n := N_of_ascii c in
  if ((48 <=? n) && (n <=? 57))%N then Some (n - 48)%N        (* 0 to 9 *)
  else if ((97 <=? n) && (n <=? 102))%N then Some (n - 87)%N  (* a to f *)
  else if ((65 <=? n) && (n <=? 70))%N then Some (n - 55)%N   (* A to F *)
  else None.

(** the value of the four hex digits of a [\uXXXX] escape *)
Definition hex4 (a b c d : ascii) : option N :=
  match hex_value a, hex_value b, hex_value c, hex_value d with
  | Some x, Some y, Some z, Some w => Some (((x * 16 + y) * 16 + z) * 16 + w)%N
  | _, _, _, _ => None
  end.

(** the [BACKSLASH] table of the decoder *)
Definition unescape (e : ascii) : option ascii :=
  if Ascii.eqb e dquote then Some dquote
  else if Ascii.eqb e backslash then Some backslash
  else match e with
       | "/" => Some "/"
       | "b" => Some "008"
       | "f" => Some "012"
       | "n" => Some "010"
       | "r" => Some "013"
       | "t" => Some "009"
       | _ => None
       end%char.

(** [py_scanstring] (strict), entered after the opening quote: the
    decoded string and the text after the closing quote.  An escape above
    [00ff] names a character outside this model of [str] and is
    rejected. *)
Fixpoint scanstring (s : string) : result (string * string) :=
  match s with
  | "" => Raise JSONDecodeError
  | String c r =>
      if Ascii.eqb c dquote then Ok ("", r)
      else if Ascii.eqb c backslash then
        match r with
        | "" => Raise JSONDecodeError
        | String e r1 =>
            if Ascii.eqb e "u" then
              match r1 with
              | String h1 (String h2 (String h3 (String h4 r2))) =>
                  match hex4 h1 h2 h3 h4 with
                  | Some n =>
                      if (n <? 256)%N then
                        '(str, r') ← scanstring r2;
                        Ok (String (ascii_of_N n) str, r')
                      else Raise JSONDecodeError
                  | None => Raise JSONDecodeError
                  end
              | _ => Raise JSONDecodeError
              end
            else
              match unescape e with
              | Some ch => '(str, r') ← scanstring r1; Ok (String ch str, r')
              | None => Raise JSONDecodeError
              end
        end
      else if (N_of_ascii c <? 32)%N then Raise JSONDecodeError
      else '(str, r') ← scanstring r; Ok (String c str, r')
  end.

Definition is_ws (c : ascii) : bool :=
  match c with
  | " " | "009" | "010" | "013" => true
  | _ => false
  end%char.

(** [WHITESPACE.match(s, end).end()] *)
Fixpoint skip_ws (s : string) : string :=
  match s with
  | String c r => if is_ws c then skip_ws r else s
  | "" => ""
  end.

(** [s[idx:idx + len(p)] == p], with the text after [p] *)
Fixpoint strip_prefix (p s : string) : option string :=
  match p, s with
  | "", _ => Some s
  | String a p', String b s' => if Ascii.eqb a b then strip_prefix p' s' else None
  | _, "" => None
  end.

(** the numbers and constants of [_scan_once] *)
Definition scan_number (s : string) : result (pyval * string) :=
  match Num.match_number s with
  | Some (i, f, e, r) =>
      if String.eqb f "" && String.eqb e "" then
        match Num.int_of_string i with
        | Some z => Ok (PInt z, r)
        | None => Raise ValueError
        end
      else Ok (PFloat (float_of_string (i ++ f ++ e)), r)
  | None =>
      match strip_prefix "NaN" s, strip_prefix "Infinity" s,
            strip_prefix "-Infinity" s with
      | Some r, _, _ => Ok (PFloat float_nan, r)
      | _, Some r, _ => Ok (PFloat float_inf, r)
      | _, _, Some r => Ok (PFloat float_neg_inf, r)
      | _, _, _ => Raise JSONDecodeError
      end
  end.

(** [_scan_once], [JSONArray] and [JSONObject].  They call each other;
    [fuel] bounds the depth of the calls and running out of it is Python's
    [RecursionError].  [parse_array] is entered at an element,
    [parse_object] after the opening quote of a key. *)
Fixpoint scan_once (fuel : nat) (s : string) : result (pyval * string) :=
  match fuel with
  | O => Raise RecursionError
  | S fuel' =>
      match s with
      | "" => Raise JSONDecodeError
      | String c r =>
          if Ascii.eqb c dquote then
            '(str, r') ← scanstring r; Ok (PStr str, r')
          else if Ascii.eqb c "{" then
            match skip_ws r with
            | String "}" r' => Ok (PDict [], r')
            | String c' r' =>
                if Ascii.eqb c' dquote then
                  '(pairs, r'') ← parse_object fuel' r';
                  Ok (PDict (dict_of_pairs pairs), r'')
                else Raise JSONDecodeError
            | "" => Raise JSONDecodeError
            end
          else if Ascii.eqb c "[" then
            match skip_ws r with
            | String "]" r' => Ok (PList [], r')
            | r' => '(l, r'') ← parse_array fuel' r'; Ok (PList l, r'')
            end
          else
            match strip_prefix "null" s, strip_prefix "true" s,
                  strip_prefix "false" s with
            | Some r', _, _ => Ok (PNone, r')
            | _, Some r', _ => Ok (PBool true, r')
            | _, _, Some r' => Ok (PBool false, r')
            | _, _, _ => scan_number s
            end
      end
  end
with parse_array (fuel : nat) (s : string) : result (list pyval * string) :=
  match fuel with
  | O => Raise RecursionError
  | S fuel' =>
      '(v, r) ← scan_once fuel' s;
      match skip_ws r with
      | String "]" r' => Ok ([v], r')
      | String "," r' =>
          '(l, r'') ← parse_array fuel' (skip_ws r'); Ok (v :: l, r'')
      | _ => Raise JSONDecodeError
      end
  end
with parse_object (fuel : nat) (s : string)
  : result (list (string * pyval) * string) :=
  match fuel with
  | O => Raise RecursionError
  | S fuel' =>
      '(k, r) ← scanstring s;
      match skip_ws r with
      | String ":" r1 =>
          '(v, r2) ← scan_once fuel' (skip_ws r1);
          match skip_ws r2 with
          | String "}" r3 => Ok ([(k, v)], r3)
          | String "," r3 =>
              match skip_ws r3 with
              | String c r4 =>
                  if Ascii.eqb c dquote then
                    '(pairs, r5) ← parse_object fuel' r4;
                    Ok ((k, v) :: pairs, r5)
                  else Raise JSONDecodeError
              | "" => Raise JSONDecodeError
              end
          | _ => Raise JSONDecodeError
          end
      | _ => Raise JSONDecodeError
      end
  end.

(** [json.loads(s)]: one value, white space around it, nothing else. *)
Definition json_loads (s : string) : result pyval :=
  let s' := skip_ws s in
  '(v, r) ← scan_once (2 * String.length s' + 1) s';
  match skip_ws r with
  | "" => Ok v
  | _ => Raise JSONDecodeError
  end.

(** [d[k]] on a dictionary *)
Definition py_getitem (v : pyval) (k : string) : result pyval :=
  match v with
  | PDict d =>
      match dict_lookup k d with
      | Some x => Ok x
      | None => Raise KeyError
      end
  | _ => Raise TypeError
  end.

(** ** The Azure services

    The clients of the storage account, the table and the document
    analysis service are outside the repository: each call either returns
    or raises, and what it returns is an input of the handlers. *)

Record BlobServiceClient : Type := {
  account_name : string;
  (** [credential.account_key], which raises when the client was not
      built with a shared key *)
  credential_account_key : result string
}.

Inductive BlobSasPermissions : Type :=
  | SasWrite
  | SasRead.

(** [AnalyzeResult.documents] and [AnalyzedDocument.fields]; the fields
    are a dictionary from names to [DocumentField] objects (or [None]). *)
Record AnalyzedDocument : Type := { fields : pyval }.
Record AnalyzeResult : Type := { documents : list AnalyzedDocument }.

(** a [TableEntity] is a dictionary *)
Record TableClient : Type := {
  get_entity : string -> string -> result (list (string * pyval))
}.

(** a [uuid.UUID]: its 128-bit integer *)
Record UUID : Type := { uuid_int : N }.

Record Azure : Type := {
  (** the process environment read at import time *)
  STORAGE_CONNECT_STR : option string;
  DOC_INTELLIGENCE_ENDPOINT : option string;
  DOC_INTELLIGENCE_KEY : option string;
  (** [uuid.uuid4()] and [datetime.utcnow()], in seconds *)
  uuid4 : UUID;
  utcnow : Z;
  BlobServiceClient_from_connection_string : option string -> result BlobServiceClient;
  (** [generate_blob_sas(account_name, container_name, blob_name,
      account_key, permission, expiry)] *)
  generate_blob_sas :
    string -> string -> string -> string -> BlobSasPermissions -> Z -> result string;
  (** [DocumentAnalysisClient(endpoint, AzureKeyCredential(key))] *)
  DocumentAnalysisClient : option string -> option string -> result unit;
  (** [begin_analyze_document_from_url(model, url).result()] *)
  begin_analyze_document_from_url : string -> string -> result AnalyzeResult;
  TableClient_from_connection_string : option string -> string -> result TableClient
}.

Definition RECEIPT_CONTAINER_NAME : string := "receipts".
Definition RESULTS_TABLE_NAME : string := "receiptresults".

(** [timedelta(minutes=5)] *)
Definition five_minutes : Z := 300.

Record HttpRequest : Type := { route_params : gmap string string }.

Record HttpResponse : Type := {
  body : string;
  mimetype : string;
  status_code : Z
}.

(** [func.HttpResponse(text, status_code=n)]: the default mimetype *)
Definition text_response (text : string) (status : Z) : HttpResponse :=
  {| body := text; mimetype := "text/plain"; status_code := status |}.

(** ** [str(uuid)]: 32 lower-case hex digits in groups of 8-4-4-4-12 *)

(** ['%0wx' % n] for [n] below [16 ^ w] *)
Fixpoint hex_width (w : nat) (n : N) : string :=
  match w with
  | O => ""
  | S w' => hex_width w' (n / 16) ++ String (hex_digit (n mod 16)) ""
  end.

Definition uuid_str (u : UUID) : string :=
  let hex := hex_width 32 (uuid_int u) in
  Str.take 8 hex ++ "-" ++ Str.take 4 (Str.drop 8 hex) ++ "-" ++
  Str.take 4 (Str.drop 12 hex) ++ "-" ++ Str.take 4 (Str.drop 16 hex) ++ "-" ++
  Str.drop 20 hex.

(** ** 2. [get_upload_url] *)

Definition get_upload_url_try (az : Azure) : result HttpResponse :=
  blob_service_client ← BlobServiceClient_from_connection_string az (STORAGE_CONNECT_STR az);
  let blob_name := uuid_str (uuid4 az) ++ ".jpg" in
  account_key ← credential_account_key blob_service_client;
  sas_token ← generate_blob_sas az (account_name blob_service_client)
                 RECEIPT_CONTAINER_NAME blob_name account_key SasWrite
                 (utcnow az + five_minutes);
  let sas_url :=
    "https://" ++ account_name blob_service_client ++ ".blob.core.windows.net/" ++
    RECEIPT_CONTAINER_NAME ++ "/" ++ blob_name ++ "?" ++ sas_token in
  text ← json_dumps (PDict [("sasUrl", PStr sas_url); ("blobName", PStr blob_name)]);
  Ok {| body := text; mimetype := "application/json"; status_code := 200 |}.

Definition get_upload_url (az : Azure) (req : HttpRequest) : HttpResponse :=
  match get_upload_url_try az with
  | Ok response => response
  | Raise _ => text_response "Failed to generate upload URL." 500
  end.

(** ** 3. [get_receipt_results] *)

(** the key the reader looks up *)
Definition reader_receipt_id (blob_name : string) : string := (splitext blob_name).1.

Definition get_receipt_results_try (az : Azure) (receipt_id : string)
  : result HttpResponse :=
  table_client ← TableClient_from_connection_string az (STORAGE_CONNECT_STR az)
                   RESULTS_TABLE_NAME;
  entity ← get_entity table_client "receipt" receipt_id;
  entity ← match dict_lookup "items" entity with
           | Some (PStr text) =>
               decoded ← json_loads text; Ok (dict_set "items" decoded entity)
           | _ => Ok entity
           end;
  text ← json_dumps_default_str (PDict entity);
  Ok {| body := text; mimetype := "application/json"; status_code := 200 |}.

Definition get_receipt_results (az : Azure) (req : HttpRequest) : HttpResponse :=
  match route_params req !! "blobName" with
  | None | Some "" => text_response "Please provide a blobName." 400
  | Some blob_name =>
      let receipt_id := reader_receipt_id blob_name in
      match get_receipt_results_try az receipt_id with
      | Ok response => response
      | Raise ResourceNotFoundError => text_response "Not found." 404
      | Raise _ => text_response "Error fetching results." 500
      end
  end.

(** ** 4. [AnalyzeReceipt]

    The function runs with an output binding [tableOutput : func.Out[str]]
    that holds nothing until [set] is called.  Its body is a computation
    that threads the binding and may raise. *)

Definition Trig (A : Type) : Type := option string -> option string * result A.

#[export] Instance trig_ret : MRet Trig := fun _ a out => (out, Ok a).
#[export] Instance trig_bind : MBind Trig := fun _ _ f m out =>
  match m out with
  | (out', Ok a) => f a out'
  | (out', Raise e) => (out', Raise e)
  end.

(** a step that does not touch the binding *)
Definition lift {A} (r : result A) : Trig A := fun out => (out, r).

(** [tableOutput.set(text)] *)
Definition Out_set (text : string) : Trig unit := fun _ => (Some text, Ok tt).

(** [try: body / except Exception as e: handler] *)
Definition try_except {A} (body : Trig A) (handler : exn -> Trig A) : Trig A :=
  fun out =>
    match body out with
    | (out', Raise e) => handler e out'
    | done => done
    end.

Record InputStream : Type := { name : string }.

(** the dictionary appended for one element of [Items] *)
Definition extract_item (item : pyval) : result pyval :=
  item_props ← attr_value item;
  description_field ← py_get item_props "Description" (PDict []);
  description ← attr_value description_field;
  price_field ← py_get item_props "TotalPrice" (PDict []);
  price ← attr_value price_field;
  Ok (PDict [("description", description); ("totalPrice", py_or price (PInt 0))]).

(** the [for item in ...] loop, appending to [items_list] *)
Fixpoint for_items (l : list pyval) (items_list : list pyval) : result (list pyval) :=
  match l with
  | [] => Ok items_list
  | item :: l' => d ← extract_item item; for_items l' (items_list ++ [d])
  end.

(** lines 113 to 120: [items_list] *)
Definition extract_items (receipt : pyval) : result (list pyval) :=
  items ← py_get receipt "Items" PNone;
  (* receipt.get("Items") and receipt.get("Items").value *)
  cond ← (if truthy items then v ← attr_value items; Ok (truthy v) else Ok false);
  if cond : bool then
    items ← py_get receipt "Items" PNone;
    v ← attr_value items;
    l ← py_iter v;
    for_items l []
  else Ok [].

(** [item['totalPrice'] for item in items_list] *)
Fixpoint total_prices (items_list : list pyval) : result (list pyval) :=
  match items_list with
  | [] => Ok []
  | item :: l => p ← py_getitem item "totalPrice"; ps ← total_prices l; Ok (p :: ps)
  end.

(** [round(sum(...), 2)] *)
Definition subtotal_of (items_list : list pyval) : result pyval :=
  prices ← total_prices items_list;
  s ← py_sum prices;
  py_round s 2.

(** [receipt.get(key, {}).value or 0] *)
Definition field_or_zero (receipt : pyval) (key : string) : result pyval :=
  field ← py_get receipt key (PDict []);
  v ← attr_value field;
  Ok (py_or v (PInt 0)).

(** lines 112 to 131: [output_data] for the first document *)
Definition output_data (receipt_id : string) (receipt : pyval) : result pyval :=
  items_list ← extract_items receipt;
  calculated_subtotal ← subtotal_of items_list;
  items_text ← json_dumps (PList items_list);
  tax ← field_or_zero receipt "TotalTax";
  total ← field_or_zero receipt "Total";
  Ok (PDict [("PartitionKey", PStr "receipt"); ("RowKey", PStr receipt_id);
             ("items", PStr items_text); ("subtotal", calculated_subtotal);
             ("tax", tax); ("total", total)]).

(** lines 95 to 109: the clients, the read-only URL and the analysis *)
Definition analyze_blob (az : Azure) (blob : InputStream) : result AnalyzeResult :=
  _ ← DocumentAnalysisClient az (DOC_INTELLIGENCE_ENDPOINT az) (DOC_INTELLIGENCE_KEY az);
  blob_service_client ← BlobServiceClient_from_connection_string az
                          (STORAGE_CONNECT_STR az);
  account_key ← credential_account_key blob_service_client;
  sas_token ← generate_blob_sas az (account_name blob_service_client)
                RECEIPT_CONTAINER_NAME
                (Str.last_piece (Str.split "/" (name blob)))
                account_key SasRead (utcnow az + five_minutes);
  let sas_url :=
    "https://" ++ account_name blob_service_client ++ ".blob.core.windows.net/" ++
    name blob ++ "?" ++ sas_token in
  begin_analyze_document_from_url az "prebuilt-receipt" sas_url.

(** the [try] block, lines 95 to 134 *)
Definition AnalyzeReceipt_try (az : Azure) (blob : InputStream) (receipt_id : string)
  : Trig unit :=
  analysis ← lift (analyze_blob az blob);
  match documents analysis with
  | [] => mret tt
  | document :: _ =>
      data ← lift (output_data receipt_id (fields document));
      text ← lift (json_dumps data);
      Out_set text
  end.

(** the row key the analyzer uses *)
Definition analyzer_receipt_id (blob_name : string) : string :=
  (splitext (Str.last_piece (Str.split "/" blob_name))).1.

(** The function: the exception of the [try] block is logged and
    dropped. *)
Definition AnalyzeReceipt (az : Azure) (blob : InputStream) : Trig unit :=
  let receipt_id := analyzer_receipt_id (name blob) in
  try_except (AnalyzeReceipt_try az blob receipt_id) (fun e => mret tt).

(** what the binding holds when the function is done *)
Definition tableOutput (az : Azure) (blob : InputStream) : option string :=
  (AnalyzeReceipt az blob None).1.

(** ** The results table

    Modelled from the spec: the table service and the host's output
    binding are not part of the repository.  Rows are keyed by partition
    key and row key; the binding decodes the text set on [tableOutput]
    and stores the entity under its keys, over a record that is already
    there; a function that raises, or sets nothing, stores nothing. *)

Abbreviation table := (gmap (string * string) (list (string * pyval))).

Definition table_store (text : string) (tbl : table) : table :=
  match json_loads text with
  | Ok (PDict entity) =>
      match dict_lookup "PartitionKey" entity, dict_lookup "RowKey" entity with
      | Some (PStr pk), Some (PStr rk) => <[(pk, rk) := entity]> tbl
      | _, _ => tbl
      end
  | _ => tbl
  end.

(** one delivery of the blob trigger *)
Definition trigger (az : Azure) (blob : InputStream) (tbl : table) : table :=
  match AnalyzeReceipt az blob None with
  | (Some text, Ok _) => table_store text tbl
  | _ => tbl
  end.

(** [get_entity] of a client connected to the table *)
Definition table_get_entity (tbl : table) (pk rk : string)
  : result (list (string * pyval)) :=
  match tbl !! (pk, rk) with
  | Some entity => Ok entity
  | None => Raise ResourceNotFoundError
  end.

(** the services with the table client reading [tbl] *)
Definition with_table (az : Azure) (tbl : table) : Azure :=
  {| STORAGE_CONNECT_STR := STORAGE_CONNECT_STR az;
     DOC_INTELLIGENCE_ENDPOINT := DOC_INTELLIGENCE_ENDPOINT az;
     DOC_INTELLIGENCE_KEY := DOC_INTELLIGENCE_KEY az;
     uuid4 := uuid4 az;
     utcnow := utcnow az;
     BlobServiceClient_from_connection_string :=
       BlobServiceClient_from_connection_string az;
     generate_blob_sas := generate_blob_sas az;
     DocumentAnalysisClient := DocumentAnalysisClient az;
     begin_analyze_document_from_url := begin_analyze_document_from_url az;
     TableClient_from_connection_string := fun _ _ =>
       Ok {| get_entity := table_get_entity tbl |} |}.

(** ** Notions used in the statements *)

(** every dictionary of the analysis result has distinct keys *)
Definition well_formed_analysis (az : Azure) (blob : InputStream) : Prop :=
  forall analysis, analyze_blob az blob = Ok analysis ->
    Forall (fun document => well_formed (fields document) = true) (documents analysis).

(** an element of [Items] without a [TotalPrice] entry *)
Definition lacks_price (item : pyval) : Prop :=
  exists repr props,
    item = PObj repr (Some (PDict props)) /\ dict_lookup "TotalPrice" props = None.

(** an [int], a [float] or a [bool] *)
Definition is_number (v : pyval) : bool :=
  match as_number v with
  | Some _ => true
  | None => false
  end.


(** [json.dumps] accepts a value that holds no object *)
Fixpoint serializable (v : pyval) : bool :=
  match v with
  | PList l => forallb serializable l
  | PDict d => forallb (fun kv => serializable kv.2) d
  | PObj _ _ => false
  | _ => true
  end.

(** no [Items] entry, or one that is falsy, or one whose value is
    ([None], an empty list) *)
Definition items_missing (d : list (string * pyval)) : Prop :=
  match dict_lookup "Items" d with
  | None => True
  | Some items =>
      truthy items = false \/ exists v, attr_value items = Ok v /\ truthy v = false
  end.

(** lines 71 and 72: the client and the lookup *)
Definition lookup_entity (az : Azure) (receipt_id : string)
  : result (list (string * pyval)) :=
  table_client ← TableClient_from_connection_string az (STORAGE_CONNECT_STR az)
                   RESULTS_TABLE_NAME;
  get_entity table_client "receipt" receipt_id.

(** lines 74 and 75: a string under [items] is decoded *)
Definition decode_items (entity : list (string * pyval))
  : result (list (string * pyval)) :=
  match dict_lookup "items" entity with
  | Some (PStr text) => decoded ← json_loads text; Ok (dict_set "items" decoded entity)
  | _ => Ok entity
  end.


(** what [default=str] makes of a value: every object that [json] cannot
    serialise is replaced by its [str()] *)
Fixpoint stringified (v : pyval) : pyval :=
  match v with
  | PList l => PList (map stringified l)
  | PDict d => PDict (map (fun kv => (kv.1, stringified kv.2)) d)
  | PObj repr _ => PStr repr
  | _ => v
  end.

(** what is stored for an element of [Items], in terms of its fields *)
Definition stored_from (item stored : pyval) : Prop :=
  exists item_repr props desc_repr desc price_repr price,
    item = PObj item_repr (Some (PDict props)) /\
    dict_lookup "Description" props = Some (PObj desc_repr (Some desc)) /\
    dict_lookup "TotalPrice" props = Some (PObj price_repr (Some price)) /\
    stored = PDict [("description", desc);
                    ("totalPrice", if truthy price then price else PInt 0)].

End Python.

(** * Facts about the string functions *)

Section StrFacts.

Implicit Types (s a b p : string) (c : ascii).

Lemma length_app a b : String.length (a ++ b) = (String.length a + String.length b)%nat.
Proof. induction a; simpl; auto. Qed.

Lemma append_assoc a b s : (a ++ b) ++ s = a ++ b ++ s.
Proof. induction a; simpl; congruence. Qed.

Lemma take_app a b : Str.take (String.length a) (a ++ b) = a.
Proof. induction a; simpl; [destruct b|]; congruence. Qed.

Lemma drop_app a b : Str.drop (String.length a) (a ++ b) = b.
Proof. induction a; simpl; [destruct b|]; auto. Qed.

Lemma mem_app c a b : Str.mem c (a ++ b) = Str.mem c a || Str.mem c b.
Proof. induction a; simpl; [reflexivity|]. rewrite IHa. apply orb_assoc. Qed.

Lemma rfind_range c s : -1 <= Str.rfind c s < Z.of_nat (String.length s).
Proof.
  induction s as [|x s IH]; simpl; [lia|].
  destruct (Str.rfind c s =? -1) eqn:E.
  - destruct (Ascii.eqb x c); lia.
  - apply Z.eqb_neq in E. lia.
Qed.

Lemma rfind_absent c s : Str.mem c s = false -> Str.rfind c s = -1.
Proof.
  induction s as [|x s IH]; simpl; [reflexivity|].
  intros [Hx Hs]%orb_false_elim. rewrite (IH Hs), Hx. reflexivity.
Qed.

(** the last occurrence is where nothing but other characters follows *)
Lemma rfind_last c a b :
  Str.mem c b = false -> Str.rfind c (a ++ String c b) = Z.of_nat (String.length a).
Proof.
  intros Hb. induction a as [|x a IH]; simpl.
  - rewrite (rfind_absent _ _ Hb). simpl. rewrite Ascii.eqb_refl. reflexivity.
  - rewrite IH. destruct (Z.of_nat (String.length a) =? -1) eqn:E; [|lia].
    apply Z.eqb_eq in E. lia.
Qed.

Lemma rfind_app_absent c a b :
  Str.mem c b = false -> Str.rfind c (a ++ b) = Str.rfind c a.
Proof.
  intros Hb. induction a as [|x a IH]; simpl.
  - apply rfind_absent, Hb.
  - rewrite IH. reflexivity.
Qed.

Lemma split_nonempty c s : Str.split c s <> [].
Proof.
  destruct s as [|x s]; simpl; [discriminate|].
  destruct (Ascii.eqb x c); [discriminate|].
  destruct (Str.split c s); discriminate.
Qed.

Lemma last_piece_cons p ps : ps <> [] -> Str.last_piece (p :: ps) = Str.last_piece ps.
Proof. destruct ps; [congruence|reflexivity]. Qed.

Lemma split_absent c s : Str.mem c s = false -> Str.split c s = [s].
Proof.
  induction s as [|x s IH]; simpl; [reflexivity|].
  intros [Hx Hs]%orb_false_elim. rewrite Hx, (IH Hs). reflexivity.
Qed.

(** [split] then [[-1]] keeps what follows the last separator *)
Lemma last_piece_split c a b :
  Str.last_piece (Str.split c (a ++ String c b)) = Str.last_piece (Str.split c b).
Proof.
  induction a as [|x a IH]; simpl.
  - rewrite Ascii.eqb_refl. apply last_piece_cons, split_nonempty.
  - destruct (Ascii.eqb x c).
    + rewrite last_piece_cons by apply split_nonempty. exact IH.
    + destruct (Str.split c (a ++ String c b)) as [|p ps] eqn:E.
      { exfalso. eapply split_nonempty, E. }
      destruct ps as [|q ps].
      * exfalso. revert E. clear. revert p.
        induction a as [|y a IH]; simpl; intros p.
        -- rewrite Ascii.eqb_refl. intros [= _ E]. eapply split_nonempty, E.
        -- destruct (Ascii.eqb y c); [intros [= _ E]; eapply split_nonempty, E|].
           destruct (Str.split c (a ++ String c b)) as [|p' ps'] eqn:E'.
           { exfalso. eapply split_nonempty, E'. }
           intros [= _ ->]. eapply IH. reflexivity.
      * rewrite <- IH. reflexivity.
Qed.

Lemma last_piece_absent c s : Str.mem c s = false -> Str.last_piece (Str.split c s) = s.
Proof. intros Hs. rewrite (split_absent _ _ Hs). reflexivity. Qed.

Lemma has_other_take_app c a b :
  Str.has_other c (Str.take (String.length a) (a ++ b)) = Str.has_other c a.
Proof. rewrite take_app. reflexivity. Qed.

(** A name [dir ++ base ++ "." ++ ext], where [dir] is empty or ends
    with a slash, [base] holds a character that is not a dot and neither
    [base] nor [ext] holds a slash, nor [ext] a dot. *)
Lemma splitext_stem dir base ext :
  (dir = "" \/ exists d, dir = d ++ "/") ->
  Str.mem "/" base = false -> Str.mem "/" ext = false -> Str.mem "." ext = false ->
  Str.has_other "." base = true ->
  splitext (dir ++ base ++ String "." ext) = (dir ++ base, String "." ext).
Proof.
  intros Hdir Hb He Hd Ho. unfold splitext.
  assert (Hdot : Str.rfind "." (dir ++ base ++ String "." ext)
                 = Z.of_nat (String.length dir + String.length base)).
  { rewrite <- length_app.
    rewrite <- append_assoc. apply rfind_last, Hd. }
  assert (Hsep : Str.rfind "/" (dir ++ base ++ String "." ext) + 1
                 = Z.of_nat (String.length dir)).
  { destruct Hdir as [-> | [d ->]].
    - simpl. rewrite rfind_absent; [reflexivity|].
      rewrite mem_app. simpl. rewrite Hb, He. reflexivity.
    - rewrite append_assoc. simpl. rewrite rfind_last.
      + rewrite length_app. simpl. lia.
      + rewrite mem_app. simpl. rewrite Hb, He. reflexivity. }
  rewrite Hdot.
  replace (Str.rfind "/" (dir ++ base ++ String "." ext))
    with (Z.of_nat (String.length dir) - 1) by lia.
  replace (Z.of_nat (String.length dir) - 1 + 1) with (Z.of_nat (String.length dir)) by lia.
  destruct (Z.ltb_spec (Z.of_nat (String.length dir) - 1)
              (Z.of_nat (String.length dir + String.length base))) as [_|?]; [|lia].
  unfold Str.slice_to, Str.slice_from.
  rewrite Nat2Z.id, drop_app.
  replace (Z.to_nat (Z.of_nat (String.length dir + String.length base)
                     - Z.of_nat (String.length dir)))
    with (String.length base) by lia.
  rewrite take_app, Ho, Nat2Z.id.
  rewrite <- length_app, <- append_assoc, take_app, drop_app. reflexivity.
Qed.

Lemma splitext_no_dot p : Str.mem "." p = false -> splitext p = (p, "").
Proof.
  intros Hp. unfold splitext. rewrite (rfind_absent "." p Hp).
  pose proof (rfind_range "/" p).
  destruct (Z.ltb_spec (Str.rfind "/" p) (-1)); [lia|reflexivity].
Qed.

End StrFacts.

(** * Facts about number literals *)

Section NumFacts.

Implicit Types (s a b rest : string) (c : ascii) (u : uint).

(** [rest] does not go on with a digit *)
Definition no_digit_ahead (rest : string) : bool :=
  match rest with
  | "" => true
  | String c _ => negb (Num.is_digit c)
  end.

Lemma ends_number_no_digit rest : Num.ends_number rest = true -> no_digit_ahead rest = true.
Proof.
  destruct rest as [|c r]; simpl; [reflexivity|].
  destruct (Num.is_digit c); simpl; [discriminate|reflexivity].
Qed.

Lemma span_digits_app a rest ds r :
  Num.span_digits a = (ds, r) ->
  (r = "" -> no_digit_ahead rest = true) ->
  Num.span_digits (a ++ rest) = (ds, r ++ rest).
Proof.
  revert ds r. induction a as [|c a IH]; simpl; intros ds r.
  - intros [= <- <-] Hr. simpl. specialize (Hr eq_refl).
    destruct rest as [|c r]; simpl in *; [reflexivity|].
    destruct (Num.is_digit c); [discriminate|reflexivity].
  - destruct (Num.is_digit c).
    + destruct (Num.span_digits a) as [ds' r'] eqn:E. intros [= <- <-] Hr.
      rewrite (IH _ _ eq_refl Hr). reflexivity.
    + intros [= <- <-] _. reflexivity.
Qed.

Lemma span_digits_uint u rest :
  no_digit_ahead rest = true ->
  Num.span_digits (NilEmpty.string_of_uint u ++ rest) = (NilEmpty.string_of_uint u, rest).
Proof.
  intros Hr. induction u; simpl; rewrite ?IHu; try reflexivity.
  destruct rest as [|c r]; simpl in *; [reflexivity|].
  destruct (Num.is_digit c); [discriminate|reflexivity].
Qed.

Lemma nzhead_no_zero u u' : nzhead u <> D0 u'.
Proof. induction u; simpl; try discriminate. exact IHu. Qed.

(** a normalised numeral is ["0"] or starts with a digit from 1 to 9 *)
Lemma match_unsigned_uint u rest :
  unorm u = u -> no_digit_ahead rest = true ->
  Num.match_unsigned (NilZero.string_of_uint u ++ rest)
  = Some (NilZero.string_of_uint u, rest).
Proof.
  intros Hu Hr. destruct u; simpl; try discriminate;
    rewrite ?(span_digits_uint _ _ Hr); try reflexivity.
  rewrite unorm_D0 in Hu. unfold unorm in Hu.
  destruct (nzhead u) eqn:E; try discriminate;
    try (exfalso; eapply nzhead_no_zero; rewrite E; exact Hu).
  injection Hu as <-. reflexivity.
Qed.

Lemma to_uint_normal (n : N) : unorm (N.to_uint n) = N.to_uint n.
Proof.
  rewrite <- (DecimalN.Unsigned.to_of (N.to_uint n)), DecimalN.Unsigned.of_to.
  reflexivity.
Qed.

Lemma int_repr_cases (z : Z) :
  Num.int_repr z = NilZero.string_of_uint (N.to_uint (Z.abs_N z)) /\ 0 <= z \/
  Num.int_repr z = String "-" (NilZero.string_of_uint (N.to_uint (Z.abs_N z))) /\ z < 0.
Proof.
  destruct z; [left|left|right]; split; try lia; reflexivity.
Qed.

Lemma uint_string_no_minus u rest : exists c r,
  NilZero.string_of_uint u ++ rest = String c r /\ c <> "-"%char.
Proof.
  destruct u; simpl; eexists _, _; (split; [reflexivity|discriminate]).
Qed.

Lemma match_integer_int_repr (z : Z) rest :
  no_digit_ahead rest = true ->
  Num.match_integer (Num.int_repr z ++ rest) = Some (Num.int_repr z, rest).
Proof.
  intros Hr.
  pose proof (match_unsigned_uint _ rest (to_uint_normal (Z.abs_N z)) Hr) as Hm.
  destruct (int_repr_cases z) as [[-> _] | [-> _]].
  - destruct (uint_string_no_minus (N.to_uint (Z.abs_N z)) rest) as (c & r & E & Hc).
    rewrite E in *. unfold Num.match_integer.
    destruct c as [[] [] [] [] [] [] [] []]; try exact Hm. congruence.
  - simpl. rewrite Hm. reflexivity.
Qed.

Lemma int_of_string_int_repr (z : Z) : Num.int_of_string (Num.int_repr z) = Some z.
Proof.
  unfold Num.int_of_string, Num.int_repr.
  rewrite NilZero.isi.
  - simpl. rewrite DecimalZ.of_to. reflexivity.
  - destruct z; simpl; try discriminate.
    intros [= E]. eapply DecimalPos.Unsigned.to_uint_nonnil, E.
  - destruct z; simpl; try discriminate.
    intros [= E]. eapply DecimalPos.Unsigned.to_uint_nonnil, E.
Qed.

Lemma match_frac_stop rest : Num.ends_number rest = true -> Num.match_frac rest = ("", rest).
Proof.
  destruct rest as [|c r]; [reflexivity|]. simpl.
  intros H. destruct c as [[] [] [] [] [] [] [] []]; try reflexivity; discriminate.
Qed.

Lemma match_exp_stop rest : Num.ends_number rest = true -> Num.match_exp rest = ("", rest).
Proof.
  destruct rest as [|c r]; [reflexivity|]. simpl.
  intros H. destruct c as [[] [] [] [] [] [] [] []]; try reflexivity; discriminate.
Qed.

(** what [json] prints for an integer is matched as an integer literal *)
Lemma match_number_int_repr (z : Z) rest :
  Num.ends_number rest = true ->
  Num.match_number (Num.int_repr z ++ rest) = Some (Num.int_repr z, "", "", rest).
Proof.
  intros Hr. unfold Num.match_number.
  rewrite (match_integer_int_repr _ _ (ends_number_no_digit _ Hr)).
  rewrite (match_frac_stop _ Hr), (match_exp_stop _ Hr). reflexivity.
Qed.

End NumFacts.

Section FloatLiterals.

Implicit Types (s a b rest : string) (c : ascii).

Lemma span_digits_split s ds r : Num.span_digits s = (ds, r) -> s = ds ++ r.
Proof.
  revert ds r. induction s as [|c s IH]; simpl; intros ds r.
  - intros [= <- <-]. reflexivity.
  - destruct (Num.is_digit c).
    + destruct (Num.span_digits s) as [ds' r'] eqn:E. intros [= <- <-].
      simpl. rewrite (IH _ _ eq_refl). reflexivity.
    + intros [= <- <-]. reflexivity.
Qed.

Lemma match_unsigned_split s i r : Num.match_unsigned s = Some (i, r) -> s = i ++ r.
Proof.
  destruct s as [|c s]; simpl; [discriminate|].
  destruct (Ascii.eqb_spec c "0") as [->|_].
  - intros [= <- <-]. reflexivity.
  - destruct (Num.is_digit c); [|discriminate].
    destruct (Num.span_digits s) as [ds r'] eqn:E. intros [= <- <-].
    simpl. rewrite (span_digits_split _ _ _ E). reflexivity.
Qed.

Lemma match_integer_unfold s :
  Num.match_integer s =
  match s with
  | String c r =>
      if Ascii.eqb c "-" then
        match Num.match_unsigned r with
        | Some (i, r') => Some (String "-" i, r')
        | None => None
        end
      else Num.match_unsigned s
  | "" => Num.match_unsigned s
  end.
Proof.
  destruct s as [|c r]; [reflexivity|].
  destruct c as [[] [] [] [] [] [] [] []]; reflexivity.
Qed.

Lemma match_integer_split s i r : Num.match_integer s = Some (i, r) -> s = i ++ r.
Proof.
  rewrite match_integer_unfold. destruct s as [|c s]; [discriminate|].
  destruct (Ascii.eqb_spec c "-") as [->|_].
  - destruct (Num.match_unsigned s) as [[i' r']|] eqn:E; [|discriminate].
    intros [= <- <-]. simpl. rewrite (match_unsigned_split _ _ _ E). reflexivity.
  - apply match_unsigned_split.
Qed.

Lemma match_frac_unfold s :
  Num.match_frac s =
  match s with
  | String c r =>
      if Ascii.eqb c "." then
        match Num.span_digits r with
        | ("", _) => ("", s)
        | (ds, r') => (String "." ds, r')
        end
      else ("", s)
  | "" => ("", s)
  end.
Proof.
  destruct s as [|c r]; [reflexivity|].
  destruct c as [[] [] [] [] [] [] [] []]; reflexivity.
Qed.

Lemma match_frac_split s f r : Num.match_frac s = (f, r) -> s = f ++ r.
Proof.
  rewrite match_frac_unfold. destruct s as [|c s]; [intros [= <- <-]; reflexivity|].
  destruct (Ascii.eqb_spec c ".") as [->|_]; [|intros [= <- <-]; reflexivity].
  destruct (Num.span_digits s) as [ds r'] eqn:E.
  destruct ds; intros [= <- <-]; [reflexivity|].
  simpl. rewrite (span_digits_split _ _ _ E). reflexivity.
Qed.

(** the sign of an exponent *)
Definition exp_sign (r : string) : string * string :=
  match r with
  | String c r1 =>
      if Ascii.eqb c "+" then ("+", r1)
      else if Ascii.eqb c "-" then ("-", r1) else ("", r)
  | "" => ("", r)
  end.

Lemma match_exp_unfold s :
  Num.match_exp s =
  match s with
  | String c r =>
      if Ascii.eqb c "e" || Ascii.eqb c "E" then
        let '(sign, r1) := exp_sign r in
        match Num.span_digits r1 with
        | ("", _) => ("", s)
        | (ds, r2) => (String c (sign ++ ds), r2)
        end
      else ("", s)
  | "" => ("", s)
  end.
Proof.
  destruct s as [|c r]; [reflexivity|]. simpl.
  destruct (Ascii.eqb c "e" || Ascii.eqb c "E"); [|reflexivity].
  destruct r as [|c' r']; [reflexivity|].
  destruct c' as [[] [] [] [] [] [] [] []]; reflexivity.
Qed.

Lemma exp_sign_split r sign r1 : exp_sign r = (sign, r1) -> r = sign ++ r1.
Proof.
  destruct r as [|c r]; simpl; [intros [= <- <-]; reflexivity|].
  destruct (Ascii.eqb_spec c "+") as [->|_]; [intros [= <- <-]; reflexivity|].
  destruct (Ascii.eqb_spec c "-") as [->|_]; intros [= <- <-]; reflexivity.
Qed.

Lemma match_exp_split s e r : Num.match_exp s = (e, r) -> s = e ++ r.
Proof.
  rewrite match_exp_unfold. destruct s as [|c s]; [intros [= <- <-]; reflexivity|].
  destruct (Ascii.eqb c "e" || Ascii.eqb c "E"); [|intros [= <- <-]; reflexivity].
  destruct (exp_sign s) as [sign r1] eqn:Es.
  destruct (Num.span_digits r1) as [ds r2] eqn:E.
  destruct ds; intros [= <- <-]; [reflexivity|].
  simpl. rewrite (exp_sign_split _ _ _ Es), (span_digits_split _ _ _ E).
  rewrite append_assoc. reflexivity.
Qed.

(** the groups of a match are consecutive pieces of the text *)
Lemma match_number_split s i f e r :
  Num.match_number s = Some (i, f, e, r) -> s = i ++ f ++ e ++ r.
Proof.
  unfold Num.match_number.
  destruct (Num.match_integer s) as [[i' r1]|] eqn:Ei; [|discriminate].
  destruct (Num.match_frac r1) as [f' r2] eqn:Ef.
  destruct (Num.match_exp r2) as [e' r3] eqn:Ee. intros [= <- <- <- <-].
  rewrite (match_integer_split _ _ _ Ei), (match_frac_split _ _ _ Ef),
    (match_exp_split _ _ _ Ee). reflexivity.
Qed.

Lemma match_unsigned_app s rest i r :
  Num.match_unsigned s = Some (i, r) ->
  (r = "" -> no_digit_ahead rest = true) ->
  Num.match_unsigned (s ++ rest) = Some (i, r ++ rest).
Proof.
  destruct s as [|c s]; simpl; [discriminate|].
  destruct (Ascii.eqb c "0"); [intros [= <- <-] _; reflexivity|].
  destruct (Num.is_digit c); [|discriminate].
  destruct (Num.span_digits s) as [ds r'] eqn:E. intros [= <- <-] Hr.
  rewrite (span_digits_app _ _ _ _ E Hr). reflexivity.
Qed.

Lemma match_integer_app s rest i r :
  Num.match_integer s = Some (i, r) ->
  (r = "" -> no_digit_ahead rest = true) ->
  Num.match_integer (s ++ rest) = Some (i, r ++ rest).
Proof.
  rewrite !match_integer_unfold. destruct s as [|c s]; [discriminate|]. simpl.
  destruct (Ascii.eqb c "-").
  - destruct (Num.match_unsigned s) as [[i' r']|] eqn:E; [|discriminate].
    intros [= <- <-] Hr. rewrite (match_unsigned_app _ _ _ _ E Hr). reflexivity.
  - intros H Hr. exact (match_unsigned_app (String c s) rest i r H Hr).
Qed.

Lemma match_exp_app s rest e :
  Num.match_exp s = (e, "") -> Num.ends_number rest = true ->
  Num.match_exp (s ++ rest) = (e, rest).
Proof.
  intros H Hr. destruct s as [|c s]; [injection H as <-; apply match_exp_stop, Hr|].
  revert H. rewrite !match_exp_unfold. simpl.
  destruct (Ascii.eqb c "e" || Ascii.eqb c "E"); [|discriminate].
  destruct (exp_sign s) as [sign r1] eqn:Es.
  destruct (Num.span_digits r1) as [ds r2] eqn:E.
  destruct ds as [|d ds]; [discriminate|]. intros [= <- ->].
  assert (Hs : exp_sign (s ++ rest) = (sign, r1 ++ rest)).
  { destruct s as [|c' s']; simpl in *.
    - injection Es as <- <-. discriminate.
    - destruct (Ascii.eqb c' "+"); [injection Es as <- <-; reflexivity|].
      destruct (Ascii.eqb c' "-"); injection Es as <- <-; reflexivity. }
  rewrite Hs, (span_digits_app _ rest _ _ E (fun _ => ends_number_no_digit _ Hr)).
  reflexivity.
Qed.

Lemma match_frac_app s rest f r e :
  Num.match_frac s = (f, r) -> Num.match_exp r = (e, "") ->
  Num.ends_number rest = true ->
  Num.match_frac (s ++ rest) = (f, r ++ rest).
Proof.
  intros H He Hr. destruct s as [|c s].
  - injection H as <- <-. apply match_frac_stop, Hr.
  - revert H. rewrite !match_frac_unfold. simpl.
    destruct (Ascii.eqb_spec c ".") as [->|_]; [|intros [= <- <-]; reflexivity].
    destruct (Num.span_digits s) as [ds r'] eqn:E.
    destruct ds as [|d ds]; intros [= <- <-].
    + discriminate.
    + rewrite (span_digits_app _ rest _ _ E (fun _ => ends_number_no_digit _ Hr)).
      reflexivity.
Qed.

(** a literal that is matched entirely is matched the same way in front
    of a text that cannot continue a number *)
Lemma match_number_app s rest i f e :
  Num.match_number s = Some (i, f, e, "") -> Num.ends_number rest = true ->
  Num.match_number (s ++ rest) = Some (i, f, e, rest).
Proof.
  unfold Num.match_number. intros H Hr.
  destruct (Num.match_integer s) as [[i' r1]|] eqn:Ei; [|discriminate].
  destruct (Num.match_frac r1) as [f' r2] eqn:Ef.
  destruct (Num.match_exp r2) as [e' r3] eqn:Ee. injection H as <- <- <- ->.
  rewrite (match_integer_app _ rest _ _ Ei (fun _ => ends_number_no_digit _ Hr)).
  rewrite (match_frac_app _ rest _ _ _ Ef Ee Hr).
  rewrite (match_exp_app _ rest _ Ee Hr). reflexivity.
Qed.

End FloatLiterals.

(** * The decoder reads back what the encoder writes *)

Section JsonFacts.

Context `{PyFloat}.

Implicit Types (s text rest : string) (c : ascii) (v : pyval) (l : list pyval)
  (d : list (string * pyval)).

(** induction over values, with the elements of lists and dictionaries *)
Lemma pyval_rect' (P : pyval -> Prop)
  (HNone : P PNone) (HBool : forall b, P (PBool b)) (HInt : forall z, P (PInt z))
  (HFloat : forall x, P (PFloat x)) (HStr : forall s, P (PStr s))
  (HList : forall l, Forall P l -> P (PList l))
  (HDict : forall d, Forall (fun kv => P kv.2) d -> P (PDict d))
  (HObj : forall repr o, (forall x, o = Some x -> P x) -> P (PObj repr o))
  : forall v, P v.
Proof.
  fix IH 1. intros [ | b | z | x | s | l | d | repr o].
  - exact HNone.
  - apply HBool.
  - apply HInt.
  - apply HFloat.
  - apply HStr.
  - apply HList. induction l as [|v l IHl]; constructor; [apply IH|exact IHl].
  - apply HDict. induction d as [|[k v] d IHd]; constructor; [apply IH|exact IHd].
  - apply HObj. destruct o as [x|]; [|discriminate]. intros ? [= <-]. apply IH.
Qed.

(** the calls [scan_once] needs to read a value back *)
Fixpoint need (v : pyval) : nat :=
  match v with
  | PList l => S (fold_right (fun x n => S (need x + n)) 0%nat l)
  | PDict d => S (fold_right (fun kv n => S (need kv.2 + n)) 0%nat d)
  | _ => 1
  end.


(** ** Strings *)

Lemma scanstring_escape_char c t :
  scanstring (escape_char c ++ t)
  = '(str, r) ← scanstring t; Ok (String c str, r).
Proof. destruct c as [[] [] [] [] [] [] [] []]; reflexivity. Qed.

Lemma scanstring_escape s rest :
  scanstring (escape s ++ String dquote rest) = Ok (s, rest).
Proof.
  induction s as [|c s IH]; simpl; [reflexivity|].
  rewrite append_assoc, scanstring_escape_char, IH. reflexivity.
Qed.

Lemma encode_string_eq s rest :
  encode_string s ++ rest = String dquote (escape s ++ String dquote rest).
Proof. unfold encode_string. simpl. rewrite append_assoc. reflexivity. Qed.

(** ** The first character of an encoded value *)

Definition number_start (c : ascii) : bool :=
  Num.is_digit c || Ascii.eqb c "-" || Ascii.eqb c "N" || Ascii.eqb c "I".

Definition value_start (c : ascii) : bool :=
  number_start c || Ascii.eqb c dquote || Ascii.eqb c "[" || Ascii.eqb c "{" ||
  Ascii.eqb c "n" || Ascii.eqb c "t" || Ascii.eqb c "f".

Definition starts_with (p : ascii -> bool) (s : string) : bool :=
  match s with
  | String c _ => p c
  | "" => false
  end.

Lemma starts_with_app p s rest : starts_with p s = true -> starts_with p (s ++ rest) = true.
Proof. destruct s; [discriminate|exact id]. Qed.

Lemma match_unsigned_start s i r :
  Num.match_unsigned s = Some (i, r) -> starts_with Num.is_digit s = true.
Proof.
  destruct s as [|c s]; simpl; [discriminate|].
  destruct (Ascii.eqb_spec c "0") as [->|_]; [reflexivity|].
  destruct (Num.is_digit c); [reflexivity|discriminate].
Qed.

Lemma match_integer_start s i r :
  Num.match_integer s = Some (i, r) -> starts_with number_start s = true.
Proof.
  rewrite match_integer_unfold. destruct s as [|c s]; [discriminate|].
  unfold number_start. destruct (Ascii.eqb c "-") eqn:Ec.
  - intros _. simpl. rewrite Ec, orb_true_r. reflexivity.
  - intros Hm. apply match_unsigned_start in Hm. simpl in *. rewrite Hm. reflexivity.
Qed.

Lemma int_repr_start (z : Z) : starts_with number_start (Num.int_repr z) = true.
Proof.
  eapply match_integer_start.
  rewrite <- (match_integer_int_repr z "" eq_refl). f_equal.
  clear. induction (Num.int_repr z); simpl; congruence.
Qed.

Lemma float_literal_start s :
  Num.is_float_literal s = true -> starts_with number_start s = true.
Proof.
  unfold Num.is_float_literal, Num.match_number.
  destruct (Num.match_integer s) as [[i r]|] eqn:E; [|discriminate].
  intros _. eapply match_integer_start, E.
Qed.

Lemma float_json_start (x : float) : starts_with number_start (float_json x) = true.
Proof.
  destruct (float_json_spec x) as [[-> _] | [[-> _] | [[-> _] | [Hl _]]]];
    try reflexivity.
  apply float_literal_start, Hl.
Qed.


(** ** Numbers *)

Lemma append_nil_r s : s ++ "" = s.
Proof. induction s; simpl; congruence. Qed.

Lemma scan_once_number fuel s :
  starts_with number_start s = true -> scan_once (S fuel) s = scan_number s.
Proof.
  destruct s as [|c r]; [discriminate|].
  destruct c as [[] [] [] [] [] [] [] []]; try discriminate; intros _; reflexivity.
Qed.

Lemma scan_number_int (z : Z) rest :
  Num.ends_number rest = true ->
  scan_number (Num.int_repr z ++ rest) = Ok (PInt z, rest).
Proof.
  intros Hr. unfold scan_number.
  rewrite (match_number_int_repr _ _ Hr), int_of_string_int_repr. reflexivity.
Qed.

Lemma scan_number_float (x : float) rest :
  Num.ends_number rest = true ->
  scan_number (float_json x ++ rest) = Ok (PFloat x, rest).
Proof.
  intros Hr. unfold scan_number.
  destruct (float_json_spec x) as [[-> <-] | [[-> <-] | [[-> <-] | [Hl Hx]]]];
    try reflexivity.
  unfold Num.is_float_literal in Hl.
  destruct (Num.match_number (float_json x)) as [[[[i f] e] r]|] eqn:E; [|discriminate].
  destruct r; [|discriminate].
  rewrite (match_number_app _ _ _ _ _ E Hr).
  apply negb_true_iff in Hl. rewrite Hl.
  apply match_number_split in E. rewrite append_nil_r in E.
  rewrite <- E, Hx. reflexivity.
Qed.

(** ** Values *)

Definition encode_items (b : bool) : list pyval -> result (list string) :=
  fix items l :=
    match l with
    | [] => Ok []
    | x :: l' => a ← encode b x; r ← items l'; Ok (a :: r)
    end.

Definition encode_pairs (b : bool) : list (string * pyval) -> result (list string) :=
  fix pairs d :=
    match d with
    | [] => Ok []
    | (k, x) :: d' =>
        a ← encode b x; r ← pairs d'; Ok ((encode_string k ++ ": " ++ a) :: r)
    end.

Lemma encode_list b l :
  encode b (PList l) = parts ← encode_items b l; Ok ("[" ++ join parts ++ "]").
Proof. reflexivity. Qed.

Lemma encode_dict b d :
  encode b (PDict d) = parts ← encode_pairs b d; Ok ("{" ++ join parts ++ "}").
Proof. reflexivity. Qed.

Lemma encode_start b v text :
  encode b v = Ok text -> starts_with value_start text = true.
Proof.
  destruct v as [ | [] | z | x | s | l | d | repr o].
  - intros [= <-]. reflexivity.
  - intros [= <-]. reflexivity.
  - intros [= <-]. reflexivity.
  - intros [= <-]. pose proof (int_repr_start z) as Hs.
    destruct (Num.int_repr z); [discriminate|]. simpl in *.
    unfold value_start. rewrite Hs. reflexivity.
  - intros [= <-]. pose proof (float_json_start x) as Hs.
    destruct (float_json x); [discriminate|]. simpl in *.
    unfold value_start. rewrite Hs. reflexivity.
  - intros [= <-]. reflexivity.
  - rewrite encode_list. destruct (encode_items b l); [|discriminate].
    intros [= <-]. reflexivity.
  - rewrite encode_dict. destruct (encode_pairs b d); [|discriminate].
    intros [= <-]. reflexivity.
  - simpl. destruct b; [|discriminate]. intros [= <-]. reflexivity.
Qed.

Lemma skip_ws_start s :
  starts_with value_start s = true -> skip_ws s = s.
Proof.
  destruct s as [|c r]; [reflexivity|].
  destruct c as [[] [] [] [] [] [] [] []]; try discriminate; reflexivity.
Qed.

Lemma skip_ws_encode b v text rest :
  encode b v = Ok text -> skip_ws (text ++ rest) = text ++ rest.
Proof. intros E. apply skip_ws_start, starts_with_app, (encode_start _ _ _ E). Qed.

(** distinct keys are kept as they are by [dict(pairs)] *)
Lemma dict_set_fresh k v d :
  existsb (String.eqb k) (map fst d) = false -> dict_set k v d = (d ++ [(k, v)])%list.
Proof.
  induction d as [|[k' v'] d IH]; simpl; [reflexivity|].
  intros [Hk Hd]%orb_false_elim. rewrite String.eqb_sym, Hk, (IH Hd). reflexivity.
Qed.

Lemma existsb_eqb_app k (l1 l2 : list string) :
  existsb (String.eqb k) (l1 ++ l2)%list = existsb (String.eqb k) l1 || existsb (String.eqb k) l2.
Proof. apply existsb_app. Qed.

Lemma distinct_snoc (ks : list string) k :
  distinct (ks ++ [k])%list = distinct ks && negb (existsb (String.eqb k) ks).
Proof.
  induction ks as [|k' ks IH]; simpl; [reflexivity|].
  rewrite IH, existsb_app. simpl. rewrite orb_false_r, (String.eqb_sym k k').
  destruct (existsb (String.eqb k') ks), (k' =? k)%string, (distinct ks),
    (existsb (String.eqb k) ks); reflexivity.
Qed.

Lemma dict_of_pairs_distinct d : distinct (map fst d) = true -> dict_of_pairs d = d.
Proof.
  unfold dict_of_pairs.
  enough (G : forall acc, distinct (map fst (acc ++ d)%list) = true ->
              fold_left (fun d0 kv => dict_set kv.1 kv.2 d0) d acc = (acc ++ d)%list)
    by (intros Hd; apply (G [] Hd)).
  induction d as [|[k v] d IH]; intros acc Hd; simpl.
  - rewrite app_nil_r. reflexivity.
  - replace (acc ++ (k, v) :: d)%list with ((acc ++ [(k, v)]) ++ d)%list in *
      by (rewrite <- app_assoc; reflexivity).
    rewrite dict_set_fresh.
    + apply IH, Hd.
    + rewrite !map_app in Hd. simpl in Hd.
      assert (Hd' : distinct (map fst acc ++ [k])%list = true).
      { revert Hd. generalize (map fst acc ++ [k])%list. intros l1.
        induction l1 as [|a l1 IHl]; simpl; [reflexivity|].
        rewrite existsb_app. intros [Ha Hl]%andb_true_iff.
        apply negb_true_iff, orb_false_elim in Ha as [Ha _].
        rewrite Ha, (IHl Hl). reflexivity. }
      rewrite distinct_snoc in Hd'. apply andb_true_iff in Hd' as [_ Hk].
      apply negb_true_iff, Hk.
Qed.


Definition need_items (l : list pyval) : nat :=
  fold_right (fun x n => S (need x + n)) 0%nat l.

Definition need_pairs (d : list (string * pyval)) : nat :=
  fold_right (fun kv n => S (need kv.2 + n)) 0%nat d.

(** [v] is read back from its encoding with enough fuel, in front of any
    text that cannot continue a number *)
Definition reads_back (v : pyval) : Prop :=
  forall text fuel rest,
    encode false v = Ok text -> well_formed v = true ->
    (need v <= fuel)%nat -> Num.ends_number rest = true ->
    scan_once fuel (text ++ rest) = Ok (v, rest).

#[local] Arguments join : simpl never.

Lemma join_one a : join [a] = a.
Proof. reflexivity. Qed.

Lemma join_cons a b (parts : list string) :
  join (a :: b :: parts) = a ++ ", " ++ join (b :: parts).
Proof. reflexivity. Qed.

Lemma scan_once_array fuel r :
  starts_with value_start r = true ->
  scan_once (S fuel) (String "[" r) = '(l, r') ← parse_array fuel r; Ok (PList l, r').
Proof.
  destruct r as [|c r]; [discriminate|].
  destruct c as [[] [] [] [] [] [] [] []]; try discriminate; reflexivity.
Qed.

Lemma scan_once_object fuel body :
  scan_once (S fuel) (String "{" (String dquote body))
  = '(pairs, r) ← parse_object fuel body; Ok (PDict (dict_of_pairs pairs), r).
Proof. reflexivity. Qed.

Lemma encode_items_start b x l a parts :
  encode_items b (x :: l) = Ok (a :: parts) ->
  encode b x = Ok a /\ encode_items b l = Ok parts.
Proof.
  simpl. destruct (encode b x); [|discriminate]. simpl.
  destruct (encode_items b l); [|discriminate]. simpl. intros [= <- <-]. auto.
Qed.

Lemma parse_array_items l :
  Forall reads_back l ->
  forall parts fuel rest,
    l <> [] -> encode_items false l = Ok parts -> forallb well_formed l = true ->
    (need_items l <= fuel)%nat ->
    parse_array fuel (join parts ++ String "]" rest) = Ok (l, rest).
Proof.
  induction 1 as [|x l Hx Hl IH]; intros parts fuel rest Hne He Hwf Hfuel;
    [congruence|].
  destruct parts as [|a parts].
  { simpl in He. destruct (encode false x); [|discriminate].
    destruct (encode_items false l); discriminate. }
  apply encode_items_start in He as [Ea El].
  simpl in Hwf. apply andb_true_iff in Hwf as [Wx Wl].
  destruct fuel as [|fuel]; [simpl in Hfuel; lia|].
  change (need_items (x :: l)) with (S (need x + need_items l)) in Hfuel.
  destruct l as [|y l].
  - simpl in El. injection El as <-. rewrite join_one.
    simpl. rewrite (Hx a fuel (String "]" rest) Ea Wx); [reflexivity|lia|reflexivity].
  - destruct parts as [|b parts].
    { simpl in El. destruct (encode false y); [|discriminate].
      destruct (encode_items false l); discriminate. }
    rewrite join_cons, !append_assoc. simpl.
    rewrite (Hx a fuel _ Ea Wx); [|lia|reflexivity]. simpl.
    pose proof (encode_items_start _ _ _ _ _ El) as [Eb _].
    assert (Hs : skip_ws (join (b :: parts) ++ String "]" rest)
                 = join (b :: parts) ++ String "]" rest).
    { apply skip_ws_start, starts_with_app.
      pose proof (encode_start _ _ _ Eb) as Hb.
      destruct parts; [exact Hb|]. rewrite join_cons. apply starts_with_app, Hb. }
    rewrite Hs, (IH (b :: parts) fuel rest); [reflexivity|discriminate|exact El|exact Wl|lia].
Qed.


Lemma encode_pairs_start b k x d p parts :
  encode_pairs b ((k, x) :: d) = Ok (p :: parts) ->
  exists a, encode b x = Ok a /\ p = encode_string k ++ ": " ++ a /\
            encode_pairs b d = Ok parts.
Proof.
  simpl. destruct (encode b x) as [a|]; [|discriminate]. simpl.
  destruct (encode_pairs b d); [|discriminate]. simpl. intros [= <- <-]. eauto.
Qed.

Lemma encode_pairs_nil b k x d : encode_pairs b ((k, x) :: d) <> Ok [].
Proof.
  simpl. destruct (encode b x); [|discriminate]. simpl.
  destruct (encode_pairs b d); discriminate.
Qed.

Lemma join_pairs_quote b d parts :
  d <> [] -> encode_pairs b d = Ok parts -> exists t, join parts = String dquote t.
Proof.
  destruct d as [|[k x] d]; [congruence|]. intros _ E.
  destruct parts as [|p parts]; [exfalso; eapply encode_pairs_nil, E|].
  apply encode_pairs_start in E as (a & _ & -> & _).
  destruct parts; [rewrite join_one|rewrite join_cons]; eexists; reflexivity.
Qed.

Lemma parse_object_pairs d :
  Forall (fun kv => reads_back kv.2) d ->
  forall parts fuel rest body,
    d <> [] -> encode_pairs false d = Ok parts ->
    forallb (fun kv => well_formed kv.2) d = true ->
    (need_pairs d <= fuel)%nat ->
    join parts ++ String "}" rest = String dquote body ->
    parse_object fuel body = Ok (d, rest).
Proof.
  induction 1 as [|[k x] d Hx Hd IH]; intros parts fuel rest body Hne He Hwf Hfuel Hb;
    [congruence|].
  destruct parts as [|p parts]; [exfalso; eapply encode_pairs_nil, He|].
  apply encode_pairs_start in He as (a & Ea & -> & Ed).
  simpl in Hwf. apply andb_true_iff in Hwf as [Wx Wd].
  destruct fuel as [|fuel]; [simpl in Hfuel; lia|].
  change (need_pairs ((k, x) :: d)) with (S (need x + need_pairs d)) in Hfuel.
  simpl in Hx.
  destruct d as [|[k' y] d].
  - simpl in Ed. injection Ed as <-. rewrite join_one in Hb.
    rewrite !append_assoc, encode_string_eq in Hb. injection Hb as <-.
    simpl. rewrite scanstring_escape. simpl.
    rewrite (skip_ws_encode _ _ _ _ Ea).
    rewrite (Hx a fuel (String "}" rest) Ea Wx); [reflexivity|lia|reflexivity].
  - destruct (join_pairs_quote false ((k', y) :: d) parts ltac:(discriminate) Ed)
      as [t Ht].
    destruct parts as [|q parts]; [exfalso; eapply encode_pairs_nil, Ed|].
    rewrite join_cons, !append_assoc, encode_string_eq in Hb. injection Hb as <-.
    simpl. rewrite scanstring_escape. simpl.
    rewrite (skip_ws_encode _ _ _ _ Ea).
    rewrite (Hx a fuel _ Ea Wx); [|lia|reflexivity]. simpl.
    rewrite Ht. simpl.
    rewrite (IH (q :: parts) fuel rest (t ++ String "}" rest));
      [reflexivity|discriminate|exact Ed|exact Wd|lia|].
    rewrite Ht. reflexivity.
Qed.

Lemma append_char c s : String c "" ++ s = String c s.
Proof. reflexivity. Qed.

Lemma append_cons c s t : String c s ++ t = String c (s ++ t).
Proof. reflexivity. Qed.

(** every value that [json.dumps] accepts is read back by [scan_once] *)
Lemma encode_reads_back v : reads_back v.
Proof.
  induction v as [ | b | z | x | s | l IHl | d IHd | repr o _] using pyval_rect';
    intros text fuel rest He Hwf Hfuel Hr;
    (destruct fuel as [|fuel]; [simpl in Hfuel; lia|]).
  - injection He as <-. reflexivity.
  - destruct b; injection He as <-; reflexivity.
  - injection He as <-.
    rewrite scan_once_number by apply starts_with_app, int_repr_start.
    apply scan_number_int, Hr.
  - injection He as <-.
    rewrite scan_once_number by apply starts_with_app, float_json_start.
    apply scan_number_float, Hr.
  - injection He as <-. rewrite encode_string_eq.
    simpl. rewrite scanstring_escape. reflexivity.
  - rewrite encode_list in He.
    destruct (encode_items false l) as [parts|] eqn:Ep; [|discriminate].
    injection He as <-. simpl in Hwf.
    destruct l as [|x l].
    + injection Ep as <-. reflexivity.
    + destruct parts as [|a parts].
      { simpl in Ep. destruct (encode false x); [|discriminate].
        destruct (encode_items false l); discriminate. }
      rewrite append_cons, !append_assoc, !append_char.
      rewrite scan_once_array.
      * rewrite (parse_array_items _ IHl (a :: parts) fuel rest);
          [reflexivity|discriminate|exact Ep|exact Hwf|].
        change (need (PList (x :: l))) with (S (need_items (x :: l))) in Hfuel. lia.
      * apply starts_with_app.
        apply encode_items_start in Ep as [Ea _]. pose proof (encode_start _ _ _ Ea).
        destruct parts; [assumption|]. rewrite join_cons. apply starts_with_app. assumption.
  - rewrite encode_dict in He.
    destruct (encode_pairs false d) as [parts|] eqn:Ep; [|discriminate].
    injection He as <-. simpl in Hwf. apply andb_true_iff in Hwf as [Hk Hwf].
    destruct d as [|kv d].
    + injection Ep as <-. reflexivity.
    + destruct (join_pairs_quote false (kv :: d) parts ltac:(discriminate) Ep)
        as [t Ht].
      rewrite append_cons, !append_assoc, !append_char, Ht, append_cons.
      rewrite scan_once_object.
      rewrite (parse_object_pairs _ IHd parts fuel rest (t ++ String "}" rest));
        [|discriminate|exact Ep|exact Hwf| |rewrite Ht; reflexivity].
      * simpl. rewrite (dict_of_pairs_distinct _ Hk). reflexivity.
      * change (need (PDict (kv :: d))) with (S (need_pairs (kv :: d))) in Hfuel. lia.
  - discriminate.
Qed.


(** ** Fuel: twice the length of the text is enough *)

Definition short_enough (b : bool) (v : pyval) : Prop :=
  forall text, encode b v = Ok text -> (need v <= 2 * String.length text)%nat.

Lemma length_start p text : starts_with p text = true -> (1 <= String.length text)%nat.
Proof. destruct text; [discriminate|simpl; lia]. Qed.

Lemma need_items_length b l :
  Forall (short_enough b) l ->
  forall parts, encode_items b l = Ok parts ->
    (need_items l <= 2 * String.length (join parts) + 3)%nat.
Proof.
  induction 1 as [|x l Hx Hl IH]; intros parts He; [simpl; lia|].
  destruct parts as [|a parts].
  { simpl in He. destruct (encode b x); [|discriminate].
    destruct (encode_items b l); discriminate. }
  apply encode_items_start in He as [Ea El].
  change (need_items (x :: l)) with (S (need x + need_items l)).
  specialize (Hx a Ea). specialize (IH parts El).
  destruct parts as [|a' parts].
  - destruct l as [|y l]; [rewrite join_one; simpl; lia|].
    simpl in El. destruct (encode b y); [|discriminate].
    destruct (encode_items b l); discriminate.
  - rewrite join_cons, !length_app. simpl. lia.
Qed.

Lemma need_pairs_length b d :
  Forall (fun kv => short_enough b kv.2) d ->
  forall parts, encode_pairs b d = Ok parts ->
    (need_pairs d <= 2 * String.length (join parts) + 3)%nat.
Proof.
  induction 1 as [|[k x] d Hx Hd IH]; intros parts He; [simpl; lia|].
  destruct parts as [|p parts]; [exfalso; eapply encode_pairs_nil, He|].
  apply encode_pairs_start in He as (a & Ea & -> & Ed).
  change (need_pairs ((k, x) :: d)) with (S (need x + need_pairs d)).
  specialize (Hx a Ea). specialize (IH parts Ed). simpl in Hx.
  destruct parts as [|p' parts].
  - destruct d as [|[k' y] d]; [rewrite join_one, !length_app; simpl; lia|].
    exfalso. eapply encode_pairs_nil, Ed.
  - rewrite join_cons, !length_app. simpl. lia.
Qed.

Lemma need_le_length b v : short_enough b v.
Proof.
  induction v as [ | b' | z | x | s | l IHl | d IHd | repr o _] using pyval_rect';
    intros text He;
    try (apply encode_start, length_start in He; simpl; lia).
  - rewrite encode_list in He.
    destruct (encode_items b l) as [parts|] eqn:Ep; [|discriminate].
    injection He as <-. pose proof (need_items_length _ _ IHl _ Ep).
    change (need (PList l)) with (S (need_items l)).
    simpl String.length. rewrite length_app. simpl String.length. lia.
  - rewrite encode_dict in He.
    destruct (encode_pairs b d) as [parts|] eqn:Ep; [|discriminate].
    injection He as <-. pose proof (need_pairs_length _ _ IHd _ Ep).
    change (need (PDict d)) with (S (need_pairs d)).
    simpl String.length. rewrite length_app. simpl String.length. lia.
Qed.

(** [json.loads(json.dumps(v)) == v] *)
Lemma json_loads_dumps v text :
  json_dumps v = Ok text -> well_formed v = true -> json_loads text = Ok v.
Proof.
  unfold json_dumps, json_loads. intros He Hwf.
  rewrite (skip_ws_start _ (encode_start _ _ _ He)).
  pose proof (encode_reads_back v text (2 * String.length text + 1)%nat "" He Hwf) as Hr.
  rewrite append_nil_r in Hr. rewrite Hr; [reflexivity| |reflexivity].
  pose proof (need_le_length false v text He). lia.
Qed.

(** with [default=str] the encoder accepts every value *)
Lemma encode_default_total v : exists text, encode true v = Ok text.
Proof.
  induction v as [ | b | z | x | s | l IHl | d IHd | repr o _] using pyval_rect';
    try (eexists; reflexivity).
  - destruct b; eexists; reflexivity.
  - rewrite encode_list.
    assert (exists parts, encode_items true l = Ok parts) as [parts ->].
    { induction IHl as [|x l [a Ha] _ [parts Hp]]; [eexists; reflexivity|].
      simpl. rewrite Ha. simpl. fold (encode_items true l). rewrite Hp.
      eexists; reflexivity. }
    eexists; reflexivity.
  - rewrite encode_dict.
    assert (exists parts, encode_pairs true d = Ok parts) as [parts ->].
    { induction IHd as [|[k x] d [a Ha] _ [parts Hp]]; [eexists; reflexivity|].
      simpl in *. rewrite Ha. simpl. fold (encode_pairs true d). rewrite Hp.
      eexists; reflexivity. }
    eexists; reflexivity.
Qed.


(** ** What the decoder raises *)






End JsonFacts.

(** * A float implementation to run the handlers with

    Amounts in hundredths, with the three special values of IEEE
    arithmetic.  Sums of amounts with two decimals are exact here, and a
    number is printed positionally with one or two decimals. *)

Module Cents.

Inductive t : Type :=
  | Fin (hundredths : Z)
  | NaN
  | Inf
  | NegInf.

#[export] Instance t_eq_dec : EqDecision t.
Proof. solve_decision. Defined.

Definition is_zero (x : t) : bool :=
  match x with
  | Fin z => z =? 0
  | _ => false
  end.

Definition of_int (z : Z) : option t := Some (Fin (100 * z)).

Definition add (x y : t) : t :=
  match x, y with
  | NaN, _ | _, NaN => NaN
  | Inf, NegInf | NegInf, Inf => NaN
  | Inf, _ | _, Inf => Inf
  | NegInf, _ | _, NegInf => NegInf
  | Fin a, Fin b => Fin (a + b)
  end.

Definition of_number (n : Z + t) : t :=
  match n with
  | inl z => Fin (100 * z)
  | inr x => x
  end.

(** sums of hundredths are exact: no compensation is needed *)
Definition sum (start : t) (ns : list (Z + t)) : option t :=
  Some (fold_left (fun acc n => add acc (of_number n)) ns start).

(** round half to even, to a multiple of [unit] *)
Definition round_to (unit z : Z) : Z :=
  let q := z / unit in
  let r := z mod unit in
  (if 2 * r <? unit then q
   else if unit <? 2 * r then q + 1
   else if Z.even q then q else q + 1) * unit.

Definition round (x : t) (ndigits : Z) : t :=
  match x with
  | Fin z => Fin (if 2 <=? ndigits then z else round_to (10 ^ (2 - ndigits)) z)
  | _ => x
  end.

Definition digit_char (d : Z) : ascii :=
  match d with
  | 0 => "0" | 1 => "1" | 2 => "2" | 3 => "3" | 4 => "4"
  | 5 => "5" | 6 => "6" | 7 => "7" | 8 => "8" | _ => "9"
  end%char.

Definition digit_value (c : ascii) : Z :=
  match c with
  | "1" => 1 | "2" => 2 | "3" => 3 | "4" => 4 | "5" => 5
  | "6" => 6 | "7" => 7 | "8" => 8 | "9" => 9 | _ => 0
  end%char.

(** the decimals of [n] hundredths, without a trailing zero *)
Definition decimals (n : Z) : string :=
  String (digit_char (n / 10))
    (if n mod 10 =? 0 then "" else String (digit_char (n mod 10)) "").

Definition json (x : t) : string :=
  match x with
  | NaN => "NaN"
  | Inf => "Infinity"
  | NegInf => "-Infinity"
  | Fin z =>
      (if z <? 0 then "-" else "") ++
      NilZero.string_of_uint (N.to_uint (Z.abs_N z / 100)) ++
      String "." (decimals (Z.abs z mod 100))
  end.

(** the first two decimals of a fraction group *)
Definition frac_hundredths (f : string) : Z :=
  match f with
  | String _ (String a "") => 10 * digit_value a
  | String _ (String a (String b _)) => 10 * digit_value a + digit_value b
  | _ => 0
  end.

Definition exponent (e : string) : Z :=
  match e with
  | String _ (String "+" ds) => default 0 (Num.int_of_string ds)
  | String _ ds => default 0 (Num.int_of_string ds)
  | "" => 0
  end.

Definition is_negative (i : string) : bool :=
  match i with
  | String c _ => Ascii.eqb c "-"
  | "" => false
  end.

(** [float(s)] on a number literal, cut after the second decimal *)
Definition of_string (s : string) : t :=
  match Num.match_number s with
  | Some (i, f, e, _) =>
      let magnitude :=
        Z.abs (default 0 (Num.int_of_string i)) * 100 + frac_hundredths f in
      let ex := exponent e in
      let scaled :=
        if 0 <=? ex then magnitude * 10 ^ ex else magnitude / 10 ^ (- ex) in
      Fin (if is_negative i then - scaled else scaled)
  | None => NaN
  end.

Lemma digit_char_spec (d : Z) : 0 <= d <= 9 ->
  Num.is_digit (digit_char d) = true /\ digit_value (digit_char d) = d.
Proof.
  intros Hd. destruct d as [|p|p]; [split; reflexivity| |lia].
  do 4 (try (destruct p as [p|p|]; try (split; reflexivity))); lia.
Qed.

Lemma decimals_spec (n : Z) : 0 <= n < 100 ->
  Num.span_digits (decimals n) = (decimals n, "") /\
  frac_hundredths (String "." (decimals n)) = n /\
  decimals n <> "".
Proof.
  intros Hn. unfold decimals.
  assert (H1 : 0 <= n / 10 <= 9).
  { split; [apply Z.div_pos; lia|]. apply Z.lt_succ_r, Z.div_lt_upper_bound; lia. }
  assert (H2 : 0 <= n mod 10 <= 9) by (pose proof (Z.mod_pos_bound n 10); lia).
  destruct (digit_char_spec _ H1) as [D1 V1], (digit_char_spec _ H2) as [D2 V2].
  pose proof (Z.div_mod n 10 ltac:(lia)) as Hdm.
  destruct (Z.eqb_spec (n mod 10) 0) as [E|E]; simpl.
  - rewrite D1, V1. repeat split; [lia|discriminate].
  - rewrite D1, D2, V1, V2. repeat split; [lia|discriminate].
Qed.

Lemma int_of_string_uint (n : N) :
  Num.int_of_string (NilZero.string_of_uint (N.to_uint n)) = Some (Z.of_N n).
Proof.
  change (NilZero.string_of_uint (N.to_uint n))
    with (NilZero.string_of_int (Pos (N.to_uint n))).
  unfold Num.int_of_string. rewrite NilZero.isi.
  - simpl. unfold Z.of_uint. rewrite DecimalN.Unsigned.of_to. reflexivity.
  - destruct n; simpl; [discriminate|].
    intros [= E]. eapply DecimalPos.Unsigned.to_uint_nonnil, E.
  - discriminate.
Qed.

Lemma int_of_string_neg_uint (n : N) :
  Num.int_of_string (String "-" (NilZero.string_of_uint (N.to_uint n)))
  = Some (- Z.of_N n).
Proof.
  change (String "-" (NilZero.string_of_uint (N.to_uint n)))
    with (NilZero.string_of_int (Neg (N.to_uint n))).
  unfold Num.int_of_string. rewrite NilZero.isi.
  - simpl. unfold Z.of_uint. rewrite DecimalN.Unsigned.of_to. reflexivity.
  - discriminate.
  - destruct n; simpl; [discriminate|].
    intros [= E]. eapply DecimalPos.Unsigned.to_uint_nonnil, E.
Qed.

Lemma match_number_json (z : Z) :
  let i := (if z <? 0 then "-" else "") ++
           NilZero.string_of_uint (N.to_uint (Z.abs_N z / 100)) in
  let f := String "." (decimals (Z.abs z mod 100)) in
  Num.match_number (json (Fin z)) = Some (i, f, "", "").
Proof.
  intros i f. unfold Num.match_number.
  assert (Hn : 0 <= Z.abs z mod 100 < 100) by (apply Z.mod_pos_bound; lia).
  destruct (decimals_spec _ Hn) as (Hs & _ & Hne).
  assert (Hi : Num.match_integer (json (Fin z)) = Some (i, f)).
  { subst i f. unfold json.
    set (U := N.to_uint (Z.abs_N z / 100)). set (D := decimals (Z.abs z mod 100)).
    pose proof (match_unsigned_uint U (String "." D) (to_uint_normal _) eq_refl) as Hm.
    destruct (z <? 0).
    - change (Num.match_integer (String "-" (NilZero.string_of_uint U ++ String "." D))
              = Some (String "-" (NilZero.string_of_uint U), String "." D)).
      rewrite match_integer_unfold. cbn [Ascii.eqb Bool.eqb]. rewrite Hm. reflexivity.
    - change (Num.match_integer (NilZero.string_of_uint U ++ String "." D)
              = Some (NilZero.string_of_uint U, String "." D)).
      destruct (uint_string_no_minus U (String "." D)) as (c & r & E & Hc).
      rewrite E in *. rewrite match_integer_unfold.
      destruct (Ascii.eqb_spec c "-"); [congruence|exact Hm]. }
  rewrite Hi. subst f. rewrite match_frac_unfold.
  cbn [Ascii.eqb Bool.eqb]. rewrite Hs.
  destruct (decimals (Z.abs z mod 100)); [congruence|]. reflexivity.
Qed.

Lemma json_spec (x : t) :
  (json x = "NaN" /\ NaN = x) \/
  (json x = "Infinity" /\ Inf = x) \/
  (json x = "-Infinity" /\ NegInf = x) \/
  (Num.is_float_literal (json x) = true /\ of_string (json x) = x).
Proof.
  destruct x as [z| | |]; [|auto|auto|right; right; left; auto].
  right; right; right. pose proof (match_number_json z) as Hm. cbv zeta in Hm.
  unfold Num.is_float_literal, of_string. rewrite Hm. split; [reflexivity|].
  assert (Hn : 0 <= Z.abs z mod 100 < 100) by (apply Z.mod_pos_bound; lia).
  destruct (decimals_spec _ Hn) as (_ & -> & _).
  simpl exponent. simpl Z.leb. cbv iota. rewrite Z.pow_0_r, Z.mul_1_r.
  assert (Hq : Z.of_N (Z.abs_N z / 100) = Z.abs z / 100).
  { rewrite N2Z.inj_div, N2Z.inj_abs_N. reflexivity. }
  pose proof (Z.div_mod (Z.abs z) 100 ltac:(lia)) as Hdm.
  destruct (Z.ltb_spec z 0) as [Hz|Hz]; simpl.
  - rewrite int_of_string_neg_uint. simpl. rewrite Hq. f_equal. lia.
  - destruct (uint_string_no_minus (N.to_uint (Z.abs_N z / 100)) "") as (c & r & E & Hc).
    assert (Hnil : forall s : string, s ++ "" = s) by (intros s; induction s; simpl; congruence). rewrite Hnil in E. rewrite int_of_string_uint. simpl. rewrite Hq.
    rewrite E. simpl. destruct (Ascii.eqb_spec c "-"); [congruence|]. f_equal. lia.
Qed.

#[export] Instance py_float : PyFloat := {|
  float := t;
  float_is_zero := is_zero;
  float_of_int := of_int;
  float_add := add;
  float_sum := sum;
  float_round := round;
  float_nan := NaN;
  float_inf := Inf;
  float_neg_inf := NegInf;
  float_json := json;
  float_of_string := of_string;
  float_json_spec := json_spec
|}.

End Cents.

(** * The handlers *)

Section Handlers.

Context `{PyFloat}.

Abbreviation table := (gmap (string * string) (list (string * pyval))).

Implicit Types (az : Azure) (blob : InputStream) (tbl : table) (v receipt : pyval).

(** the [try] block of [AnalyzeReceipt], step by step *)
Lemma AnalyzeReceipt_try_cases az blob receipt_id out :
  AnalyzeReceipt_try az blob receipt_id out =
  match analyze_blob az blob with
  | Raise e => (out, Raise e)
  | Ok analysis =>
      match documents analysis with
      | [] => (out, Ok tt)
      | document :: _ =>
          match output_data receipt_id (fields document) with
          | Raise e => (out, Raise e)
          | Ok data =>
              match json_dumps data with
              | Raise e => (out, Raise e)
              | Ok text => (Some text, Ok tt)
              end
          end
      end
  end.
Proof.
  unfold AnalyzeReceipt_try, mbind, trig_bind, lift.
  destruct (analyze_blob az blob) as [analysis|e]; [|reflexivity].
  destruct (documents analysis) as [|document rest]; [reflexivity|].
  destruct (output_data receipt_id (fields document)) as [data|e]; [|reflexivity].
  destruct (json_dumps data) as [text|e]; reflexivity.
Qed.

(** the binding is set last: a [try] block that raises has set nothing *)
Lemma AnalyzeReceipt_try_raises az blob receipt_id out out' e :
  AnalyzeReceipt_try az blob receipt_id out = (out', Raise e) -> out' = out.
Proof.
  rewrite AnalyzeReceipt_try_cases.
  destruct (analyze_blob az blob) as [analysis|e1]; [|congruence].
  destruct (documents analysis) as [|document rest]; [congruence|].
  destruct (output_data receipt_id (fields document)) as [data|e2]; [|congruence].
  destruct (json_dumps data) as [text|e3]; congruence.
Qed.

Lemma AnalyzeReceipt_returns az blob out : (AnalyzeReceipt az blob out).2 = Ok tt.
Proof.
  unfold AnalyzeReceipt, try_except.
  destruct (AnalyzeReceipt_try az blob _ out) as [out' [[]|e]]; reflexivity.
Qed.

(** when the function has set the binding *)
Lemma tableOutput_Some az blob text :
  tableOutput az blob = Some text <->
  exists analysis document rest data,
    analyze_blob az blob = Ok analysis /\
    documents analysis = document :: rest /\
    output_data (analyzer_receipt_id (name blob)) (fields document) = Ok data /\
    json_dumps data = Ok text.
Proof.
  unfold tableOutput, AnalyzeReceipt, try_except.
  rewrite AnalyzeReceipt_try_cases.
  destruct (analyze_blob az blob) as [analysis|e1].
  2:{ simpl. split; [discriminate|]. intros (? & ? & ? & ? & [=] & _). }
  destruct (documents analysis) as [|document rest] eqn:Ed.
  { simpl. split; [discriminate|]. intros (? & ? & ? & ? & [= <-] & Hd & _). congruence. }
  destruct (output_data _ (fields document)) as [data|e2] eqn:Eo.
  2:{ simpl. split; [discriminate|].
      intros (? & ? & ? & ? & [= <-] & Hd & Ho & _).
      rewrite Ed in Hd. injection Hd as <- <-. congruence. }
  destruct (json_dumps data) as [text'|e3] eqn:Ej; simpl.
  - split.
    + intros [= <-]. eauto 10.
    + intros (? & ? & ? & ? & [= <-] & Hd & Ho & Hj).
      rewrite Ed in Hd. injection Hd as <- <-. congruence.
  - split; [discriminate|].
    intros (? & ? & ? & ? & [= <-] & Hd & Ho & Hj).
    rewrite Ed in Hd. injection Hd as <- <-. congruence.
Qed.

Lemma AnalyzeReceipt_None az blob :
  AnalyzeReceipt az blob None = (tableOutput az blob, Ok tt).
Proof.
  unfold tableOutput. pose proof (AnalyzeReceipt_returns az blob None) as Hr.
  destruct (AnalyzeReceipt az blob None) as [o r]. simpl in *. congruence.
Qed.

Lemma trigger_tableOutput az blob tbl :
  trigger az blob tbl =
  match tableOutput az blob with
  | Some text => table_store text tbl
  | None => tbl
  end.
Proof.
  unfold trigger. rewrite AnalyzeReceipt_None.
  destruct (tableOutput az blob); reflexivity.
Qed.


(** ** Steps that return *)

Lemma bind_Ok {A B} (m : result A) (f : A -> result B) (b : B) :
  m ≫= f = Ok b <-> exists a, m = Ok a /\ f a = Ok b.
Proof.
  destruct m as [a|e]; simpl; split.
  - eauto.
  - intros (a' & [= <-] & Hf). exact Hf.
  - discriminate.
  - intros (a' & [=] & _).
Qed.

Lemma lookup_well_formed (d : list (string * pyval)) k x :
  forallb (fun kv => well_formed kv.2) d = true ->
  dict_lookup k d = Some x -> well_formed x = true.
Proof.
  induction d as [|[k' v'] d IH]; simpl; [discriminate|].
  intros [Hv Hd]%andb_true_iff. destruct (String.eqb k' k).
  - intros [= <-]. exact Hv.
  - apply IH, Hd.
Qed.

Lemma py_get_well_formed v k dflt x :
  well_formed v = true -> well_formed dflt = true ->
  py_get v k dflt = Ok x -> well_formed x = true.
Proof.
  destruct v; try discriminate. simpl.
  intros [_ Hd]%andb_true_iff Hdflt [= <-].
  destruct (dict_lookup k d) as [y|] eqn:E; simpl; [|exact Hdflt].
  eapply lookup_well_formed; eauto.
Qed.

Lemma attr_value_well_formed v x :
  well_formed v = true -> attr_value v = Ok x -> well_formed x = true.
Proof. destruct v as [ | | | | | | |repr [y|]]; try discriminate. simpl. congruence. Qed.

Lemma py_or_well_formed a b :
  well_formed a = true -> well_formed b = true -> well_formed (py_or a b) = true.
Proof. unfold py_or. destruct (truthy a); auto. Qed.

Lemma py_iter_well_formed v l :
  well_formed v = true -> py_iter v = Ok l -> forallb well_formed l = true.
Proof.
  destruct v; try discriminate; simpl.
  - intros _ [= <-]. induction (list_ascii_of_string s); simpl; auto.
  - intros Hl [= <-]. exact Hl.
  - intros _ [= <-]. induction d; simpl; auto.
Qed.

(** what one element of [Items] becomes *)
Lemma extract_item_Ok item stored :
  extract_item item = Ok stored <->
  exists item_props description_field description price_field price,
    attr_value item = Ok item_props /\
    py_get item_props "Description" (PDict []) = Ok description_field /\
    attr_value description_field = Ok description /\
    py_get item_props "TotalPrice" (PDict []) = Ok price_field /\
    attr_value price_field = Ok price /\
    stored = PDict [("description", description);
                    ("totalPrice", py_or price (PInt 0))].
Proof.
  unfold extract_item. split.
  - intros Hx.
    apply bind_Ok in Hx as (item_props & E1 & Hx).
    apply bind_Ok in Hx as (description_field & E2 & Hx).
    apply bind_Ok in Hx as (description & E3 & Hx).
    apply bind_Ok in Hx as (price_field & E4 & Hx).
    apply bind_Ok in Hx as (price & E5 & Hx).
    injection Hx as <-. eauto 12.
  - intros (? & ? & ? & ? & ? & -> & E2 & E3 & E4 & E5 & ->).
    simpl. rewrite E2. simpl. rewrite E3. simpl. rewrite E4. simpl. rewrite E5.
    reflexivity.
Qed.

Lemma extract_item_well_formed item stored :
  well_formed item = true -> extract_item item = Ok stored ->
  well_formed stored = true.
Proof.
  intros Hw (props & df & d & pf & p & E1 & E2 & E3 & E4 & E5 & ->)%extract_item_Ok.
  pose proof (attr_value_well_formed _ _ Hw E1) as Hp.
  pose proof (py_get_well_formed _ _ (PDict []) _ Hp eq_refl E2) as Hdf.
  pose proof (py_get_well_formed _ _ (PDict []) _ Hp eq_refl E4) as Hpf.
  pose proof (attr_value_well_formed _ _ Hdf E3) as Hd.
  pose proof (attr_value_well_formed _ _ Hpf E5) as Hpr.
  simpl. rewrite Hd, (py_or_well_formed p (PInt 0) Hpr eq_refl). reflexivity.
Qed.

(** the loop appends one dictionary for each element, in order *)
Lemma for_items_Ok l acc items_list :
  for_items l acc = Ok items_list <->
  exists stored, Forall2 (fun item st => extract_item item = Ok st) l stored /\
                 items_list = (acc ++ stored)%list.
Proof.
  revert acc items_list. induction l as [|item l IH]; intros acc items_list; simpl.
  - split.
    + intros [= <-]. exists []. split; [constructor|]. rewrite app_nil_r. reflexivity.
    + intros (stored & Hf & ->). inversion Hf. rewrite app_nil_r. reflexivity.
  - split.
    + intros (st & E & Hl)%bind_Ok. apply IH in Hl as (stored & Hf & ->).
      exists (st :: stored). split; [constructor; assumption|].
      rewrite <- app_assoc. reflexivity.
    + intros (stored & Hf & ->). inversion Hf as [|? st ? stored' E Hf']; subst.
      rewrite E. simpl. apply IH. exists stored'. split; [assumption|].
      rewrite <- app_assoc. reflexivity.
Qed.

Lemma Forall2_extract_well_formed l stored :
  forallb well_formed l = true ->
  Forall2 (fun item st => extract_item item = Ok st) l stored ->
  forallb well_formed stored = true.
Proof.
  intros Hl Hf. induction Hf as [|item st l stored E _ IH]; [reflexivity|].
  simpl in *. apply andb_true_iff in Hl as [Hi Hl].
  rewrite (extract_item_well_formed _ _ Hi E), (IH Hl). reflexivity.
Qed.

(** [items_list]: empty unless [Items] is there with a truthy value, and
    then one dictionary for each element of that value *)
Lemma extract_items_Ok receipt items_list :
  extract_items receipt = Ok items_list <->
  exists items,
    py_get receipt "Items" PNone = Ok items /\
    ((truthy items = false /\ items_list = []) \/
     (exists v, truthy items = true /\ attr_value items = Ok v /\
        ((truthy v = false /\ items_list = []) \/
         (exists l, truthy v = true /\ py_iter v = Ok l /\
                    Forall2 (fun item st => extract_item item = Ok st) l items_list)))).
Proof.
  unfold extract_items. split.
  - intros (items & E1 & Hx)%bind_Ok. exists items. split; [exact E1|].
    rewrite E1 in Hx. simpl in Hx.
    destruct (truthy items) eqn:Ti.
    + right. apply bind_Ok in Hx as (cond & Hc & Hx).
      apply bind_Ok in Hc as (v & Ev & [= <-]).
      exists v. repeat split; [exact Ev|].
      rewrite Ev in Hx. simpl in Hx.
      destruct (truthy v) eqn:Tv.
      * right. apply bind_Ok in Hx as (l & El & Hx).
        apply for_items_Ok in Hx as (stored & Hf & ->).
        exists l. repeat split; assumption.
      * left. injection Hx as <-. auto.
    + left. simpl in Hx. injection Hx as <-. auto.
  - intros (items & E1 & [[Ti ->] | (v & Ti & Ev & [[Tv ->] | (l & Tv & El & Hf)])]);
      rewrite E1; simpl; rewrite Ti; simpl; try reflexivity;
      rewrite Ev; simpl; rewrite Tv; simpl; try reflexivity.
    rewrite El. simpl. apply for_items_Ok. eauto.
Qed.

Lemma extract_items_well_formed receipt items_list :
  well_formed receipt = true -> extract_items receipt = Ok items_list ->
  forallb well_formed items_list = true.
Proof.
  intros Hw (items & E1 & Hc)%extract_items_Ok.
  destruct Hc as [[_ ->] | (v & _ & Ev & [[_ ->] | (l & _ & El & Hf)])];
    try reflexivity.
  pose proof (py_get_well_formed _ _ PNone _ Hw eq_refl E1) as Hi.
  pose proof (attr_value_well_formed _ _ Hi Ev) as Hv.
  eapply Forall2_extract_well_formed; [|exact Hf].
  eapply py_iter_well_formed; eauto.
Qed.

Lemma field_or_zero_well_formed receipt key x :
  well_formed receipt = true -> field_or_zero receipt key = Ok x ->
  well_formed x = true.
Proof.
  intros Hw (field & E1 & (v & E2 & [= <-])%bind_Ok)%bind_Ok.
  apply py_or_well_formed; [|reflexivity].
  eapply attr_value_well_formed; [|exact E2].
  exact (py_get_well_formed receipt key (PDict []) field Hw eq_refl E1).
Qed.

Lemma py_round_well_formed v n x : py_round v n = Ok x -> well_formed x = true.
Proof.
  unfold py_round. destruct (as_number v) as [[z|y]|]; intros [= <-]; reflexivity.
Qed.

(** the record that is encoded and set on the binding *)
Lemma output_data_Ok receipt_id receipt data :
  output_data receipt_id receipt = Ok data <->
  exists items_list calculated_subtotal items_text tax total,
    extract_items receipt = Ok items_list /\
    subtotal_of items_list = Ok calculated_subtotal /\
    json_dumps (PList items_list) = Ok items_text /\
    field_or_zero receipt "TotalTax" = Ok tax /\
    field_or_zero receipt "Total" = Ok total /\
    data = PDict [("PartitionKey", PStr "receipt"); ("RowKey", PStr receipt_id);
                  ("items", PStr items_text); ("subtotal", calculated_subtotal);
                  ("tax", tax); ("total", total)].
Proof.
  unfold output_data. split.
  - intros Hx.
    apply bind_Ok in Hx as (items_list & E1 & Hx).
    apply bind_Ok in Hx as (sub & E2 & Hx).
    apply bind_Ok in Hx as (items_text & E3 & Hx).
    apply bind_Ok in Hx as (tax & E4 & Hx).
    apply bind_Ok in Hx as (total & E5 & Hx).
    injection Hx as <-. eauto 12.
  - intros (? & ? & ? & ? & ? & -> & E2 & E3 & E4 & E5 & ->).
    simpl. rewrite E2. simpl. rewrite E3. simpl. rewrite E4. simpl. rewrite E5.
    reflexivity.
Qed.

Lemma output_data_well_formed receipt_id receipt data :
  well_formed receipt = true -> output_data receipt_id receipt = Ok data ->
  well_formed data = true.
Proof.
  intros Hw (items_list & sub & text & tax & total & E1 & E2 & E3 & E4 & E5 & ->)%output_data_Ok.
  apply bind_Ok in E2 as (prices & _ & (s & _ & Hr)%bind_Ok).
  simpl. rewrite (py_round_well_formed _ _ _ Hr),
    (field_or_zero_well_formed _ _ _ Hw E4), (field_or_zero_well_formed _ _ _ Hw E5).
  reflexivity.
Qed.


(** ** What is written *)

(** the text on the binding decodes to the record that was encoded *)
Lemma written_record az blob text :
  well_formed_analysis az blob -> tableOutput az blob = Some text ->
  exists analysis document rest data,
    analyze_blob az blob = Ok analysis /\
    documents analysis = document :: rest /\
    output_data (analyzer_receipt_id (name blob)) (fields document) = Ok data /\
    json_dumps data = Ok text /\
    json_loads text = Ok data.
Proof.
  intros Hwf (analysis & document & rest & data & Ea & Ed & Eo & Ej)%tableOutput_Some.
  exists analysis, document, rest, data. repeat split; try assumption.
  apply json_loads_dumps; [exact Ej|].
  eapply output_data_well_formed; [|exact Eo].
  specialize (Hwf analysis Ea). rewrite Ed in Hwf. inversion Hwf. assumption.
Qed.

Lemma table_store_record text receipt_id items_text subtotal tax total tbl :
  let record := [("PartitionKey", PStr "receipt"); ("RowKey", PStr receipt_id);
                 ("items", PStr items_text); ("subtotal", subtotal);
                 ("tax", tax); ("total", total)] in
  json_loads text = Ok (PDict record) ->
  table_store text tbl = <[("receipt", receipt_id) := record]> tbl.
Proof. intros record E. unfold table_store. rewrite E. reflexivity. Qed.

(** one delivery that writes stores its record under the analyzer's key *)
Lemma trigger_written az blob text tbl :
  well_formed_analysis az blob -> tableOutput az blob = Some text ->
  exists record,
    json_loads text = Ok (PDict record) /\
    dict_lookup "PartitionKey" record = Some (PStr "receipt") /\
    dict_lookup "RowKey" record = Some (PStr (analyzer_receipt_id (name blob))) /\
    trigger az blob tbl = <[("receipt", analyzer_receipt_id (name blob)) := record]> tbl.
Proof.
  intros Hwf Ht.
  destruct (written_record _ _ _ Hwf Ht) as (analysis & document & rest & data & _ & _ & Eo & _ & El).
  apply output_data_Ok in Eo as (items_list & sub & items_text & tax & total & _ & _ & _ & _ & _ & ->).
  eexists. split; [exact El|]. split; [reflexivity|]. split; [reflexivity|].
  rewrite trigger_tableOutput, Ht. apply (table_store_record _ _ _ _ _ _ _ El).
Qed.



(** ** The claims about [AnalyzeReceipt] *)



(** C5: when a step of the [try] block raises, [AnalyzeReceipt] still
    returns normally, has set nothing on the binding, and the table is
    unchanged. *)
Theorem C5_exception_swallowed az blob out e tbl :
  AnalyzeReceipt_try az blob (analyzer_receipt_id (name blob)) None = (out, Raise e) ->
  AnalyzeReceipt az blob None = (None, Ok tt) /\ trigger az blob tbl = tbl.
Proof.
  intros Hr. pose proof (AnalyzeReceipt_try_raises _ _ _ _ _ _ Hr) as ->.
  assert (Ha : AnalyzeReceipt az blob None = (None, Ok tt)).
  { unfold AnalyzeReceipt, try_except. rewrite Hr. reflexivity. }
  split; [exact Ha|]. unfold trigger. rewrite Ha. reflexivity.
Qed.

(** the base name of an object, without its extension *)
Lemma analyzer_receipt_id_stem dir base ext :
  (dir = "" \/ exists d, dir = d ++ "/") ->
  Str.mem "/" base = false -> Str.mem "/" ext = false -> Str.mem "." ext = false ->
  Str.has_other "." base = true ->
  analyzer_receipt_id (dir ++ base ++ String "." ext) = base.
Proof.
  intros Hdir Hb He Hd Ho. unfold analyzer_receipt_id.
  assert (Hrest : Str.mem "/" (base ++ String "." ext) = false).
  { rewrite mem_app. simpl. rewrite Hb, He. reflexivity. }
  assert (Hl : Str.last_piece (Str.split "/" (dir ++ base ++ String "." ext))
               = base ++ String "." ext).
  { destruct Hdir as [-> | [d ->]].
    - apply last_piece_absent, Hrest.
    - rewrite append_assoc. simpl. rewrite last_piece_split.
      apply last_piece_absent, Hrest. }
  rewrite Hl.
  pose proof (splitext_stem "" base ext (or_introl eq_refl) Hb He Hd Ho) as Hs.
  simpl in Hs. rewrite Hs. reflexivity.
Qed.



(** ** Absent and null fields *)

Lemma field_or_zero_absent d key :
  dict_lookup key d = None -> field_or_zero (PDict d) key = Raise AttributeError.
Proof. intros E. unfold field_or_zero. simpl. rewrite E. reflexivity. Qed.

(** a field that is there with the value [None] is stored as 0 *)
Lemma field_or_zero_null d key repr :
  dict_lookup key d = Some (PObj repr (Some PNone)) ->
  field_or_zero (PDict d) key = Ok (PInt 0).
Proof. intros E. unfold field_or_zero. simpl. rewrite E. reflexivity. Qed.

Lemma py_or_zero_not_none v : py_or v (PInt 0) <> PNone.
Proof.
  unfold py_or. destruct (truthy v) eqn:E; [|discriminate].
  intros ->. discriminate.
Qed.

Lemma extract_item_lacks_price item stored :
  lacks_price item -> extract_item item <> Ok stored.
Proof.
  intros (repr & props & -> & Hp) (ip & df & d & pf & p & E1 & _ & _ & E4 & E5 & _)%extract_item_Ok.
  injection E1 as <-. simpl in E4. rewrite Hp in E4. injection E4 as <-. discriminate.
Qed.

(** C2: the defaults of line 119, 129 and 130 cover a field whose value
    is [None], not a field that is absent: [{}] has no [value].  When the
    first document has no [TotalTax] entry, no [Total] entry, or an
    element of [Items] without a [TotalPrice] entry, the [try] block
    raises and nothing is written. *)
Theorem C2_absent_field_writes_nothing az blob analysis document rest d :
  analyze_blob az blob = Ok analysis ->
  documents analysis = document :: rest ->
  fields document = PDict d ->
  dict_lookup "TotalTax" d = None \/
  dict_lookup "Total" d = None \/
  (exists repr l item,
     dict_lookup "Items" d = Some (PObj repr (Some (PList l))) /\
     In item l /\ lacks_price item) ->
  tableOutput az blob = None.
Proof.
  intros Ea Ed Ef Habsent.
  destruct (tableOutput az blob) as [text|] eqn:Et; [exfalso|reflexivity].
  apply tableOutput_Some in Et as (a' & doc' & rest' & data & Ea' & Ed' & Eo & _).
  rewrite Ea in Ea'. injection Ea' as <-. rewrite Ed in Ed'. injection Ed' as <- <-.
  rewrite Ef in Eo.
  apply output_data_Ok in Eo as (items_list & _ & _ & tax & total & Ei & _ & _ & Etax & Etotal & _).
  destruct Habsent as [Hx | [Hx | (repr & l & item & Hi & Hin & Hl)]].
  - rewrite (field_or_zero_absent _ _ Hx) in Etax. discriminate.
  - rewrite (field_or_zero_absent _ _ Hx) in Etotal. discriminate.
  - apply extract_items_Ok in Ei as (items & Eg & Hc).
    simpl in Eg. rewrite Hi in Eg. injection Eg as <-.
    destruct Hc as [[Hc _] | (v & _ & Ev & Hc)]; [discriminate|].
    injection Ev as <-.
    destruct Hc as [[Hc _] | (l' & _ & El & Hf)].
    + destruct l; [destruct Hin|discriminate].
    + injection El as <-.
      clear -Hf Hin Hl. induction Hf as [|x st l sts E _ IH]; [destruct Hin|].
      destruct Hin as [-> | Hin]; [|exact (IH Hin)].
      eapply extract_item_lacks_price; eauto.
Qed.

(** ** The stored items *)

Lemma number_prefix_all l ns :
  number_prefix l = (ns, []) -> Forall (fun p => is_number p = true) l.
Proof.
  revert ns. induction l as [|p l IH]; intros ns; simpl; [constructor|].
  unfold is_number. destruct (as_number p) as [n|] eqn:E; [|discriminate].
  destruct (number_prefix l) as [ns' rest] eqn:El. intros [= <- ->].
  constructor; [rewrite E; reflexivity|]. eapply IH. reflexivity.
Qed.

(** a sum that returns has added numbers only *)
Lemma sum_from_Ok acc l r :
  sum_from acc l = Ok r -> Forall (fun p => is_number p = true) l.
Proof.
  revert acc. induction l as [|p l IH]; intros acc; simpl; [constructor|].
  unfold is_number at 1.
  destruct (as_number p) as [[z|x]|] eqn:E; [| |discriminate].
  - intros Hl. constructor; [rewrite E; reflexivity|exact (IH _ Hl)].
  - intros (start & _ & Hl)%bind_Ok.
    destruct (number_prefix l) as [ns rest] eqn:El.
    destruct (float_sum (float_add start x) ns); [|discriminate].
    destruct rest; [|discriminate].
    constructor; [rewrite E; reflexivity|]. eapply number_prefix_all, El.
Qed.




(** ** No items *)

Lemma encode_serializable v :
  serializable v = true -> exists text, encode false v = Ok text.
Proof.
  induction v as [ | b | z | x | s | l IHl | d IHd | repr o _] using pyval_rect';
    intros Hs; try (eexists; reflexivity).
  - destruct b; eexists; reflexivity.
  - rewrite encode_list.
    assert (exists parts, encode_items false l = Ok parts) as [parts ->].
    { simpl in Hs. induction IHl as [|x l Hx _ IH]; [eexists; reflexivity|].
      simpl in Hs. apply andb_true_iff in Hs as [Sx Sl].
      destruct (Hx Sx) as [a Ha], (IH Sl) as [parts Hp].
      simpl. rewrite Ha. simpl. fold (encode_items false l). rewrite Hp.
      eexists; reflexivity. }
    eexists; reflexivity.
  - rewrite encode_dict.
    assert (exists parts, encode_pairs false d = Ok parts) as [parts ->].
    { simpl in Hs. induction IHd as [|[k x] d Hx _ IH]; [eexists; reflexivity|].
      simpl in Hs, Hx. apply andb_true_iff in Hs as [Sx Sl].
      destruct (Hx Sx) as [a Ha], (IH Sl) as [parts Hp].
      simpl. rewrite Ha. simpl. fold (encode_pairs false d). rewrite Hp.
      eexists; reflexivity. }
    eexists; reflexivity.
  - discriminate.
Qed.

Lemma extract_items_missing d : items_missing d -> extract_items (PDict d) = Ok [].
Proof.
  unfold items_missing. intros Hm. apply extract_items_Ok. simpl.
  destruct (dict_lookup "Items" d) as [items|]; simpl.
  - exists items. split; [reflexivity|].
    destruct (truthy items) eqn:Ti; [|auto].
    destruct Hm as [Hm | (v & Ev & Tv)]; [discriminate|].
    right. exists v. auto.
  - exists PNone. auto.
Qed.

(** C10, as amended: when the first document has no [Items] entry (or a
    falsy one, or one with an empty or null value) and its [TotalTax] and
    [Total] fields are there with values that [json.dumps] accepts,
    [AnalyzeReceipt] writes a record whose [items] is the text of the
    empty list and whose [subtotal] is the integer 0. *)
Theorem C10_no_items az blob analysis document rest d tax_field tax total_field total :
  analyze_blob az blob = Ok analysis ->
  documents analysis = document :: rest ->
  fields document = PDict d ->
  items_missing d ->
  dict_lookup "TotalTax" d = Some tax_field -> attr_value tax_field = Ok tax ->
  dict_lookup "Total" d = Some total_field -> attr_value total_field = Ok total ->
  serializable (py_or tax (PInt 0)) = true ->
  serializable (py_or total (PInt 0)) = true ->
  exists text,
    tableOutput az blob = Some text /\
    json_dumps (PDict [("PartitionKey", PStr "receipt");
                       ("RowKey", PStr (analyzer_receipt_id (name blob)));
                       ("items", PStr "[]"); ("subtotal", PInt 0);
                       ("tax", py_or tax (PInt 0));
                       ("total", py_or total (PInt 0))]) = Ok text /\
    json_loads "[]" = Ok (PList []).
Proof.
  intros Ea Ed Ef Hm Htf Htv Hof Hov Stax Stotal.
  set (data := PDict [("PartitionKey", PStr "receipt");
                      ("RowKey", PStr (analyzer_receipt_id (name blob)));
                      ("items", PStr "[]"); ("subtotal", PInt 0);
                      ("tax", py_or tax (PInt 0)); ("total", py_or total (PInt 0))]).
  destruct (encode_serializable data) as [text Ht].
  { simpl. rewrite Stax, Stotal. reflexivity. }
  exists text. split; [|split; [exact Ht|reflexivity]].
  apply tableOutput_Some. exists analysis, document, rest, data.
  repeat split; try assumption.
  rewrite Ef. apply output_data_Ok.
  exists [], (PInt 0), "[]", (py_or tax (PInt 0)), (py_or total (PInt 0)).
  repeat split.
  - apply extract_items_missing, Hm.
  - unfold field_or_zero. simpl. rewrite Htf. simpl. rewrite Htv. reflexivity.
  - unfold field_or_zero. simpl. rewrite Hof. simpl. rewrite Hov. reflexivity.
Qed.

(** ** The reader *)

Lemma get_receipt_results_try_steps az receipt_id :
  get_receipt_results_try az receipt_id =
  entity ← lookup_entity az receipt_id;
  entity ← decode_items entity;
  text ← json_dumps_default_str (PDict entity);
  Ok {| body := text; mimetype := "application/json"; status_code := 200 |}.
Proof.
  unfold get_receipt_results_try, lookup_entity, decode_items.
  destruct (TableClient_from_connection_string az _ _) as [client|e]; [|reflexivity].
  simpl. destruct (get_entity client "receipt" receipt_id); reflexivity.
Qed.






(** ** Upload tickets *)

Lemma length_take n (s : string) :
  String.length (Str.take n s) = Nat.min n (String.length s).
Proof.
  revert s. induction n as [|n IH]; intros [|c s]; simpl; auto.
Qed.

Lemma take_drop n (s : string) : Str.take n s ++ Str.drop n s = s.
Proof.
  revert s. induction n as [|n IH]; intros [|c s]; simpl; try reflexivity.
  rewrite IH. reflexivity.
Qed.

Lemma drop_drop a b (s : string) : Str.drop a (Str.drop b s) = Str.drop (b + a) s.
Proof.
  revert s. induction b as [|b IH]; intros s; simpl; [reflexivity|].
  destruct s as [|c s]; [destruct a; reflexivity|]. apply IH.
Qed.

Lemma append_inj_length (a1 a2 b1 b2 : string) :
  String.length a1 = String.length a2 -> a1 ++ b1 = a2 ++ b2 -> a1 = a2 /\ b1 = b2.
Proof.
  revert a2. induction a1 as [|c a1 IH]; intros [|c2 a2]; simpl; try discriminate.
  - auto.
  - intros [= Hl] [= -> Ha]. destruct (IH a2 Hl Ha) as [-> ->]. auto.
Qed.

Lemma length_hex_width w n : String.length (hex_width w n) = w.
Proof.
  revert n. induction w as [|w IH]; intros n; simpl; [reflexivity|].
  rewrite length_app, IH. simpl. lia.
Qed.

Lemma hex_value_digit (n : N) : (n < 16)%N -> hex_value (hex_digit n) = Some n.
Proof.
  intros Hn. destruct n as [|p]; [reflexivity|].
  do 4 (try (destruct p as [p|p|]; try reflexivity)); lia.
Qed.

(** distinct numbers below [16 ^ w] are printed differently *)
Lemma hex_width_inj w n1 n2 :
  (n1 < 16 ^ N.of_nat w)%N -> (n2 < 16 ^ N.of_nat w)%N ->
  hex_width w n1 = hex_width w n2 -> n1 = n2.
Proof.
  revert n1 n2. induction w as [|w IH]; intros n1 n2 H1 H2.
  - simpl in *. lia.
  - rewrite Nat2N.inj_succ, N.pow_succ_r' in H1, H2. simpl.
    intros [Hh Hd]%append_inj_length; [|rewrite !length_hex_width; reflexivity].
    injection Hd as Hd.
    assert (Hm : (n1 mod 16 = n2 mod 16)%N).
    { pose proof (hex_value_digit (n1 mod 16) ltac:(apply N.mod_lt; lia)) as V1.
      pose proof (hex_value_digit (n2 mod 16) ltac:(apply N.mod_lt; lia)) as V2.
      rewrite Hd in V1. congruence. }
    assert (Hq : (n1 / 16 = n2 / 16)%N).
    { apply IH; [| |exact Hh]; apply N.Div0.div_lt_upper_bound; lia. }
    rewrite (N.div_mod n1 16), (N.div_mod n2 16) by lia. congruence.
Qed.

Lemma uuid_str_length u : String.length (uuid_str u) = 36%nat.
Proof.
  unfold uuid_str.
  pose proof (length_hex_width 32 (uuid_int u)) as Hl.
  assert (Hd : forall n (s : string), String.length (Str.drop n s) = (String.length s - n)%nat).
  { clear. induction n as [|n IH]; intros [|c s]; simpl; auto. }
  rewrite !length_app, !length_take, !Hd, Hl. reflexivity.
Qed.

(** a text is its 8-4-4-4 pieces and what is left *)
Lemma hex_pieces (h : string) :
  h = Str.take 8 h ++ Str.take 4 (Str.drop 8 h) ++ Str.take 4 (Str.drop 12 h) ++
      Str.take 4 (Str.drop 16 h) ++ Str.drop 20 h.
Proof.
  pose proof (drop_drop 4 16 h) as H20. pose proof (drop_drop 4 12 h) as H16.
  pose proof (drop_drop 4 8 h) as H12. simpl Nat.add in *.
  rewrite <- H20, take_drop, <- H16, take_drop, <- H12, take_drop, take_drop.
  reflexivity.
Qed.

Lemma uuid_str_inj u1 u2 :
  (uuid_int u1 < 2 ^ 128)%N -> (uuid_int u2 < 2 ^ 128)%N ->
  uuid_str u1 = uuid_str u2 -> u1 = u2.
Proof.
  intros H1 H2 Hs.
  assert (Hh : hex_width 32 (uuid_int u1) = hex_width 32 (uuid_int u2)).
  { revert Hs. unfold uuid_str. cbv zeta.
    pose proof (length_hex_width 32 (uuid_int u1)) as L1.
    pose proof (length_hex_width 32 (uuid_int u2)) as L2.
    generalize dependent (hex_width 32 (uuid_int u2)).
    generalize dependent (hex_width 32 (uuid_int u1)). intros h1 L1 h2 L2.
    assert (Hd : forall n (s : string), String.length (Str.drop n s) = (String.length s - n)%nat).
    { clear. induction n as [|n IH]; intros [|c s]; simpl; auto. }
    intros [E1 Hs]%append_inj_length; [|rewrite !length_take, L1, L2; reflexivity].
    revert Hs. intros [_ Hs]%append_inj_length; [|reflexivity].
    revert Hs. intros [E2 Hs]%append_inj_length;
      [|rewrite !length_take, !Hd, L1, L2; reflexivity].
    revert Hs. intros [_ Hs]%append_inj_length; [|reflexivity].
    revert Hs. intros [E3 Hs]%append_inj_length;
      [|rewrite !length_take, !Hd, L1, L2; reflexivity].
    revert Hs. intros [_ Hs]%append_inj_length; [|reflexivity].
    revert Hs. intros [E4 Hs]%append_inj_length;
      [|rewrite !length_take, !Hd, L1, L2; reflexivity].
    revert Hs. intros [_ E5]%append_inj_length; [|reflexivity].
    rewrite (hex_pieces h1), (hex_pieces h2), E1, E2, E3, E4, E5. reflexivity. }
  assert (uuid_int u1 = uuid_int u2) as Hi.
  { apply (hex_width_inj 32); [exact H1|exact H2|exact Hh]. }
  destruct u1, u2. simpl in Hi. congruence.
Qed.

(** C7: a call of [get_upload_url] that raises nothing answers 200 with
    a JSON object of exactly the two fields [sasUrl] and [blobName], the
    object key being the random identifier followed by [.jpg]; distinct
    identifiers give distinct keys; a call in which a step raises answers
    500. *)
Theorem C7_upload_ticket az req :
  (forall response, get_upload_url_try az = Ok response ->
     get_upload_url az req = response /\
     status_code response = 200 /\
     exists sas_url,
       json_loads (body response)
       = Ok (PDict [("sasUrl", PStr sas_url);
                    ("blobName", PStr (uuid_str (uuid4 az) ++ ".jpg"))])) /\
  (forall e, get_upload_url_try az = Raise e ->
     status_code (get_upload_url az req) = 500) /\
  (forall u1 u2,
     (uuid_int u1 < 2 ^ 128)%N -> (uuid_int u2 < 2 ^ 128)%N -> u1 <> u2 ->
     uuid_str u1 ++ ".jpg" <> uuid_str u2 ++ ".jpg").
Proof.
  split; [|split].
  - intros response Hr. split; [|split].
    + unfold get_upload_url. rewrite Hr. reflexivity.
    + revert Hr. unfold get_upload_url_try.
      intros (client & _ & (key & _ & (token & _ & Hr)%bind_Ok)%bind_Ok)%bind_Ok.
      apply bind_Ok in Hr as (text & _ & [= <-]). reflexivity.
    + revert Hr. unfold get_upload_url_try.
      intros (client & _ & (key & _ & (token & _ & Hr)%bind_Ok)%bind_Ok)%bind_Ok.
      apply bind_Ok in Hr as (text & Et & [= <-]).
      eexists. cbn [body]. apply json_loads_dumps; [exact Et|reflexivity].
  - intros e He. unfold get_upload_url. rewrite He. reflexivity.
  - intros u1 u2 H1 H2 Hne Hs. apply Hne.
    revert Hs. intros [Hs _]%append_inj_length; [|rewrite !uuid_str_length; reflexivity].
    apply uuid_str_inj; assumption.
Qed.

(** * Further properties of the handlers *)

(** ** Row keys *)

Lemma mem_take_absent c n (s : string) :
  Str.mem c s = false -> Str.mem c (Str.take n s) = false.
Proof.
  revert s. induction n as [|n IH]; intros [|a s]; simpl; try reflexivity.
  intros [-> Hs]%orb_false_elim. simpl. auto.
Qed.

Lemma mem_drop_absent c n (s : string) :
  Str.mem c s = false -> Str.mem c (Str.drop n s) = false.
Proof.
  revert s. induction n as [|n IH]; intros [|a s]; simpl; try (intros; assumption).
  intros [_ Hs]%orb_false_elim. auto.
Qed.

Lemma has_other_absent c (s : string) :
  s <> "" -> Str.mem c s = false -> Str.has_other c s = true.
Proof.
  destruct s as [|a s]; [congruence|]. simpl.
  intros _ [-> _]%orb_false_elim. reflexivity.
Qed.

Lemma hex_digit_not_slash k : hex_digit k <> "/"%char.
Proof.
  destruct k as [|p]; [discriminate|].
  do 4 (try (destruct p as [p|p|]; try discriminate)).
Qed.

Lemma hex_digit_not_dot k : hex_digit k <> "."%char.
Proof.
  destruct k as [|p]; [discriminate|].
  do 4 (try (destruct p as [p|p|]; try discriminate)).
Qed.

Lemma mem_hex_width c w n :
  (forall k, hex_digit k <> c) -> Str.mem c (hex_width w n) = false.
Proof.
  intros Hc. revert n. induction w as [|w IH]; intros n; [reflexivity|].
  simpl. rewrite mem_app, IH. simpl.
  destruct (Ascii.eqb_spec (hex_digit (n mod 16)%N) c) as [E|_]; [|reflexivity].
  destruct (Hc _ E).
Qed.

(** a printed identifier holds hex digits and hyphens only *)
Lemma mem_uuid_str c u :
  (forall k, hex_digit k <> c) -> c <> "-"%char -> Str.mem c (uuid_str u) = false.
Proof.
  intros Hc Hm. unfold uuid_str. cbv zeta.
  assert (Hh : Str.mem c (hex_width 32 (uuid_int u)) = false) by (apply mem_hex_width, Hc).
  assert (Hd : Str.mem c "-" = false).
  { change (Ascii.eqb "-" c || false = false).
    destruct (Ascii.eqb_spec "-"%char c) as [E|_]; [congruence|reflexivity]. }
  repeat (rewrite mem_app; apply orb_false_intro);
    repeat first [ exact Hd | apply mem_take_absent | apply mem_drop_absent | exact Hh ].
Qed.

Lemma uuid_str_not_empty u : uuid_str u <> "".
Proof. intros E. pose proof (uuid_str_length u) as Hl. rewrite E in Hl. discriminate. Qed.

(** X1: the object name that [get_upload_url] hands out, the identifier
    followed by [.jpg], leads to one row key: [AnalyzeReceipt] triggered
    for that object in the container writes under the identifier, and
    [get_receipt_results] asked for the name, or for the identifier alone,
    looks up the identifier. *)
Theorem upload_name_row_key (u : UUID) :
  let blob_name := uuid_str u ++ ".jpg" in
  analyzer_receipt_id (RECEIPT_CONTAINER_NAME ++ "/" ++ blob_name) = uuid_str u /\
  reader_receipt_id blob_name = uuid_str u /\
  reader_receipt_id (uuid_str u) = uuid_str u.
Proof.
  intros blob_name. subst blob_name.
  assert (Hs : Str.mem "/" (uuid_str u) = false).
  { apply mem_uuid_str; [apply hex_digit_not_slash|discriminate]. }
  assert (Hd : Str.mem "." (uuid_str u) = false).
  { apply mem_uuid_str; [apply hex_digit_not_dot|discriminate]. }
  assert (Ho : Str.has_other "." (uuid_str u) = true).
  { apply has_other_absent; [apply uuid_str_not_empty|exact Hd]. }
  split; [|split].
  - change (analyzer_receipt_id ("receipts/" ++ uuid_str u ++ String "." "jpg") = uuid_str u).
    apply analyzer_receipt_id_stem; try reflexivity; try assumption.
    right. exists "receipts". reflexivity.
  - unfold reader_receipt_id.
    change (uuid_str u ++ ".jpg") with ("" ++ uuid_str u ++ String "." "jpg").
    rewrite splitext_stem; try reflexivity; try assumption. left. reflexivity.
  - unfold reader_receipt_id. rewrite splitext_no_dot; [reflexivity|exact Hd].
Qed.

(** X2: for an object [dir/base] whose base name holds no slash, the
    row key that [AnalyzeReceipt] writes under is the row key that
    [get_receipt_results] looks up when it is asked for the base name. *)
Theorem reader_key_is_analyzer_key (dir base : string) :
  Str.mem "/" base = false ->
  analyzer_receipt_id (dir ++ "/" ++ base) = reader_receipt_id base.
Proof.
  intros Hb. unfold analyzer_receipt_id, reader_receipt_id.
  change (dir ++ "/" ++ base) with (dir ++ String "/" base).
  rewrite last_piece_split, last_piece_absent; [reflexivity|exact Hb].
Qed.

Lemma rfind_none_absent c (s : string) : Str.rfind c s = -1 -> Str.mem c s = false.
Proof.
  induction s as [|a s IH]; [reflexivity|].
  cbn [Str.rfind Str.mem]. cbv zeta.
  pose proof (rfind_range c s) as Hr.
  destruct (Z.eqb_spec (Str.rfind c s) (-1)) as [E|E]; [|lia].
  destruct (Ascii.eqb a c); [discriminate|]. intros _. apply IH, E.
Qed.

(** the text from the last occurrence of a character on *)
Lemma rfind_drop c (s : string) :
  0 <= Str.rfind c s ->
  exists b, Str.drop (Z.to_nat (Str.rfind c s)) s = String c b /\ Str.mem c b = false.
Proof.
  induction s as [|a s IH]; [simpl; lia|].
  cbn [Str.rfind]. cbv zeta.
  pose proof (rfind_range c s) as Hr.
  destruct (Z.eqb_spec (Str.rfind c s) (-1)) as [E|E].
  - destruct (Ascii.eqb_spec a c) as [->|_]; [|lia].
    intros _. exists s. split; [reflexivity|]. apply rfind_none_absent, E.
  - intros _. destruct IH as (b & Hb & Hm); [lia|].
    exists b. split; [|exact Hm].
    replace (Z.to_nat (Str.rfind c s + 1)) with (S (Z.to_nat (Str.rfind c s))) by lia.
    exact Hb.
Qed.

(** a character does not occur after its last occurrence *)
Lemma rfind_below c n (s : string) :
  Str.rfind c s < Z.of_nat n -> Str.mem c (Str.drop n s) = false.
Proof.
  revert n. induction s as [|a s IH]; intros n.
  - destruct n; reflexivity.
  - pose proof (rfind_range c (String a s)) as Hr.
    destruct n as [|n].
    + intros Hn. cbn [Str.drop]. apply rfind_none_absent. lia.
    + cbn [Str.rfind Str.drop]. cbv zeta.
      pose proof (rfind_range c s) as Hs.
      destruct (Z.eqb_spec (Str.rfind c s) (-1)) as [E|E]; intros Hn; apply IH; lia.
Qed.

Lemma last_occurrence c (s : string) :
  Str.mem c s = true -> exists a b, s = a ++ String c b /\ Str.mem c b = false.
Proof.
  intros Hm. pose proof (rfind_range c s) as Hr.
  destruct (Z.eq_dec (Str.rfind c s) (-1)) as [E|E].
  { apply rfind_none_absent in E. congruence. }
  destruct (rfind_drop c s) as (b & Hb & Hn); [lia|].
  exists (Str.take (Z.to_nat (Str.rfind c s)) s), b.
  split; [|exact Hn]. rewrite <- Hb. symmetry. apply take_drop.
Qed.

(** a name is a directory part, empty or ending with the separator, and
    its last piece, which holds no separator *)
Lemma last_piece_parts c (s : string) :
  exists dir,
    s = dir ++ Str.last_piece (Str.split c s) /\
    (dir = "" \/ exists d, dir = d ++ String c "") /\
    Str.mem c (Str.last_piece (Str.split c s)) = false.
Proof.
  destruct (Str.mem c s) eqn:Hm.
  - destruct (last_occurrence c s Hm) as (a & b & -> & Hb).
    rewrite last_piece_split, (last_piece_absent _ _ Hb).
    exists (a ++ String c ""). split; [|split].
    + rewrite append_assoc. reflexivity.
    + right. exists a. reflexivity.
    + exact Hb.
  - rewrite (last_piece_absent _ _ Hm). exists "". auto.
Qed.

Lemma splitext_parts (p : string) : (splitext p).1 ++ (splitext p).2 = p.
Proof.
  unfold splitext.
  destruct (_ <? _); [destruct (Str.has_other _ _)|]; cbn [fst snd];
    try apply append_nil_r.
  apply take_drop.
Qed.

(** the extension is empty, or a dot and characters that are neither a dot
    nor a slash, after a stem that is not empty *)
Lemma splitext_ext (p : string) :
  (splitext p).2 = "" \/
  exists e, (splitext p).2 = String "." e /\
            Str.mem "/" e = false /\ Str.mem "." e = false /\ (splitext p).1 <> "".
Proof.
  unfold splitext.
  pose proof (rfind_range "/" p) as Hs. pose proof (rfind_range "." p) as Hd.
  destruct (Z.ltb_spec (Str.rfind "/" p) (Str.rfind "." p)) as [Hlt|_]; [|left; reflexivity].
  destruct (Str.has_other _ _) eqn:Ho; [|left; reflexivity].
  right. cbn [fst snd]. unfold Str.slice_from, Str.slice_to in *.
  destruct (rfind_drop "." p) as (e & He & Hm); [lia|].
  exists e. split; [exact He|]. split; [|split; [exact Hm|]].
  - assert (Hn : Str.mem "/" (Str.drop (Z.to_nat (Str.rfind "." p)) p) = false).
    { apply rfind_below. lia. }
    rewrite He in Hn. exact Hn.
  - assert (Hone : 1 <= Str.rfind "." p).
    { destruct (Z.to_nat (Str.rfind "." p - (Str.rfind "/" p + 1))) eqn:En; [|lia].
      destruct (Str.drop _ p); discriminate. }
    destruct p as [|a p]; [simpl in Hone; lia|].
    replace (Z.to_nat (Str.rfind "." (String a p)))
      with (S (Z.to_nat (Str.rfind "." (String a p) - 1))) by lia.
    discriminate.
Qed.

Lemma mem_splitext c (p : string) : Str.mem c p = false -> Str.mem c (splitext p).1 = false.
Proof.
  intros Hp. unfold splitext.
  destruct (_ <? _); [destruct (Str.has_other _ _)|]; cbn [fst]; try exact Hp.
  apply mem_take_absent, Hp.
Qed.

(** X3: the row key that [get_receipt_results] looks up is a prefix of
    the name it was asked for.  What it cuts off is nothing, or one
    extension: a dot followed by characters that are neither a dot nor a
    slash; and a key that lost an extension is not empty. *)
Theorem reader_key_prefix (blob_name : string) :
  exists ext,
    blob_name = reader_receipt_id blob_name ++ ext /\
    (ext = "" \/
     exists e, ext = String "." e /\ Str.mem "/" e = false /\ Str.mem "." e = false /\
               reader_receipt_id blob_name <> "").
Proof.
  exists (splitext blob_name).2. split.
  - symmetry. apply splitext_parts.
  - apply splitext_ext.
Qed.

(** X4: the row key that [AnalyzeReceipt] writes under never holds a
    slash, and it is a part of the object's name: the name is a directory
    part (empty, or ending with a slash), the key, and an extension (empty,
    or a dot followed by characters that are neither a dot nor a slash). *)
Theorem analyzer_key_in_name (blob_name : string) :
  Str.mem "/" (analyzer_receipt_id blob_name) = false /\
  exists dir ext,
    blob_name = dir ++ analyzer_receipt_id blob_name ++ ext /\
    (dir = "" \/ exists d, dir = d ++ "/") /\
    (ext = "" \/
     exists e, ext = String "." e /\ Str.mem "/" e = false /\ Str.mem "." e = false).
Proof.
  unfold analyzer_receipt_id.
  destruct (last_piece_parts "/" blob_name) as (dir & Hs & Hdir & Hm).
  split; [apply mem_splitext, Hm|].
  exists dir, (splitext (Str.last_piece (Str.split "/" blob_name))).2.
  split; [|split; [exact Hdir|]].
  - rewrite splitext_parts. exact Hs.
  - destruct (splitext_ext (Str.last_piece (Str.split "/" blob_name)))
      as [E|(e & E & H1 & H2 & _)]; [left; exact E|right; eauto].
Qed.

(** X5: a name with a slash never matches a written record: the key
    that [get_receipt_results] looks up for such a name keeps the slash,
    and no key that [AnalyzeReceipt] writes under holds one. *)
Theorem reader_key_with_slash (blob_name other : string) :
  Str.mem "/" blob_name = true ->
  Str.mem "/" (reader_receipt_id blob_name) = true /\
  reader_receipt_id blob_name <> analyzer_receipt_id other.
Proof.
  intros Hm.
  assert (Hk : Str.mem "/" (reader_receipt_id blob_name) = true).
  { unfold reader_receipt_id.
    rewrite <- (splitext_parts blob_name), mem_app in Hm.
    destruct (splitext_ext blob_name) as [E|(e & E & He & _)]; rewrite E in Hm.
    - rewrite orb_false_r in Hm. exact Hm.
    - cbn [Str.mem] in Hm. rewrite He in Hm.
      change (Ascii.eqb "." "/") with false in Hm.
      rewrite orb_false_r in Hm. exact Hm. }
  split; [exact Hk|]. intros E. rewrite E in Hk.
  unfold analyzer_receipt_id in Hk.
  destruct (last_piece_parts "/" other) as (dir & _ & _ & Hn).
  rewrite (mem_splitext _ _ Hn) in Hk. discriminate.
Qed.

(** ** What the encoder accepts and what the decoder returns *)

Lemma encode_items_cons b x l :
  encode_items b (x :: l) = a ← encode b x; r ← encode_items b l; Ok (a :: r).
Proof. reflexivity. Qed.

Lemma encode_pairs_cons b k x d :
  encode_pairs b ((k, x) :: d)
  = a ← encode b x; r ← encode_pairs b d; Ok ((encode_string k ++ ": " ++ a) :: r).
Proof. reflexivity. Qed.

(** encoding with [default=str] is encoding the value with its objects
    replaced by their [str()] *)
Lemma encode_stringified v : encode true v = encode false (stringified v).
Proof.
  induction v as [ | b | z | x | s | l IHl | d IHd | repr o _] using pyval_rect';
    try reflexivity.
  - cbn [stringified]. rewrite !encode_list.
    assert (encode_items true l = encode_items false (map stringified l)) as ->;
      [|reflexivity].
    induction IHl as [|x l Hx _ IH]; [reflexivity|].
    cbn [map]. rewrite !encode_items_cons, Hx, IH. reflexivity.
  - cbn [stringified]. rewrite !encode_dict.
    assert (encode_pairs true d
            = encode_pairs false (map (fun kv => (kv.1, stringified kv.2)) d)) as ->;
      [|reflexivity].
    induction IHd as [|[k x] d Hx _ IH]; [reflexivity|].
    cbn [map fst snd]. rewrite !encode_pairs_cons. cbn [snd] in Hx.
    rewrite Hx, IH. reflexivity.
Qed.

Lemma stringified_serializable v : serializable v = true -> stringified v = v.
Proof.
  induction v as [ | b | z | x | s | l IHl | d IHd | repr o _] using pyval_rect';
    try reflexivity; cbn [serializable stringified]; intros Hs.
  - f_equal. induction IHl as [|x l Hx _ IH]; [reflexivity|].
    cbn [forallb] in Hs. apply andb_prop in Hs as [H1 H2].
    cbn [map]. rewrite (Hx H1), (IH H2). reflexivity.
  - f_equal. induction IHd as [|[k x] d Hx _ IH]; [reflexivity|].
    cbn [forallb snd] in Hs. apply andb_prop in Hs as [H1 H2].
    cbn [map fst snd] in *. rewrite (Hx H1), (IH H2). reflexivity.
  - discriminate.
Qed.

(** the encoder without [default] accepts only values without objects *)
Lemma encode_accepts v text : encode false v = Ok text -> serializable v = true.
Proof.
  revert text.
  induction v as [ | b | z | x | s | l IHl | d IHd | repr o _] using pyval_rect';
    intros text; try reflexivity.
  - rewrite encode_list. intros (parts & Hp & _)%bind_Ok. cbn [serializable].
    revert parts Hp. induction IHl as [|x l Hx _ IH]; intros parts; [reflexivity|].
    rewrite encode_items_cons.
    intros (a & Ha & (r & Hr & _)%bind_Ok)%bind_Ok.
    cbn [forallb]. rewrite (Hx _ Ha), (IH _ Hr). reflexivity.
  - rewrite encode_dict. intros (parts & Hp & _)%bind_Ok. cbn [serializable].
    revert parts Hp. induction IHd as [|[k x] d Hx _ IH]; intros parts; [reflexivity|].
    rewrite encode_pairs_cons.
    intros (a & Ha & (r & Hr & _)%bind_Ok)%bind_Ok.
    cbn [forallb snd] in *. rewrite (Hx _ Ha), (IH _ Hr). reflexivity.
  - discriminate.
Qed.

Lemma well_formed_stringified v : well_formed v = true -> well_formed (stringified v) = true.
Proof.
  induction v as [ | b | z | x | s | l IHl | d IHd | repr o _] using pyval_rect';
    try reflexivity; cbn [well_formed stringified]; intros Hw.
  - induction IHl as [|x l Hx _ IH]; [reflexivity|].
    cbn [forallb] in Hw. apply andb_prop in Hw as [H1 H2].
    cbn [map forallb]. rewrite (Hx H1), (IH H2). reflexivity.
  - apply andb_prop in Hw as [Hk Hv].
    apply andb_true_intro. split.
    + rewrite map_map. cbn [fst]. exact Hk.
    + clear Hk. induction IHd as [|[k x] d Hx _ IH]; [reflexivity|].
      cbn [forallb snd] in Hv. apply andb_prop in Hv as [H1 H2].
      cbn [map forallb fst snd] in *. rewrite (Hx H1), (IH H2). reflexivity.
Qed.

(** the text written with [default=str] reads back as the value with its
    objects replaced by their [str()] *)
Lemma json_loads_default_str v text :
  json_dumps_default_str v = Ok text -> well_formed v = true ->
  json_loads text = Ok (stringified v).
Proof.
  unfold json_dumps_default_str. rewrite encode_stringified. intros He Hw.
  apply json_loads_dumps; [exact He|apply well_formed_stringified, Hw].
Qed.

(** assignment to a key *)
Lemma dict_lookup_keys k (d : list (string * pyval)) x :
  dict_lookup k d = Some x -> existsb (String.eqb k) (map fst d) = true.
Proof.
  induction d as [|[k' v'] d IH]; [discriminate|]. cbn [dict_lookup map fst existsb].
  rewrite (String.eqb_sym k k'). destruct (String.eqb k' k); [reflexivity|]. exact IH.
Qed.

Lemma dict_set_keys k v (d : list (string * pyval)) :
  existsb (String.eqb k) (map fst d) = true -> map fst (dict_set k v d) = map fst d.
Proof.
  induction d as [|[k' v'] d IH]; [discriminate|]. cbn [dict_set map fst existsb].
  rewrite (String.eqb_sym k k'). destruct (String.eqb k' k); [reflexivity|].
  cbn [orb map fst]. intros Hd. rewrite (IH Hd). reflexivity.
Qed.

Lemma dict_lookup_set k v (d : list (string * pyval)) :
  dict_lookup k (dict_set k v d) = Some v.
Proof.
  induction d as [|[k' v'] d IH]; cbn [dict_set dict_lookup].
  - rewrite String.eqb_refl. reflexivity.
  - destruct (String.eqb k' k) eqn:E; cbn [dict_lookup]; rewrite E; [reflexivity|exact IH].
Qed.

Lemma dict_lookup_set_other k k' v (d : list (string * pyval)) :
  k' <> k -> dict_lookup k' (dict_set k v d) = dict_lookup k' d.
Proof.
  intros Hk. induction d as [|[k1 v1] d IH]; cbn [dict_set dict_lookup].
  - destruct (String.eqb_spec k k'); [congruence|reflexivity].
  - destruct (String.eqb_spec k1 k) as [->|_]; cbn [dict_lookup].
    + destruct (String.eqb_spec k k'); [congruence|reflexivity].
    + rewrite IH. reflexivity.
Qed.







(** ** What the reader returns *)


(** the answer of the reader for a record that was found and decoded *)
Lemma get_receipt_results_found az req blob_name entity decoded :
  route_params req !! "blobName" = Some blob_name -> blob_name <> "" ->
  lookup_entity az (reader_receipt_id blob_name) = Ok entity ->
  decode_items entity = Ok decoded ->
  exists text,
    json_dumps_default_str (PDict decoded) = Ok text /\
    get_receipt_results az req
    = {| body := text; mimetype := "application/json"; status_code := 200 |}.
Proof.
  intros Hreq Hne Hl Hd.
  destruct (encode_default_total (PDict decoded)) as [text Ht].
  exists text. split; [exact Ht|].
  unfold get_receipt_results. rewrite Hreq.
  destruct blob_name as [|c s]; [congruence|].
  rewrite get_receipt_results_try_steps, Hl. cbn [mbind result_bind].
  rewrite Hd. cbn [mbind result_bind].
  unfold json_dumps_default_str. rewrite Ht. reflexivity.
Qed.


(** X7: decoding [items] changes nothing else of the record: the
    attribute names and their order stay, every other attribute keeps its
    value, a string under [items] is replaced by what [json.loads] makes
    of it, and a record without a string under [items] is returned as it
    is. *)
Theorem decode_items_only_items entity decoded :
  decode_items entity = Ok decoded ->
  map fst decoded = map fst entity /\
  (forall k, k <> "items" -> dict_lookup k decoded = dict_lookup k entity) /\
  (forall text, dict_lookup "items" entity = Some (PStr text) ->
     exists v, json_loads text = Ok v /\ dict_lookup "items" decoded = Some v) /\
  ((forall text, dict_lookup "items" entity <> Some (PStr text)) -> decoded = entity).
Proof.
  unfold decode_items.
  destruct (dict_lookup "items" entity) as [[ | | | |text| | | ]|] eqn:El;
    try (intros [= <-]; repeat split;
         solve [reflexivity | discriminate | intros; reflexivity]).
  intros (v & Hv & [= <-])%bind_Ok. repeat split.
  - apply dict_set_keys. eapply dict_lookup_keys, El.
  - intros k Hk. apply dict_lookup_set_other, Hk.
  - intros text' [= <-]. exists v. split; [exact Hv|apply dict_lookup_set].
  - intros Hn. destruct (Hn text). reflexivity.
Qed.

(** the record that [AnalyzeReceipt] encodes holds what [json] accepts *)
Lemma written_record_parts az blob text :
  well_formed_analysis az blob -> tableOutput az blob = Some text ->
  exists analysis document rest items_list items_text subtotal tax total,
    analyze_blob az blob = Ok analysis /\
    documents analysis = document :: rest /\
    well_formed (fields document) = true /\
    extract_items (fields document) = Ok items_list /\
    subtotal_of items_list = Ok subtotal /\
    json_dumps (PList items_list) = Ok items_text /\
    field_or_zero (fields document) "TotalTax" = Ok tax /\
    field_or_zero (fields document) "Total" = Ok total /\
    json_loads text
    = Ok (PDict [("PartitionKey", PStr "receipt");
                 ("RowKey", PStr (analyzer_receipt_id (name blob)));
                 ("items", PStr items_text); ("subtotal", subtotal);
                 ("tax", tax); ("total", total)]) /\
    serializable
      (PDict [("PartitionKey", PStr "receipt");
              ("RowKey", PStr (analyzer_receipt_id (name blob)));
              ("items", PStr items_text); ("subtotal", subtotal);
              ("tax", tax); ("total", total)]) = true /\
    well_formed
      (PDict [("PartitionKey", PStr "receipt");
              ("RowKey", PStr (analyzer_receipt_id (name blob)));
              ("items", PStr items_text); ("subtotal", subtotal);
              ("tax", tax); ("total", total)]) = true.
Proof.
  intros Hwf Ht.
  destruct (written_record _ _ _ Hwf Ht)
    as (analysis & document & rest & data & Ea & Ed & Eo & Ej & El).
  assert (Hdoc : well_formed (fields document) = true).
  { specialize (Hwf analysis Ea). rewrite Ed in Hwf. inversion Hwf. assumption. }
  pose proof (output_data_well_formed _ _ _ Hdoc Eo) as Hdata.
  pose proof (encode_accepts _ _ Ej) as Hser.
  apply output_data_Ok in Eo
    as (items_list & sub & items_text & tax & total & Ei & Es & Et & Etax & Etot & ->).
  exists analysis, document, rest, items_list, items_text, sub, tax, total.
  repeat split; assumption.
Qed.

(** X8: read after write.  When [AnalyzeReceipt] has written a record
    and the table returns that record for the key the reader looks up,
    [get_receipt_results] answers 200 with a JSON body that reads back as
    the six attributes of the record, [items] being the list of items that
    was extracted from the analysis (not its text) and [subtotal] the
    rounded sum computed from that list. *)
Theorem read_after_write az blob text record az' req blob_name :
  well_formed_analysis az blob ->
  tableOutput az blob = Some text ->
  json_loads text = Ok (PDict record) ->
  route_params req !! "blobName" = Some blob_name -> blob_name <> "" ->
  lookup_entity az' (reader_receipt_id blob_name) = Ok record ->
  exists analysis document rest items_list subtotal tax total,
    analyze_blob az blob = Ok analysis /\
    documents analysis = document :: rest /\
    extract_items (fields document) = Ok items_list /\
    subtotal_of items_list = Ok subtotal /\
    status_code (get_receipt_results az' req) = 200 /\
    mimetype (get_receipt_results az' req) = "application/json" /\
    json_loads (body (get_receipt_results az' req))
    = Ok (PDict [("PartitionKey", PStr "receipt");
                 ("RowKey", PStr (analyzer_receipt_id (name blob)));
                 ("items", PList items_list); ("subtotal", subtotal);
                 ("tax", tax); ("total", total)]).
Proof.
  intros Hwf Ht Hrec Hreq Hne Hl.
  destruct (written_record_parts _ _ _ Hwf Ht)
    as (analysis & document & rest & items_list & items_text & sub & tax & total &
        Ea & Ed & Hdoc & Ei & Es & Et & _ & _ & El & Hser & Hw).
  rewrite El in Hrec. injection Hrec as <-.
  pose proof (extract_items_well_formed _ _ Hdoc Ei) as Hitems.
  assert (Hdec : decode_items
                   [("PartitionKey", PStr "receipt");
                    ("RowKey", PStr (analyzer_receipt_id (name blob)));
                    ("items", PStr items_text); ("subtotal", sub);
                    ("tax", tax); ("total", total)]
                 = Ok [("PartitionKey", PStr "receipt");
                       ("RowKey", PStr (analyzer_receipt_id (name blob)));
                       ("items", PList items_list); ("subtotal", sub);
                       ("tax", tax); ("total", total)]).
  { unfold decode_items. cbn [dict_lookup String.eqb Ascii.eqb Bool.eqb].
    rewrite (json_loads_dumps _ _ Et Hitems). reflexivity. }
  destruct (get_receipt_results_found _ _ _ _ _ Hreq Hne Hl Hdec) as (answer & Hb & ->).
  exists analysis, document, rest, items_list, sub, tax, total.
  cbn [status_code mimetype body]. repeat split; try assumption.
  apply json_loads_default_str in Hb.
  - rewrite Hb. f_equal. apply stringified_serializable.
    pose proof (encode_accepts _ _ Et) as Hi.
    cbn [serializable forallb snd] in *. rewrite Hi. exact Hser.
  - cbn [well_formed forallb snd map fst] in *.
    rewrite Hitems. exact Hw.
Qed.

(** ** What the analyzer writes *)

(** [receipt.get(key, {}).value or 0] returns when the field is there
    with a [value] *)
Lemma field_or_zero_Ok receipt key x :
  field_or_zero receipt key = Ok x <->
  exists d repr value,
    receipt = PDict d /\ dict_lookup key d = Some (PObj repr (Some value)) /\
    x = if truthy value then value else PInt 0.
Proof.
  unfold field_or_zero. split.
  - intros (field & Hg & (value & Hv & [= <-])%bind_Ok)%bind_Ok.
    destruct receipt as [ | | | | | |d| ]; try discriminate.
    cbn [py_get] in Hg. injection Hg as <-.
    destruct (dict_lookup key d) as [[ | | | | | | |repr [value'|]]|] eqn:El;
      try discriminate.
    cbn [default attr_value] in Hv. injection Hv as ->.
    exists d, repr, value. repeat split. exact El.
  - intros (d & repr & value & -> & Hl & ->). cbn [py_get]. rewrite Hl. reflexivity.
Qed.

(** X9: in every record that [AnalyzeReceipt] writes, [tax] and [total]
    come from [TotalTax] and [Total] fields that are present in the first
    document: each is the value of its field, or the integer 0 when that
    value is falsy ([None], zero, an empty string); neither is ever
    null. *)
Theorem written_tax_and_total az blob text :
  well_formed_analysis az blob -> tableOutput az blob = Some text ->
  exists analysis document rest d tax_repr tax_value total_repr total_value record,
    analyze_blob az blob = Ok analysis /\
    documents analysis = document :: rest /\
    fields document = PDict d /\
    dict_lookup "TotalTax" d = Some (PObj tax_repr (Some tax_value)) /\
    dict_lookup "Total" d = Some (PObj total_repr (Some total_value)) /\
    json_loads text = Ok (PDict record) /\
    dict_lookup "tax" record = Some (if truthy tax_value then tax_value else PInt 0) /\
    dict_lookup "total" record
    = Some (if truthy total_value then total_value else PInt 0) /\
    dict_lookup "tax" record <> Some PNone /\
    dict_lookup "total" record <> Some PNone.
Proof.
  intros Hwf Ht.
  destruct (written_record_parts _ _ _ Hwf Ht)
    as (analysis & document & rest & items_list & items_text & sub & tax & total &
        Ea & Ed & _ & _ & _ & _ & Etax & Etot & El & _ & _).
  apply field_or_zero_Ok in Etax as (d & tax_repr & tax_value & Hd & Htax & ->).
  apply field_or_zero_Ok in Etot as (d' & total_repr & total_value & Hd' & Htot & ->).
  rewrite Hd in Hd'. injection Hd' as <-.
  exists analysis, document, rest, d, tax_repr, tax_value, total_repr, total_value.
  eexists. split; [exact Ea|]. split; [exact Ed|]. split; [exact Hd|].
  split; [exact Htax|]. split; [exact Htot|]. split; [exact El|].
  split; [reflexivity|]. split; [reflexivity|].
  split; cbn [dict_lookup String.eqb Ascii.eqb Bool.eqb]; intros [= E].
  - exact (py_or_zero_not_none _ E).
  - exact (py_or_zero_not_none _ E).
Qed.

(** X10: every record that [AnalyzeReceipt] writes has exactly the six
    attributes [PartitionKey], [RowKey], [items], [subtotal], [tax] and
    [total], in that order; the partition key is [receipt]; [items] is a
    text that is the JSON of a list; [subtotal] is an int or a float; and
    [tax] and [total] hold nothing that [json] could not serialise. *)
Theorem written_record_shape az blob text :
  well_formed_analysis az blob -> tableOutput az blob = Some text ->
  exists items_text items_list subtotal tax total,
    json_loads text
    = Ok (PDict [("PartitionKey", PStr "receipt");
                 ("RowKey", PStr (analyzer_receipt_id (name blob)));
                 ("items", PStr items_text); ("subtotal", subtotal);
                 ("tax", tax); ("total", total)]) /\
    json_loads items_text = Ok (PList items_list) /\
    ((exists z, subtotal = PInt z) \/ (exists x, subtotal = PFloat x)) /\
    serializable tax = true /\ serializable total = true.
Proof.
  intros Hwf Ht.
  destruct (written_record_parts _ _ _ Hwf Ht)
    as (analysis & document & rest & items_list & items_text & sub & tax & total &
        _ & _ & Hdoc & Ei & Es & Et & _ & _ & El & Hser & _).
  exists items_text, items_list, sub, tax, total.
  split; [exact El|]. split.
  { apply json_loads_dumps; [exact Et|]. apply (extract_items_well_formed _ _ Hdoc Ei). }
  split.
  { unfold subtotal_of in Es.
    apply bind_Ok in Es as (prices & _ & (s & _ & Hr)%bind_Ok).
    unfold py_round in Hr. destruct (as_number s) as [[z|x]|]; [| |discriminate];
      injection Hr as <-; eauto. }
  cbn [serializable forallb snd] in Hser.
  apply andb_prop in Hser as [_ Hser]. apply andb_prop in Hser as [_ Hser].
  apply andb_prop in Hser as [_ Hser]. apply andb_prop in Hser as [_ Hser].
  apply andb_prop in Hser as [Htax Hser]. apply andb_prop in Hser as [Htot _].
  split; assumption.
Qed.

(** [Items] with a list as its value: one stored item for each element *)
Lemma extract_items_list d repr l items_list :
  dict_lookup "Items" d = Some (PObj repr (Some (PList l))) ->
  extract_items (PDict d) = Ok items_list ->
  Forall2 (fun item stored => extract_item item = Ok stored) l items_list.
Proof.
  intros Hl (items & Hg & Hc)%extract_items_Ok.
  cbn [py_get] in Hg. rewrite Hl in Hg. injection Hg as <-.
  destruct Hc as [[Hf _]|(v & _ & Hv & Hc)]; [discriminate|].
  injection Hv as <-.
  destruct Hc as [[Hf ->]|(l' & _ & Hi & Hall)].
  - destruct l; [constructor|discriminate].
  - injection Hi as <-. exact Hall.
Qed.

(** a field that is there with a [value] *)
Lemma field_value_Ok v key field x :
  py_get v key (PDict []) = Ok field -> attr_value field = Ok x ->
  exists d repr, v = PDict d /\ dict_lookup key d = Some (PObj repr (Some x)).
Proof.
  intros Hg Hv. destruct v as [ | | | | | |d| ]; try discriminate.
  cbn [py_get] in Hg. injection Hg as <-.
  destruct (dict_lookup key d) as [[ | | | | | | |repr [x'|]]|] eqn:El; try discriminate.
  cbn [default attr_value] in Hv. injection Hv as ->. eauto.
Qed.

Lemma extract_item_fields item stored :
  extract_item item = Ok stored -> stored_from item stored.
Proof.
  intros (item_props & dfield & desc & pfield & price & Hv & Hd & Hdv & Hp & Hpv & ->)
    %extract_item_Ok.
  destruct item as [ | | | | | | |item_repr [props'|]]; try discriminate.
  injection Hv as ->.
  destruct (field_value_Ok _ _ _ _ Hd Hdv) as (props & desc_repr & -> & Hdl).
  destruct (field_value_Ok _ _ _ _ Hp Hpv) as (props' & price_repr & [= <-] & Hpl).
  exists item_repr, props, desc_repr, desc, price_repr, price. repeat split; assumption.
Qed.

(** X11: the stored items follow the elements of [Items].  When the
    first document has a list under [Items], every written record stores
    one item for each element of that list, in the same order; the item at
    a position holds the value of the [Description] field of the element at
    that position, and the value of its [TotalPrice] field, or the integer
    0 when that value is falsy ([None], zero). *)
Theorem stored_items_in_order az blob text analysis document rest d repr l :
  well_formed_analysis az blob -> tableOutput az blob = Some text ->
  analyze_blob az blob = Ok analysis ->
  documents analysis = document :: rest ->
  fields document = PDict d ->
  dict_lookup "Items" d = Some (PObj repr (Some (PList l))) ->
  exists record items_text items_list,
    json_loads text = Ok (PDict record) /\
    dict_lookup "items" record = Some (PStr items_text) /\
    json_loads items_text = Ok (PList items_list) /\
    Forall2 stored_from l items_list /\
    length items_list = length l.
Proof.
  intros Hwf Ht Ea Ed Hd Hl.
  destruct (written_record_parts _ _ _ Hwf Ht)
    as (analysis' & document' & rest' & items_list & items_text & sub & tax & total &
        Ea' & Ed' & Hdoc & Ei & _ & Et & _ & _ & El & _ & _).
  rewrite Ea in Ea'. injection Ea' as <-.
  rewrite Ed in Ed'. injection Ed' as <- <-.
  rewrite Hd in Ei, Hdoc.
  pose proof (extract_items_list _ _ _ _ Hl Ei) as Hall.
  eexists _, items_text, items_list.
  split; [exact El|]. split; [reflexivity|]. split.
  { apply json_loads_dumps; [exact Et|].
    apply (extract_items_well_formed _ _ Hdoc Ei). }
  split; [|symmetry; apply (Forall2_length _ _ _ Hall)].
  clear -Hall. induction Hall as [|item stored l items_list Hx _ IH]; constructor.
  - apply extract_item_fields, Hx.
  - exact IH.
Qed.

Lemma sum_from_integers acc (zs : list Z) :
  sum_from acc (map PInt zs) = Ok (PInt (acc + fold_right Z.add 0 zs)).
Proof.
  revert acc. induction zs as [|z zs IH]; intros acc; cbn [map sum_from as_number fold_right].
  - rewrite Z.add_0_r. reflexivity.
  - rewrite IH. do 2 f_equal. lia.
Qed.

Lemma total_prices_integers (items : list (pyval * Z)) :
  total_prices
    (map (fun dz => PDict [("description", dz.1); ("totalPrice", PInt dz.2)]) items)
  = Ok (map PInt (map snd items)).
Proof.
  induction items as [|[desc z] items IH]; [reflexivity|].
  cbn [map total_prices fst snd]. rewrite IH. reflexivity.
Qed.

(** X12: when every price is an integer, the subtotal is the exact sum
    of the prices and is itself an integer: [sum] adds integers exactly and
    [round(n, 2)] returns an integer as it is. *)
Theorem subtotal_of_integer_prices (items : list (pyval * Z)) :
  subtotal_of
    (map (fun dz => PDict [("description", dz.1); ("totalPrice", PInt dz.2)]) items)
  = Ok (PInt (fold_right Z.add 0 (map snd items))).
Proof.
  unfold subtotal_of. rewrite total_prices_integers. cbn [mbind result_bind].
  unfold py_sum. rewrite sum_from_integers. reflexivity.
Qed.

Lemma total_prices_In items_list prices stored p :
  total_prices items_list = Ok prices -> In stored items_list ->
  py_getitem stored "totalPrice" = Ok p -> In p prices.
Proof.
  revert prices. induction items_list as [|it items IH]; intros prices; [intros _ []|].
  cbn [total_prices].
  intros (q & Hq & (ps & Hps & [= <-])%bind_Ok)%bind_Ok [->|Hin] Hp.
  - rewrite Hp in Hq. injection Hq as <-. left. reflexivity.
  - right. apply (IH _ Hps Hin Hp).
Qed.

Lemma Forall2_In_l {A B} (R : A -> B -> Prop) l1 l2 a :
  Forall2 R l1 l2 -> In a l1 -> exists b, In b l2 /\ R a b.
Proof.
  induction 1 as [|x y l1 l2 Hxy _ IH]; [intros []|].
  intros [->|Hin]; [exists y; split; [left; reflexivity|exact Hxy]|].
  destruct (IH Hin) as (b & Hb & Hr). exists b. split; [right; exact Hb|exact Hr].
Qed.

(** what the [try] block needs of a list under [Items] to set the
    binding *)
Lemma tableOutput_items az blob analysis document rest d repr l text :
  analyze_blob az blob = Ok analysis ->
  documents analysis = document :: rest ->
  fields document = PDict d ->
  dict_lookup "Items" d = Some (PObj repr (Some (PList l))) ->
  tableOutput az blob = Some text ->
  exists items_list subtotal,
    Forall2 (fun item stored => extract_item item = Ok stored) l items_list /\
    subtotal_of items_list = Ok subtotal.
Proof.
  intros Ea Ed Hd Hl
    (analysis' & document' & rest' & data & Ea' & Ed' & Eo & _)%tableOutput_Some.
  rewrite Ea in Ea'. injection Ea' as <-.
  rewrite Ed in Ed'. injection Ed' as <- <-.
  apply output_data_Ok in Eo as (items_list & sub & _ & _ & _ & Ei & Es & _).
  rewrite Hd in Ei. exists items_list, sub.
  split; [apply (extract_items_list _ _ _ _ Hl Ei)|exact Es].
Qed.

(** X13: a price that is truthy and not a number stops the record.  When
    an element of [Items] has a [TotalPrice] whose value is neither falsy
    nor an int, a float or a bool (a currency object, a string), [sum]
    raises and nothing is written. *)
Theorem non_numeric_price_writes_nothing
    az blob analysis document rest d repr l item_repr props price_repr price :
  analyze_blob az blob = Ok analysis ->
  documents analysis = document :: rest ->
  fields document = PDict d ->
  dict_lookup "Items" d = Some (PObj repr (Some (PList l))) ->
  In (PObj item_repr (Some (PDict props))) l ->
  dict_lookup "TotalPrice" props = Some (PObj price_repr (Some price)) ->
  truthy price = true -> is_number price = false ->
  tableOutput az blob = None.
Proof.
  intros Ea Ed Hd Hl Hin Hp Htruthy Hnum.
  destruct (tableOutput az blob) as [text|] eqn:Ht; [exfalso|reflexivity].
  destruct (tableOutput_items _ _ _ _ _ _ _ _ _ Ea Ed Hd Hl Ht)
    as (items_list & sub & Hall & Es).
  destruct (Forall2_In_l _ _ _ _ Hall Hin) as (stored & Hs & Hx).
  apply extract_item_Ok in Hx
    as (item_props & dfield & desc & pfield & price' & Hv & _ & _ & Hg & Hpv & ->).
  injection Hv as <-. cbn [py_get] in Hg. rewrite Hp in Hg. injection Hg as <-.
  injection Hpv as <-.
  unfold subtotal_of in Es.
  apply bind_Ok in Es as (prices & Hprices & (s & Hsum & _)%bind_Ok).
  assert (Hmem : In (py_or price (PInt 0)) prices).
  { apply (total_prices_In _ _ _ _ Hprices Hs). reflexivity. }
  unfold py_or in Hmem. rewrite Htruthy in Hmem.
  pose proof (sum_from_Ok _ _ _ Hsum) as Hnums.
  pose proof (proj1 (List.Forall_forall _ _) Hnums _ Hmem). congruence.
Qed.

(** X14: one element of [Items] that cannot be converted stops the
    record.  When converting an element raises (the element has no
    [value], or its value lacks the [Description] or the [TotalPrice]
    entry), nothing is written, whatever the other elements, the tax and
    the total are. *)
Theorem failing_item_writes_nothing az blob analysis document rest d repr l item e :
  analyze_blob az blob = Ok analysis ->
  documents analysis = document :: rest ->
  fields document = PDict d ->
  dict_lookup "Items" d = Some (PObj repr (Some (PList l))) ->
  In item l -> extract_item item = Raise e ->
  tableOutput az blob = None.
Proof.
  intros Ea Ed Hd Hl Hin He.
  destruct (tableOutput az blob) as [text|] eqn:Ht; [exfalso|reflexivity].
  destruct (tableOutput_items _ _ _ _ _ _ _ _ _ Ea Ed Hd Hl Ht)
    as (items_list & sub & Hall & _).
  destruct (Forall2_In_l _ _ _ _ Hall Hin) as (stored & _ & Hx). congruence.
Qed.

Lemma stored_from_extract item stored :
  stored_from item stored -> extract_item item = Ok stored.
Proof.
  intros (item_repr & props & desc_repr & desc & price_repr & price & -> & Hd & Hp & ->).
  unfold extract_item. cbn [attr_value mbind result_bind py_get].
  rewrite Hd, Hp. reflexivity.
Qed.

Lemma serializable_or_zero v :
  serializable v = true -> serializable (if truthy v then v else PInt 0) = true.
Proof. intros Hv. destruct (truthy v); [exact Hv|reflexivity]. Qed.

(** X19: a receipt of the expected shape is written.  When the first
    document has a list under [Items] whose elements all have a
    [Description] and a [TotalPrice] field, the stored items hold only
    what [json] can serialise, their prices can be summed, and [TotalTax]
    and [Total] are there with values that [json] can serialise, then
    [AnalyzeReceipt] sets the binding, and the text it sets is the JSON of
    the record with these items (as JSON text), their rounded sum, the tax
    and the total. *)
Theorem well_shaped_receipt_is_written
    az blob analysis document rest d repr l items_list subtotal
    tax_repr tax total_repr total :
  analyze_blob az blob = Ok analysis ->
  documents analysis = document :: rest ->
  fields document = PDict d ->
  dict_lookup "Items" d = Some (PObj repr (Some (PList l))) ->
  Forall2 stored_from l items_list ->
  serializable (PList items_list) = true ->
  subtotal_of items_list = Ok subtotal ->
  dict_lookup "TotalTax" d = Some (PObj tax_repr (Some tax)) ->
  dict_lookup "Total" d = Some (PObj total_repr (Some total)) ->
  serializable tax = true -> serializable total = true ->
  exists items_text text,
    json_dumps (PList items_list) = Ok items_text /\
    json_dumps (PDict [("PartitionKey", PStr "receipt");
                       ("RowKey", PStr (analyzer_receipt_id (name blob)));
                       ("items", PStr items_text); ("subtotal", subtotal);
                       ("tax", if truthy tax then tax else PInt 0);
                       ("total", if truthy total then total else PInt 0)]) = Ok text /\
    tableOutput az blob = Some text.
Proof.
  intros Ea Ed Hd Hl Hall Hser Hsub Htax Htot Hstax Hstot.
  destruct (encode_serializable _ Hser) as [items_text Hit].
  assert (Hsersub : serializable subtotal = true).
  { unfold subtotal_of in Hsub.
    apply bind_Ok in Hsub as (prices & _ & (s & _ & Hr)%bind_Ok).
    unfold py_round in Hr.
    destruct (as_number s) as [[z|x]|]; [| |discriminate]; injection Hr as <-; reflexivity. }
  assert (Hdata : serializable
                    (PDict [("PartitionKey", PStr "receipt");
                            ("RowKey", PStr (analyzer_receipt_id (name blob)));
                            ("items", PStr items_text); ("subtotal", subtotal);
                            ("tax", if truthy tax then tax else PInt 0);
                            ("total", if truthy total then total else PInt 0)]) = true).
  { cbn [serializable forallb snd].
    rewrite Hsersub, (serializable_or_zero _ Hstax), (serializable_or_zero _ Hstot).
    reflexivity. }
  destruct (encode_serializable _ Hdata) as [text Htext].
  exists items_text, text. split; [exact Hit|]. split; [exact Htext|].
  apply tableOutput_Some. exists analysis, document, rest. eexists.
  split; [exact Ea|]. split; [exact Ed|]. split; [|exact Htext].
  rewrite Hd. apply output_data_Ok.
  exists items_list, subtotal, items_text,
    (if truthy tax then tax else PInt 0), (if truthy total then total else PInt 0).
  split; [|split; [exact Hsub|split; [exact Hit|split; [|split; [|reflexivity]]]]].
  - apply extract_items_Ok. exists (PObj repr (Some (PList l))).
    split; [cbn [py_get]; rewrite Hl; reflexivity|].
    right. exists (PList l). split; [reflexivity|]. split; [reflexivity|].
    destruct l as [|item l].
    + left. inversion Hall. split; reflexivity.
    + right. exists (item :: l). split; [reflexivity|]. split; [reflexivity|].
      clear -Hall. induction Hall as [|x y l1 l2 Hxy _ IH]; constructor.
      * apply stored_from_extract, Hxy.
      * exact IH.
  - apply field_or_zero_Ok. exists d, tax_repr, tax. repeat split. exact Htax.
  - apply field_or_zero_Ok. exists d, total_repr, total. repeat split. exact Htot.
Qed.

(** ** Rows of the table *)

(** X15: one delivery changes no row but its own: every row of the
    table under another key is after the delivery what it was before. *)
Theorem trigger_keeps_other_rows az blob tbl (key : string * string) :
  well_formed_analysis az blob ->
  key <> ("receipt", analyzer_receipt_id (name blob)) ->
  trigger az blob tbl !! key = tbl !! key.
Proof.
  intros Hwf Hk.
  destruct (tableOutput az blob) as [text|] eqn:Ht.
  - destruct (trigger_written _ _ _ tbl Hwf Ht) as (record & _ & _ & _ & ->).
    apply lookup_insert_ne. congruence.
  - rewrite trigger_tableOutput, Ht. reflexivity.
Qed.

(** X16: objects whose names differ only in the directory or in the
    extension share one row.  When two objects have the same base name
    before the extension, the record written for the second replaces the
    record written for the first: afterwards the table is what the second
    delivery alone would have made of it. *)
Theorem same_stem_overwrites
    az1 az2 blob1 blob2 text1 text2 tbl dir1 dir2 base ext1 ext2 :
  name blob1 = dir1 ++ base ++ String "." ext1 ->
  name blob2 = dir2 ++ base ++ String "." ext2 ->
  (dir1 = "" \/ exists d, dir1 = d ++ "/") ->
  (dir2 = "" \/ exists d, dir2 = d ++ "/") ->
  Str.mem "/" base = false -> Str.has_other "." base = true ->
  Str.mem "/" ext1 = false -> Str.mem "." ext1 = false ->
  Str.mem "/" ext2 = false -> Str.mem "." ext2 = false ->
  well_formed_analysis az1 blob1 -> tableOutput az1 blob1 = Some text1 ->
  well_formed_analysis az2 blob2 -> tableOutput az2 blob2 = Some text2 ->
  exists record2,
    json_loads text2 = Ok (PDict record2) /\
    analyzer_receipt_id (name blob1) = base /\
    analyzer_receipt_id (name blob2) = base /\
    trigger az2 blob2 (trigger az1 blob1 tbl) !! ("receipt", base) = Some record2 /\
    trigger az2 blob2 (trigger az1 blob1 tbl) = trigger az2 blob2 tbl.
Proof.
  intros Hn1 Hn2 Hd1 Hd2 Hb Ho Hs1 He1 Hs2 He2 Hwf1 Ht1 Hwf2 Ht2.
  assert (K1 : analyzer_receipt_id (name blob1) = base).
  { rewrite Hn1. apply analyzer_receipt_id_stem; assumption. }
  assert (K2 : analyzer_receipt_id (name blob2) = base).
  { rewrite Hn2. apply analyzer_receipt_id_stem; assumption. }
  destruct (trigger_written _ _ _ tbl Hwf1 Ht1) as (record1 & _ & _ & _ & E1).
  destruct (trigger_written _ _ _ tbl Hwf2 Ht2) as (record2 & L2 & _ & _ & E2).
  destruct (trigger_written _ _ _ (trigger az1 blob1 tbl) Hwf2 Ht2)
    as (record2' & L2' & _ & _ & E12).
  rewrite L2 in L2'. injection L2' as <-.
  exists record2. split; [exact L2|]. split; [exact K1|]. split; [exact K2|].
  rewrite E12, E2, E1, K1, K2. split.
  - apply lookup_insert_eq.
  - apply insert_insert_eq.
Qed.

(** ** The addresses handed out *)

(** X17: the upload address in the answer of [get_upload_url] is the
    address of the object named in the same answer, in the receipts
    container of the storage account, followed by a token that was
    generated for that account, container and object name, with the write
    permission and an expiry five minutes after the call. *)
Theorem upload_url_addresses_blob az req response :
  get_upload_url_try az = Ok response ->
  exists client key token,
    BlobServiceClient_from_connection_string az (STORAGE_CONNECT_STR az) = Ok client /\
    credential_account_key client = Ok key /\
    generate_blob_sas az (account_name client) "receipts"
      (uuid_str (uuid4 az) ++ ".jpg") key SasWrite (utcnow az + 300) = Ok token /\
    get_upload_url az req = response /\
    json_loads (body response)
    = Ok (PDict [("sasUrl",
                  PStr ("https://" ++ account_name client ++
                        ".blob.core.windows.net/receipts/" ++
                        (uuid_str (uuid4 az) ++ ".jpg") ++ "?" ++ token));
                 ("blobName", PStr (uuid_str (uuid4 az) ++ ".jpg"))]).
Proof.
  intros Ht. unfold get_upload_url. rewrite Ht.
  unfold get_upload_url_try in Ht.
  apply bind_Ok in Ht as (client & Hc & Ht). cbv zeta in Ht.
  apply bind_Ok in Ht as (key & Hk & Ht).
  apply bind_Ok in Ht as (token & Hg & Ht).
  apply bind_Ok in Ht as (text & Hj & [= <-]).
  exists client, key, token. repeat split; try assumption.
  cbn [body]. apply (json_loads_dumps _ _ Hj). reflexivity.
Qed.

(** X18: the address that [AnalyzeReceipt] gives to the analysis service
    is the storage account's address followed by the whole name of the
    triggering object and a token; the token is generated for the last
    component of that name alone, in the receipts container, with the read
    permission and an expiry five minutes after the call. *)
Theorem analysis_url_and_token az blob dir base client key :
  name blob = dir ++ "/" ++ base -> Str.mem "/" base = false ->
  DocumentAnalysisClient az (DOC_INTELLIGENCE_ENDPOINT az) (DOC_INTELLIGENCE_KEY az)
  = Ok tt ->
  BlobServiceClient_from_connection_string az (STORAGE_CONNECT_STR az) = Ok client ->
  credential_account_key client = Ok key ->
  analyze_blob az blob
  = match generate_blob_sas az (account_name client) "receipts" base key SasRead
            (utcnow az + 300) with
    | Ok token =>
        begin_analyze_document_from_url az "prebuilt-receipt"
          ("https://" ++ account_name client ++ ".blob.core.windows.net/" ++
           (dir ++ "/" ++ base) ++ "?" ++ token)
    | Raise e => Raise e
    end.
Proof.
  intros Hn Hb Hd Hc Hk. unfold analyze_blob.
  rewrite Hd, Hc. cbn [mbind result_bind]. rewrite Hk. cbn [mbind result_bind].
  rewrite Hn. change (dir ++ "/" ++ base) with (dir ++ String "/" base).
  rewrite last_piece_split, (last_piece_absent _ _ Hb). reflexivity.
Qed.

End Handlers.

(** * A scenario

    Concrete services, receipts and requests on which the handlers run. *)

Module Scenario.

Import Cents.

(** a [DocumentField] with the given value *)
Definition Field (v : pyval) : pyval := PObj "DocumentField" (Some v).

Definition amount (hundredths : Z) : pyval := PFloat (Fin hundredths).

Definition item (description : string) (hundredths : Z) : pyval :=
  Field (PDict [("Description", Field (PStr description));
                ("TotalPrice", Field (amount hundredths))]).

Definition storage : BlobServiceClient :=
  {| account_name := "billsplitterstorage0725"; credential_account_key := Ok "key" |}.

(** services that answer; the analysis and the table are given *)
Definition azure (analysis : result AnalyzeResult)
    (tbl : gmap (string * string) (list (string * pyval))) : Azure :=
  {| STORAGE_CONNECT_STR := Some "UseDevelopmentStorage=true";
     DOC_INTELLIGENCE_ENDPOINT := Some "https://example.cognitiveservices.azure.com/";
     DOC_INTELLIGENCE_KEY := Some "key";
     uuid4 := {| uuid_int := 24197857161011715162171839636988778104 |};
     utcnow := 1700000000;
     BlobServiceClient_from_connection_string := fun _ => Ok storage;
     generate_blob_sas := fun _ _ _ _ _ _ => Ok "sig=abc";
     DocumentAnalysisClient := fun _ _ => Ok tt;
     begin_analyze_document_from_url := fun _ _ => analysis;
     TableClient_from_connection_string := fun _ _ =>
       Ok {| get_entity := table_get_entity tbl |} |}.

Definition one_document (receipt : pyval) : result AnalyzeResult :=
  Ok {| documents := [{| fields := receipt |}] |}.

Definition blob : InputStream := {| name := "receipts/abc123.jpg" |}.

Definition receipt : pyval :=
  PDict [("Items", Field (PList [item "Latte" 1000; item "Bagel" 550]));
         ("TotalTax", Field (amount 100)); ("Total", Field (amount 1650))].

Definition request (blob_name : string) : HttpRequest :=
  {| route_params := {["blobName" := blob_name]} |}.


(** the services without the analysis key: building the client raises *)
Definition azure_without_key (az : Azure) : Azure :=
  {| STORAGE_CONNECT_STR := STORAGE_CONNECT_STR az;
     DOC_INTELLIGENCE_ENDPOINT := DOC_INTELLIGENCE_ENDPOINT az;
     DOC_INTELLIGENCE_KEY := None;
     uuid4 := uuid4 az;
     utcnow := utcnow az;
     BlobServiceClient_from_connection_string :=
       BlobServiceClient_from_connection_string az;
     generate_blob_sas := generate_blob_sas az;
     DocumentAnalysisClient := fun _ key =>
       match key with Some _ => Ok tt | None => Raise TypeError end;
     begin_analyze_document_from_url := begin_analyze_document_from_url az;
     TableClient_from_connection_string := TableClient_from_connection_string az |}.

(** the same receipt, read with another total *)
Definition receipt_again : pyval :=
  PDict [("Items", Field (PList [item "Latte" 1000; item "Bagel" 550]));
         ("TotalTax", Field (amount 100)); ("Total", Field (amount 1660))].

(** no [TotalTax] entry *)
Definition receipt_without_tax : pyval :=
  PDict [("Items", Field (PList [item "Latte" 1000]));
         ("Total", Field (amount 1000))].


(** no [Items] entry, and a tax that is a currency object *)
Definition receipt_currency_tax : pyval :=
  PDict [("TotalTax", Field (PObj "CurrencyValue(amount=1.0, symbol=$)" None));
         ("Total", Field (amount 1650))].

(** no [Items] entry *)
Definition receipt_without_items : pyval :=
  PDict [("TotalTax", Field (amount 100)); ("Total", Field (amount 1650))].

Definition written (receipt : pyval) : string :=
  default "" (tableOutput (azure (one_document receipt) ∅) blob).

(** the same picture stored under another extension *)
Definition blob_png : InputStream := {| name := "receipts/abc123.png" |}.

(** a tax that was not read *)
Definition receipt_null_tax : pyval :=
  PDict [("Items", Field (PList [item "Latte" 1000]));
         ("TotalTax", Field PNone); ("Total", Field (amount 1000))].

(** a price that is a currency object *)
Definition receipt_currency_price : pyval :=
  PDict [("Items",
          Field (PList [item "Bagel" 550;
                        Field (PDict [("Description", Field (PStr "Latte"));
                                      ("TotalPrice",
                                       Field (PObj "CurrencyValue(amount=10.0, symbol=$)"
                                                None))])]));
         ("TotalTax", Field (amount 100)); ("Total", Field (amount 1650))].

(** an item without a [Description] entry *)
Definition receipt_without_description : pyval :=
  PDict [("Items",
          Field (PList [item "Bagel" 550;
                        Field (PDict [("TotalPrice", Field (amount 1000))])]));
         ("TotalTax", Field (amount 100)); ("Total", Field (amount 1650))].

(** the record stored for [receipt] *)
Definition stored_record : list (string * pyval) :=
  match json_loads (written receipt) with
  | Ok (PDict record) => record
  | _ => []
  end.


(** the answer of [get_upload_url] *)
Definition ticket : HttpResponse :=
  get_upload_url (azure (one_document receipt) ∅) {| route_params := ∅ |}.

End Scenario.

Import Scenario.
Import Cents.

Lemma scenario_well_formed receipt tbl :
  well_formed receipt = true ->
  well_formed_analysis (azure (one_document receipt) tbl) blob.
Proof.
  intros Hw analysis Ha.
  change (Ok {| documents := [{| fields := receipt |}] |} = Ok analysis) in Ha.
  injection Ha as <-. repeat constructor. exact Hw.
Qed.

(** The end-to-end scenario of the specification: [abc123.jpg] with two
    items of 10.00 and 5.50, tax 1.00 and total 16.50. *)
Example scenario_abc123 :
  exists items_text,
    trigger (azure (one_document receipt) ∅) blob ∅ !! ("receipt", "abc123")
    = Some [("PartitionKey", PStr "receipt"); ("RowKey", PStr "abc123");
            ("items", PStr items_text);
            ("subtotal", amount 1550); ("tax", amount 100); ("total", amount 1650)] /\
    json_loads items_text
    = Ok (PList [PDict [("description", PStr "Latte"); ("totalPrice", amount 1000)];
                 PDict [("description", PStr "Bagel"); ("totalPrice", amount 550)]]) /\
    Cents.json (Fin 1550) = "15.5".
Proof. eexists. repeat split; reflexivity. Qed.


(** C2 on a receipt without a [TotalTax] entry: nothing is written,
    where the claim has a record with tax 0. *)
Lemma C2_witness :
  tableOutput (azure (one_document receipt_without_tax) ∅) blob = None.
Proof.
  apply (C2_absent_field_writes_nothing (azure (one_document receipt_without_tax) ∅) blob
           {| documents := [{| fields := receipt_without_tax |}] |}
           {| fields := receipt_without_tax |} []
           [("Items", Field (PList [item "Latte" 1000])); ("Total", Field (amount 1000))]).
  - reflexivity.
  - reflexivity.
  - reflexivity.
  - left. reflexivity.
Defined.



(** C5 when the analysis key is missing: building the client raises. *)
Lemma C5_witness :
  AnalyzeReceipt (azure_without_key (azure (one_document receipt) ∅)) blob None
  = (None, Ok tt) /\
  trigger (azure_without_key (azure (one_document receipt) ∅)) blob ∅ = ∅.
Proof.
  apply (C5_exception_swallowed (azure_without_key (azure (one_document receipt) ∅)) blob
           None TypeError ∅).
  reflexivity.
Defined.





(** C10 as stated fails: a first document without [Items] whose
    [TotalTax] is a currency object, which [json.dumps] refuses; nothing is
    written. *)
Lemma C10_counterexample :
  analyze_blob (azure (one_document receipt_currency_tax) ∅) blob
  = Ok {| documents := [{| fields := receipt_currency_tax |}] |} /\
  py_get receipt_currency_tax "Items" PNone = Ok PNone /\
  tableOutput (azure (one_document receipt_currency_tax) ∅) blob = None.
Proof. repeat split; reflexivity. Qed.


(** C10, as amended, on a receipt without [Items]. *)
Lemma C10_witness :
  exists text,
    tableOutput (azure (one_document receipt_without_items) ∅) blob = Some text /\
    json_dumps (PDict [("PartitionKey", PStr "receipt");
                       ("RowKey", PStr (analyzer_receipt_id (name blob)));
                       ("items", PStr "[]"); ("subtotal", PInt 0);
                       ("tax", py_or (amount 100) (PInt 0));
                       ("total", py_or (amount 1650) (PInt 0))]) = Ok text /\
    json_loads "[]" = Ok (PList []).
Proof.
  apply (C10_no_items (azure (one_document receipt_without_items) ∅) blob
           {| documents := [{| fields := receipt_without_items |}] |}
           {| fields := receipt_without_items |} []
           [("TotalTax", Field (amount 100)); ("Total", Field (amount 1650))]
           (Field (amount 100)) (amount 100) (Field (amount 1650)) (amount 1650));
    reflexivity.
Defined.

Lemma scenario_well_formed_for receipt tbl b :
  well_formed receipt = true ->
  well_formed_analysis (azure (one_document receipt) tbl) b.
Proof.
  intros Hw analysis Ha.
  change (Ok {| documents := [{| fields := receipt |}] |} = Ok analysis) in Ha.
  injection Ha as <-. repeat constructor. exact Hw.
Qed.

(** X2 on [receipts/abc123.jpg]. *)
Lemma reader_key_is_analyzer_key_witness :
  analyzer_receipt_id ("receipts" ++ "/" ++ "abc123.jpg") = reader_receipt_id "abc123.jpg".
Proof. apply (reader_key_is_analyzer_key "receipts" "abc123.jpg"). reflexivity. Defined.

(** X5 on the name [receipts/abc123.jpg], asked for with its
    container. *)
Lemma reader_key_with_slash_witness :
  Str.mem "/" (reader_receipt_id "receipts/abc123.jpg") = true /\
  reader_receipt_id "receipts/abc123.jpg" <> analyzer_receipt_id "receipts/abc123.jpg".
Proof.
  apply (reader_key_with_slash "receipts/abc123.jpg" "receipts/abc123.jpg").
  reflexivity.
Defined.


(** X7 on a row whose [items] is the text of the empty list. *)
Lemma decode_items_only_items_witness :
  let entity := [("items", PStr "[]"); ("total", amount 100)] in
  let decoded := [("items", PList []); ("total", amount 100)] in
  map fst decoded = map fst entity /\
  (forall k, k <> "items" -> dict_lookup k decoded = dict_lookup k entity) /\
  (forall text, dict_lookup "items" entity = Some (PStr text) ->
     exists v, json_loads text = Ok v /\ dict_lookup "items" decoded = Some v) /\
  ((forall text, dict_lookup "items" entity <> Some (PStr text)) -> decoded = entity).
Proof.
  apply (decode_items_only_items [("items", PStr "[]"); ("total", amount 100)]
           [("items", PList []); ("total", amount 100)]).
  reflexivity.
Defined.

(** X8 on the scenario of the specification: the record written for
    [receipts/abc123.jpg] is read back through [abc123.jpg]. *)
Lemma read_after_write_witness :
  let az := azure (one_document receipt) ∅ in
  let az' := with_table az (trigger az blob ∅) in
  exists analysis document rest items_list subtotal tax total,
    analyze_blob az blob = Ok analysis /\
    documents analysis = document :: rest /\
    extract_items (fields document) = Ok items_list /\
    subtotal_of items_list = Ok subtotal /\
    status_code (get_receipt_results az' (request "abc123.jpg")) = 200 /\
    mimetype (get_receipt_results az' (request "abc123.jpg")) = "application/json" /\
    json_loads (body (get_receipt_results az' (request "abc123.jpg")))
    = Ok (PDict [("PartitionKey", PStr "receipt");
                 ("RowKey", PStr (analyzer_receipt_id (name blob)));
                 ("items", PList items_list); ("subtotal", subtotal);
                 ("tax", tax); ("total", total)]).
Proof.
  apply (read_after_write (azure (one_document receipt) ∅) blob (written receipt)
           stored_record
           (with_table (azure (one_document receipt) ∅)
              (trigger (azure (one_document receipt) ∅) blob ∅))
           (request "abc123.jpg") "abc123.jpg").
  - apply scenario_well_formed. reflexivity.
  - vm_compute. reflexivity.
  - reflexivity.
  - reflexivity.
  - discriminate.
  - reflexivity.
Defined.

(** X9 on a receipt whose tax was not read: the record holds the tax
    0. *)
Lemma written_tax_and_total_witness :
  exists analysis document rest d tax_repr tax_value total_repr total_value record,
    analyze_blob (azure (one_document receipt_null_tax) ∅) blob = Ok analysis /\
    documents analysis = document :: rest /\
    fields document = PDict d /\
    dict_lookup "TotalTax" d = Some (PObj tax_repr (Some tax_value)) /\
    dict_lookup "Total" d = Some (PObj total_repr (Some total_value)) /\
    json_loads (written receipt_null_tax) = Ok (PDict record) /\
    dict_lookup "tax" record = Some (if truthy tax_value then tax_value else PInt 0) /\
    dict_lookup "total" record
    = Some (if truthy total_value then total_value else PInt 0) /\
    dict_lookup "tax" record <> Some PNone /\
    dict_lookup "total" record <> Some PNone.
Proof.
  apply (written_tax_and_total (azure (one_document receipt_null_tax) ∅) blob
           (written receipt_null_tax)).
  - apply scenario_well_formed. reflexivity.
  - vm_compute. reflexivity.
Defined.

(** the record of that receipt: the tax is the integer 0 *)
Example null_tax_is_zero :
  exists items_text,
    json_loads (written receipt_null_tax)
    = Ok (PDict [("PartitionKey", PStr "receipt"); ("RowKey", PStr "abc123");
                 ("items", PStr items_text); ("subtotal", amount 1000);
                 ("tax", PInt 0); ("total", amount 1000)]).
Proof. eexists. reflexivity. Qed.

(** X10 on the scenario of the specification. *)
Lemma written_record_shape_witness :
  exists items_text items_list subtotal tax total,
    json_loads (written receipt)
    = Ok (PDict [("PartitionKey", PStr "receipt");
                 ("RowKey", PStr (analyzer_receipt_id (name blob)));
                 ("items", PStr items_text); ("subtotal", subtotal);
                 ("tax", tax); ("total", total)]) /\
    json_loads items_text = Ok (PList items_list) /\
    ((exists z, subtotal = PInt z) \/ (exists x, subtotal = PFloat x)) /\
    serializable tax = true /\ serializable total = true.
Proof.
  apply (written_record_shape (azure (one_document receipt) ∅) blob (written receipt)).
  - apply scenario_well_formed. reflexivity.
  - vm_compute. reflexivity.
Defined.

(** X11 on the scenario of the specification: two elements, two stored
    items. *)
Lemma stored_items_in_order_witness :
  exists record items_text items_list,
    json_loads (written receipt) = Ok (PDict record) /\
    dict_lookup "items" record = Some (PStr items_text) /\
    json_loads items_text = Ok (PList items_list) /\
    Forall2 stored_from [item "Latte" 1000; item "Bagel" 550] items_list /\
    length items_list = length [item "Latte" 1000; item "Bagel" 550].
Proof.
  apply (stored_items_in_order (azure (one_document receipt) ∅) blob (written receipt)
           {| documents := [{| fields := receipt |}] |} {| fields := receipt |} []
           [("Items", Field (PList [item "Latte" 1000; item "Bagel" 550]));
            ("TotalTax", Field (amount 100)); ("Total", Field (amount 1650))]
           "DocumentField" [item "Latte" 1000; item "Bagel" 550]).
  - apply scenario_well_formed. reflexivity.
  - vm_compute. reflexivity.
  - reflexivity.
  - reflexivity.
  - reflexivity.
  - reflexivity.
Defined.

(** X13 on a receipt whose second item has a currency object as its
    price. *)
Lemma non_numeric_price_writes_nothing_witness :
  tableOutput (azure (one_document receipt_currency_price) ∅) blob = None.
Proof.
  apply (non_numeric_price_writes_nothing
           (azure (one_document receipt_currency_price) ∅) blob
           {| documents := [{| fields := receipt_currency_price |}] |}
           {| fields := receipt_currency_price |} []
           [("Items",
             Field (PList [item "Bagel" 550;
                           Field (PDict [("Description", Field (PStr "Latte"));
                                         ("TotalPrice",
                                          Field (PObj "CurrencyValue(amount=10.0, symbol=$)"
                                                   None))])]));
            ("TotalTax", Field (amount 100)); ("Total", Field (amount 1650))]
           "DocumentField"
           [item "Bagel" 550;
            Field (PDict [("Description", Field (PStr "Latte"));
                          ("TotalPrice",
                           Field (PObj "CurrencyValue(amount=10.0, symbol=$)" None))])]
           "DocumentField"
           [("Description", Field (PStr "Latte"));
            ("TotalPrice", Field (PObj "CurrencyValue(amount=10.0, symbol=$)" None))]
           "DocumentField" (PObj "CurrencyValue(amount=10.0, symbol=$)" None)).
  - reflexivity.
  - reflexivity.
  - reflexivity.
  - reflexivity.
  - right. left. reflexivity.
  - reflexivity.
  - reflexivity.
  - reflexivity.
Defined.

(** X14 on a receipt whose second item has no [Description] entry. *)
Lemma failing_item_writes_nothing_witness :
  tableOutput (azure (one_document receipt_without_description) ∅) blob = None.
Proof.
  apply (failing_item_writes_nothing
           (azure (one_document receipt_without_description) ∅) blob
           {| documents := [{| fields := receipt_without_description |}] |}
           {| fields := receipt_without_description |} []
           [("Items",
             Field (PList [item "Bagel" 550;
                           Field (PDict [("TotalPrice", Field (amount 1000))])]));
            ("TotalTax", Field (amount 100)); ("Total", Field (amount 1650))]
           "DocumentField"
           [item "Bagel" 550; Field (PDict [("TotalPrice", Field (amount 1000))])]
           (Field (PDict [("TotalPrice", Field (amount 1000))])) AttributeError).
  - reflexivity.
  - reflexivity.
  - reflexivity.
  - reflexivity.
  - right. left. reflexivity.
  - reflexivity.
Defined.

(** X15 on a table that holds another receipt. *)
Lemma trigger_keeps_other_rows_witness :
  let tbl : gmap (string * string) (list (string * pyval)) :=
    {[("receipt", "other") := [("total", amount 100)]]} in
  trigger (azure (one_document receipt) ∅) blob tbl !! ("receipt", "other")
  = tbl !! ("receipt", "other").
Proof.
  apply (trigger_keeps_other_rows (azure (one_document receipt) ∅) blob
           {[("receipt", "other") := [("total", amount 100)]]} ("receipt", "other")).
  - apply scenario_well_formed. reflexivity.
  - discriminate.
Defined.

(** X16 on [receipts/abc123.jpg] and [receipts/abc123.png]. *)
Lemma same_stem_overwrites_witness :
  let az1 := azure (one_document receipt) ∅ in
  let az2 := azure (one_document receipt_again) ∅ in
  exists record2,
    json_loads (default "" (tableOutput az2 blob_png)) = Ok (PDict record2) /\
    analyzer_receipt_id (name blob) = "abc123" /\
    analyzer_receipt_id (name blob_png) = "abc123" /\
    trigger az2 blob_png (trigger az1 blob ∅) !! ("receipt", "abc123") = Some record2 /\
    trigger az2 blob_png (trigger az1 blob ∅) = trigger az2 blob_png ∅.
Proof.
  apply (same_stem_overwrites (azure (one_document receipt) ∅)
           (azure (one_document receipt_again) ∅) blob blob_png
           (written receipt)
           (default "" (tableOutput (azure (one_document receipt_again) ∅) blob_png))
           ∅ "receipts/" "receipts/" "abc123" "jpg" "png").
  - reflexivity.
  - reflexivity.
  - right. exists "receipts". reflexivity.
  - right. exists "receipts". reflexivity.
  - reflexivity.
  - reflexivity.
  - reflexivity.
  - reflexivity.
  - reflexivity.
  - reflexivity.
  - apply scenario_well_formed. reflexivity.
  - vm_compute. reflexivity.
  - apply scenario_well_formed_for. reflexivity.
  - vm_compute. reflexivity.
Defined.

(** X17 on the services of the scenario. *)
Lemma upload_url_addresses_blob_witness :
  let az := azure (one_document receipt) ∅ in
  exists client key token,
    BlobServiceClient_from_connection_string az (STORAGE_CONNECT_STR az) = Ok client /\
    credential_account_key client = Ok key /\
    generate_blob_sas az (account_name client) "receipts"
      (uuid_str (uuid4 az) ++ ".jpg") key SasWrite (utcnow az + 300) = Ok token /\
    get_upload_url az {| route_params := ∅ |} = ticket /\
    json_loads (body ticket)
    = Ok (PDict [("sasUrl",
                  PStr ("https://" ++ account_name client ++
                        ".blob.core.windows.net/receipts/" ++
                        (uuid_str (uuid4 az) ++ ".jpg") ++ "?" ++ token));
                 ("blobName", PStr (uuid_str (uuid4 az) ++ ".jpg"))]).
Proof.
  apply (upload_url_addresses_blob (azure (one_document receipt) ∅)
           {| route_params := ∅ |} ticket).
  vm_compute. reflexivity.
Defined.

(** the ticket of the scenario *)
Example ticket_abc :
  json_loads (body ticket)
  = Ok (PDict [("sasUrl",
                PStr ("https://billsplitterstorage0725.blob.core.windows.net/receipts/" ++
                      "12345678-1234-5678-1234-567812345678.jpg?sig=abc"));
               ("blobName", PStr "12345678-1234-5678-1234-567812345678.jpg")]).
Proof. reflexivity. Qed.

(** X18 on [receipts/abc123.jpg]. *)
Lemma analysis_url_and_token_witness :
  let az := azure (one_document receipt) ∅ in
  analyze_blob az blob
  = match generate_blob_sas az (account_name storage) "receipts" "abc123.jpg" "key"
            SasRead (utcnow az + 300) with
    | Ok token =>
        begin_analyze_document_from_url az "prebuilt-receipt"
          ("https://" ++ account_name storage ++ ".blob.core.windows.net/" ++
           ("receipts" ++ "/" ++ "abc123.jpg") ++ "?" ++ token)
    | Raise e => Raise e
    end.
Proof.
  apply (analysis_url_and_token (azure (one_document receipt) ∅) blob
           "receipts" "abc123.jpg" storage "key"); reflexivity.
Defined.

(** X19 on the scenario of the specification: the receipt with two
    items is written. *)
Lemma well_shaped_receipt_is_written_witness :
  exists items_text text,
    json_dumps (PList [PDict [("description", PStr "Latte"); ("totalPrice", amount 1000)];
                       PDict [("description", PStr "Bagel"); ("totalPrice", amount 550)]])
    = Ok items_text /\
    json_dumps (PDict [("PartitionKey", PStr "receipt");
                       ("RowKey", PStr (analyzer_receipt_id (name blob)));
                       ("items", PStr items_text); ("subtotal", amount 1550);
                       ("tax", if truthy (amount 100) then amount 100 else PInt 0);
                       ("total", if truthy (amount 1650) then amount 1650 else PInt 0)])
    = Ok text /\
    tableOutput (azure (one_document receipt) ∅) blob = Some text.
Proof.
  apply (well_shaped_receipt_is_written (azure (one_document receipt) ∅) blob
           {| documents := [{| fields := receipt |}] |} {| fields := receipt |} []
           [("Items", Field (PList [item "Latte" 1000; item "Bagel" 550]));
            ("TotalTax", Field (amount 100)); ("Total", Field (amount 1650))]
           "DocumentField" [item "Latte" 1000; item "Bagel" 550]
           [PDict [("description", PStr "Latte"); ("totalPrice", amount 1000)];
            PDict [("description", PStr "Bagel"); ("totalPrice", amount 550)]]
           (amount 1550)
           "DocumentField" (amount 100) "DocumentField" (amount 1650)).
  - reflexivity.
  - reflexivity.
  - reflexivity.
  - reflexivity.
  - repeat constructor; do 6 eexists; repeat split; reflexivity.
  - reflexivity.
  - reflexivity.
  - reflexivity.
  - reflexivity.
  - reflexivity.
  - reflexivity.
Defined.
